(** * Consensus validation of classzz: a shallow embedding of
    [blockchain/validate.go], [blockchain/difficulty.go] and
    [cross/verifyEntangle.go], with the properties of the specification
    that can be settled on them. *)

From Stdlib Require Import ZArith List String Bool Lia.
From Stdlib Require Import Strings.Byte.
From stdpp Require Import base decidable countable gmap.

Local Open Scope Z_scope.

(** ** Go machine integers and outcomes *)

Module Go.

(** A value of an unsigned [w]-bit type: conversions and arithmetic wrap. *)
Definition wrapU (w z : Z) : Z := z mod 2 ^ w.

(** A value of a signed [w]-bit type, two's complement. *)
Definition wrapS (w z : Z) : Z := (z + 2 ^ (w - 1)) mod 2 ^ w - 2 ^ (w - 1).

Definition uint8 := wrapU 8.
Definition uint32 := wrapU 32.
Definition uint64 := wrapU 64.
(** [uint] and [int] are 64 bits wide: [baseSubsidy] does not fit 32. *)
Definition uint := wrapU 64.
Definition int32 := wrapS 32.
Definition int64 := wrapS 64.
Definition int := wrapS 64.

Definition is_int32 (z : Z) : Prop := - 2 ^ 31 <= z < 2 ^ 31.
Definition is_int64 (z : Z) : Prop := - 2 ^ 63 <= z < 2 ^ 63.
Definition is_uint32 (z : Z) : Prop := 0 <= z < 2 ^ 32.

Definition MaxUint32 : Z := 2 ^ 32 - 1.

(** What the [error] interface carries in this package: a [RuleError]
    with its code, a plain [errors.New] text, or an error handed up
    from a collaborator (database, RPC, script engine). *)
Inductive ErrorCode :=
| ErrUnexpectedDifficulty | ErrInvalidTime | ErrTimeTooOld | ErrTimeTooNew
| ErrNoTransactions | ErrNoTxInputs | ErrNoTxOutputs | ErrTxTooBig
| ErrTxTooSmall | ErrTxTooManySigOps | ErrBadTxOutValue | ErrBadTxInput
| ErrDuplicateTxInputs | ErrDuplicateTx | ErrBadCoinbaseScriptLen
| ErrFirstTxNotCoinbase | ErrMultipleCoinbases | ErrBadMerkleRoot
| ErrInvalidTxOrder | ErrMissingCoinbaseHeight | ErrBadCoinbaseHeight
| ErrBadCheckpoint | ErrForkTooOld | ErrPrevBlockNotBest | ErrBlockTooBig
| ErrUnfinalizedTx | ErrMissingTxOut | ErrSpentTxOut | ErrImmatureSpend
| ErrSpendTooHigh | ErrBadFees | ErrTooManySigOps | ErrBadCoinbaseValue
| ErrHighHash.

Inductive error :=
| ruleError (c : ErrorCode)
| errorsNew (text : string)
| foreignError (tag : Z).

(** The three ways a Go call ends: it returns a value, it returns a
    non-nil [error], or it panics at run time. *)
Inductive outcome (A : Type) :=
| Ok (a : A)
| Err (e : error)
| Panic (why : string).
Arguments Ok {A} a.
Arguments Err {A} e.
Arguments Panic {A} why.

Definition bind {A B} (m : outcome A) (k : A -> outcome B) : outcome B :=
  match m with
  | Ok a => k a
  | Err e => Err e
  | Panic s => Panic s
  end.

(** [len(s)] *)
Definition len {A} (s : list A) : Z := Z.of_nat (length s).

(** [s[i]] on a slice: a run-time panic when [i] is out of range. *)
Definition index {A} (s : list A) (i : Z) : outcome A :=
  if (i <? 0) || (len s <=? i) then Panic "index out of range"
  else match nth_error s (Z.to_nat i) with
       | Some a => Ok a
       | None => Panic "index out of range"
       end.

End Go.
Export Go.

Notation "x <- m ;; k" := (Go.bind m (fun x => k))
  (at level 60, m at next level, right associativity).

(** ** math/big as used by the difficulty code *)

Module Big.

(** [len(n.Bytes())]: the bytes of the absolute value, none for zero. *)
Definition byteLen (n : Z) : Z :=
  if n =? 0 then 0 else Z.log2 (Z.abs n) / 8 + 1.

(** [n.Bits()[0]] for a non-zero [n]: the low 64-bit word of the
    absolute value. *)
Definition lowWord (n : Z) : Z := Z.abs n mod 2 ^ 64.

(** [z.Div(x, y)]: Euclidean division, a run-time panic for [y = 0]. *)
Definition Div (x y : Z) : outcome Z :=
  if y =? 0 then Panic "division by zero"
  else Ok (Z.sgn y * (x / Z.abs y)).

End Big.

(** ** The compact encoding of targets (difficulty.go) *)

Module Compact.

Definition CompactToBig (compact : Z) : Z :=
  let mantissa := Z.land compact 0x007fffff in
  let isNegative := negb (Z.land compact 0x00800000 =? 0) in
  let exponent := uint (Z.shiftr compact 24) in
  let bn :=
    if exponent <=? 3
    then uint32 (Z.shiftr mantissa (8 * (3 - exponent)))
    else Z.shiftl mantissa (8 * (exponent - 3)) in
  if isNegative then - bn else bn.

Definition BigToCompact (n : Z) : Z :=
  if Z.sgn n =? 0 then 0 else
  let exponent := uint (Big.byteLen n) in
  let mantissa :=
    if exponent <=? 3
    then uint32 (Z.shiftl (uint32 (Big.lowWord n)) (8 * (3 - exponent)))
    else uint32 (Big.lowWord (Z.shiftr n (8 * (exponent - 3)))) in
  let collide := negb (Z.land mantissa 0x00800000 =? 0) in
  let mantissa' := if collide then Z.shiftr mantissa 8 else mantissa in
  let exponent' := if collide then uint (exponent + 1) else exponent in
  let compact := Z.lor (uint32 (Z.shiftl exponent' 24)) mantissa' in
  if Z.sgn n <? 0 then Z.lor compact 0x00800000 else compact.

Definition oneLsh256 : Z := Z.shiftl 1 256.

Definition CalcWork (bits : Z) : Z :=
  let difficultyNum := CompactToBig bits in
  if Z.sgn difficultyNum <=? 0 then 0
  else oneLsh256 / (difficultyNum + 1).

(** The exponent [BigToCompact] stores for a positive [n]: its length
    in bytes, one more when the top bit of the top byte is set. *)
Definition storedExponent (n : Z) : Z :=
  let l := Big.byteLen n in
  if Z.testbit n (8 * l - 1) then l + 1 else l.

(** The three bytes [BigToCompact] takes from a positive [n] before it
    looks at the sign bit. *)
Definition rawMantissa (n : Z) : Z :=
  let l := Big.byteLen n in
  if l <=? 3 then n * 2 ^ (8 * (3 - l)) else n / 2 ^ (8 * (l - 3)).

(** What the specification calls [n] truncated to the mantissa: the
    bytes below the encoded mantissa are zeroed. *)
Definition truncateToMantissa (n : Z) : Z :=
  let k := Z.max 0 (storedExponent n - 3) in
  n / 256 ^ k * 256 ^ k.

End Compact.


(** ** wire: transactions and blocks *)

Module Wire.

(** [chainhash.Hash] is 32 bytes; it is only compared here, so it is
    kept as the number those bytes spell. *)
Definition Hash := Z.
Definition zeroHash : Hash := 0.

Record OutPoint := mkOutPoint { opHash : Hash; opIndex : Z }.

#[global] Instance OutPoint_eq_dec : EqDecision OutPoint.
Proof. solve_decision. Defined.

#[global] Instance OutPoint_countable : Countable OutPoint :=
  inj_countable' (fun o => (opHash o, opIndex o))
                 (fun p => mkOutPoint (fst p) (snd p))
                 (fun o => match o with mkOutPoint _ _ => eq_refl end).

Record TxIn := mkTxIn {
  PreviousOutPoint : OutPoint;
  SignatureScript : list byte;
  Sequence : Z }.

Record TxOut := mkTxOut { Value : Z; PkScript : list byte }.

Record MsgTx := mkMsgTx {
  Version : Z;
  TxIns : list TxIn;
  TxOuts : list TxOut;
  LockTime : Z }.

Record BlockHeader := mkBlockHeader {
  PrevBlock : Hash;
  MerkleRoot : Hash;
  Timestamp : Z;
  Bits : Z;
  Nonce : Z }.

(** A [czzutil.Block]: the wire block with the height cached on it. *)
Record Block := mkBlock {
  Header : BlockHeader;
  Transactions : list MsgTx;
  blockHeight : Z }.

End Wire.
Export Wire.

(** ** chaincfg.Params, the fields validation reads *)

Record Params := mkParams {
  SubsidyReductionInterval : Z;
  EntangleHeight : Z;
  CoinbaseMaturity : Z;
  NoDifficultyAdjustment : bool;
  PowLimit : Z;
  PowLimitBits : Z;
  GenesisHash : Hash }.

(** ** Collaborators outside validate.go *)

(** The script engine (package txscript): flag bits, sigop counters and
    script classification. *)
Class TxScript := {
  ScriptBip16 : Z;
  ScriptVerifyDERSignatures : Z;
  ScriptVerifyCheckLockTimeVerify : Z;
  ScriptVerifyStrictEncoding : Z;
  ScriptVerifyBip143SigHash : Z;
  ScriptVerifyLowS : Z;
  ScriptVerifyNullFail : Z;
  ScriptVerifySigPushOnly : Z;
  ScriptVerifyCleanStack : Z;
  ScriptVerifyCheckDataSig : Z;
  ScriptVerifySchnorr : Z;
  ScriptVerifyAllowSegwitRecovery : Z;
  ScriptVerifyCheckSequenceVerify : Z;
  LockTimeThreshold : Z;
  (** the opcodes [ExtractCoinbaseHeight] compares with *)
  OP_0 : Z;
  OP_1 : Z;
  OP_16 : Z;
  GetSigOpCount : list byte -> Z -> Z;
  GetPreciseSigOpCount : list byte -> list byte -> Z -> Z;
  IsPayToScriptHash : list byte -> bool;
  GetScriptClass : list byte -> Z;
  ExtractPkScriptPub : list byte -> outcome (list byte);
  ComputePk : list byte -> outcome (list byte);
  (** class, addresses, required signatures, error *)
  ExtractPkScriptAddrs : list byte -> Params -> Z * list string * Z * option error;
  PubKeyHashTy : Z }.

(** Serialization (package wire), and addresses and blocks (package
    czzutil). *)
Class Encoding := {
  SerializeSize : MsgTx -> Z;
  BlockSerializeSize : Block -> Z;
  (** how [block.Tx(0)] ends on a block without transactions, where it
      has no transaction to return: [inl tag] is the error it returns,
      one of package czzutil, kept by a tag; [inr why] is a panic *)
  Tx0OfEmptyBlock : Block -> Z + string;
  NewAddressPubKeyHash : list byte -> Params -> outcome string;
  NewLegacyAddressScriptHash : list byte -> Z -> outcome string;
  (** [czzutil.SatoshiPerBitcoin] and [czzutil.MaxSatoshi] *)
  SatoshiPerBitcoin : Z;
  MaxSatoshi : Z;
  (** [chaincfg.MainNetParams.EntangleHeight] *)
  MainNetEntangleHeight : Z }.

(** [flags.HasFlag(flag)] *)
Definition HasFlag (flags flag : Z) : bool := Z.land flags flag =? flag.

(** ** validate.go: constants and context-free checks *)

Module Validate.
Section Sanity.
Context `{TxScript} `{Encoding}.

Definition oneMegabyte : Z := 1000000.
Definition MaxTimeOffsetSeconds : Z := 2 * 60 * 60.
Definition MinCoinbaseScriptLen : Z := 2.
Definition MaxCoinbaseScriptLen : Z := 100.
Definition medianTimeBlocks : Z := 11.
Definition baseSubsidy : Z := 1000 * SatoshiPerBitcoin.
Definition MaxBlockSigOpsPerMB : Z := 20000.
Definition MaxTransactionSize : Z := oneMegabyte.
Definition MinTransactionSize : Z := 100.
Definition MaxTransactionSigOps : Z := 20000.

Definition byteZ (b : byte) : Z := Z.of_N (Byte.to_N b).

Definition MaxBlockSigOps (nBlockBytes : Z) : Z :=
  let nBlockMBytesRoundedUp := int (1 + Z.quot (int (int nBlockBytes - 1)) oneMegabyte) in
  int (nBlockMBytesRoundedUp * MaxBlockSigOpsPerMB).

Definition isNullOutpoint (outpoint : OutPoint) : bool :=
  (opIndex outpoint =? Go.MaxUint32) && (opHash outpoint =? zeroHash).

(** [binary.LittleEndian.Uint64] of a buffer, low byte first. *)
Fixpoint littleEndian (bs : list byte) : Z :=
  match bs with
  | nil => 0
  | b :: rest => byteZ b + 256 * littleEndian rest
  end.

Definition ExtractCoinbaseHeight (coinbaseTx : MsgTx) : outcome Z :=
  txIn <- Go.index (TxIns coinbaseTx) 0 ;;
  let sigScript := SignatureScript txIn in
  match sigScript with
  | nil => Err (ruleError ErrMissingCoinbaseHeight)
  | b0 :: rest =>
      let opcode := byteZ b0 in
      if opcode =? OP_0 then Ok 0
      else if (OP_1 <=? opcode) && (opcode <=? OP_16)
      then Ok (int32 (opcode - (OP_1 - 1)))
      else
        let serializedLen := opcode in
        if len rest <? serializedLen
        then Err (ruleError ErrMissingCoinbaseHeight)
        else
          let serializedHeightBytes :=
            firstn 8 (firstn (Z.to_nat serializedLen) rest) in
          Ok (int32 (littleEndian serializedHeightBytes))
  end.

(** [IsCoinBaseTx] and [isCoinBaseInParam] differ only in where the
    entangle height comes from. *)
Definition isCoinBaseAt (entangleHeight : Z) (msgTx : MsgTx) : outcome bool :=
  match ExtractCoinbaseHeight msgTx with
  | Panic s => Panic s
  | Err _ => Ok false
  | Ok height =>
      let wantIns := if entangleHeight <=? height then 3 else 1 in
      if negb (len (TxIns msgTx) =? wantIns) then Ok false
      else
        txIn <- Go.index (TxIns msgTx) 0 ;;
        let prevOut := PreviousOutPoint txIn in
        if negb (opIndex prevOut =? Go.MaxUint32) || negb (opHash prevOut =? zeroHash)
        then Ok false else Ok true
  end.

Definition IsCoinBaseTx (msgTx : MsgTx) : outcome bool :=
  isCoinBaseAt MainNetEntangleHeight msgTx.

Definition isCoinBaseInParam (tx : MsgTx) (chainParams : Params) : outcome bool :=
  isCoinBaseAt (EntangleHeight chainParams) tx.

Definition IsCoinBase (tx : MsgTx) : outcome bool := IsCoinBaseTx tx.

Definition CalcBlockSubsidy (height : Z) (chainParams : Params) : Z :=
  if SubsidyReductionInterval chainParams =? 0 then baseSubsidy
  else
    let halvings :=
      uint (int32 (Z.quot height (SubsidyReductionInterval chainParams))) in
    if halvings =? 0 then baseSubsidy
    else
      let subsidy := int64 (uint baseSubsidy / halvings) in
      if subsidy =? 0 then 1 else subsidy.

Definition CountSigOps (tx : MsgTx) (scriptFlags : Z) : Z :=
  let totalSigOps :=
    fold_left (fun total txIn =>
                 int (total + GetSigOpCount (SignatureScript txIn) scriptFlags))
              (TxIns tx) 0 in
  fold_left (fun total txOut =>
               int (total + GetSigOpCount (PkScript txOut) scriptFlags))
            (TxOuts tx) totalSigOps.

(** The output-value loop of [CheckTransactionSanity]. *)
Fixpoint checkOutputValues (outs : list TxOut) (totalSatoshi : Z) : outcome unit :=
  match outs with
  | nil => Ok tt
  | txOut :: rest =>
      let satoshi := Value txOut in
      if satoshi <? 0 then Err (ruleError ErrBadTxOutValue)
      else if MaxSatoshi <? satoshi then Err (ruleError ErrBadTxOutValue)
      else
        let totalSatoshi := int64 (totalSatoshi + satoshi) in
        if totalSatoshi <? 0 then Err (ruleError ErrBadTxOutValue)
        else if MaxSatoshi <? totalSatoshi then Err (ruleError ErrBadTxOutValue)
        else checkOutputValues rest totalSatoshi
  end.

(** The duplicate-input loop: [existingTxOut] is the set of outpoints
    seen so far. *)
Fixpoint checkDuplicateInputs (ins : list TxIn) (existingTxOut : gset OutPoint)
  : outcome unit :=
  match ins with
  | nil => Ok tt
  | txIn :: rest =>
      if decide (PreviousOutPoint txIn ∈ existingTxOut)
      then Err (ruleError ErrDuplicateTxInputs)
      else checkDuplicateInputs rest ({[PreviousOutPoint txIn]} ∪ existingTxOut)
  end.

Fixpoint checkNoNullInputs (ins : list TxIn) : outcome unit :=
  match ins with
  | nil => Ok tt
  | txIn :: rest =>
      if isNullOutpoint (PreviousOutPoint txIn)
      then Err (ruleError ErrBadTxInput)
      else checkNoNullInputs rest
  end.

Definition CheckTransactionSanity (tx : MsgTx) (magneticAnomalyActive : bool)
    (scriptFlags : Z) : outcome unit :=
  if len (TxIns tx) =? 0 then Err (ruleError ErrNoTxInputs)
  else if len (TxOuts tx) =? 0 then Err (ruleError ErrNoTxOutputs)
  else
    let serializedTxSize := SerializeSize tx in
    if MaxTransactionSize <? serializedTxSize then Err (ruleError ErrTxTooBig)
    else if magneticAnomalyActive && (serializedTxSize <? MinTransactionSize)
    then Err (ruleError ErrTxTooSmall)
    else
      let sigOps := CountSigOps tx scriptFlags in
      if MaxTransactionSigOps <? sigOps then Err (ruleError ErrTxTooManySigOps)
      else
        _ <- checkOutputValues (TxOuts tx) 0 ;;
        _ <- checkDuplicateInputs (TxIns tx) ∅ ;;
        isCb <- IsCoinBase tx ;;
        if isCb then
          match Go.index (TxIns tx) 0 with
          | Ok txIn =>
              let slen := len (SignatureScript txIn) in
              if (slen <? MinCoinbaseScriptLen) || (MaxCoinbaseScriptLen <? slen)
              then Err (ruleError ErrBadCoinbaseScriptLen)
              else Ok tt
          | Err e => Err e
          | Panic s => Panic s
          end
        else checkNoNullInputs (TxIns tx).

(** Two inputs of [tx], at different positions, spend one outpoint. *)
Definition hasDuplicateInputs (tx : MsgTx) : Prop :=
  exists (i j : nat) (a b : TxIn),
    i <> j /\ TxIns tx !! i = Some a /\ TxIns tx !! j = Some b
    /\ PreviousOutPoint a = PreviousOutPoint b.

(** The checks [CheckTransactionSanity] makes before it looks for
    duplicate inputs all pass. *)
Definition passesEarlierChecks (tx : MsgTx) (magneticAnomalyActive : bool)
    (scriptFlags : Z) : Prop :=
  TxOuts tx <> nil
  /\ SerializeSize tx <= MaxTransactionSize
  /\ (magneticAnomalyActive = true -> MinTransactionSize <= SerializeSize tx)
  /\ CountSigOps tx scriptFlags <= MaxTransactionSigOps
  /\ checkOutputValues (TxOuts tx) 0 = Ok tt.

End Sanity.
End Validate.

(** ** cross: entangle items and their verification against the
    foreign chains (verifyEntangle.go) *)

Record EntangleTxInfo := mkEntangleTxInfo {
  ExTxType : Z;
  Index : Z;
  Height : Z;
  Amount : Z;
  ExtTxHash : list byte }.

Record TuplePubIndex := mkTuplePubIndex {
  EType : Z;
  TIndex : Z;
  Pub : list byte }.

Record EtsInfo := mkEtsInfo { FeePerKB : Z; EtsTx : MsgTx }.

(** The parts of package cross that live outside verifyEntangle.go.
    [IsEntangleTx] gives the entries of its map in the order a [range]
    over it visits them, [None] for the nil map. *)
Class CrossPkg := {
  IsEntangleTx : MsgTx -> option (list (Z * EntangleTxInfo));
  KeepedAmount : Type;
  emptyKeepedAmount : KeepedAmount;
  KeepedAmountParse : list byte -> outcome KeepedAmount;
  KeepedAmountAdd : KeepedAmount -> Z -> Z -> KeepedAmount;
  (** the value left in [item.Value] and the updated reserve *)
  PreCalcEntangleAmount : Z -> Z -> KeepedAmount -> Z * KeepedAmount;
  VerifyTxsSequence : list EtsInfo -> outcome unit }.

(** An [rpcclient.Client] of a foreign chain. *)
Record Client := mkClient {
  GetRawTransaction : list byte -> outcome MsgTx;
  GetBlockCount : outcome Z }.

Record EntangleVerify := mkEntangleVerify {
  DogeCoinRPC : list Client;
  LtcCoinRPC : list Client;
  (** [Cache.FetchEntangleUtxoView], [None] for the nil cache *)
  Cache : option (EntangleTxInfo -> bool) }.

Module Cross.
Section Verify.
Context `{TxScript} `{Encoding} `{CrossPkg}.

Definition dogePoolAddr : string := "DNGzkoZbnVMihLTMq8M1m7L62XvN3d2cN2".
Definition ltcPoolAddr : string := "MUy9qiaLQtaqmKBSk27FXrEEfUkRBeddCZ".
Definition dogeMaturity : Z := 14.
Definition ltcMaturity : Z := 14.

(** Modelled from the spec: the [ExpandedTxType] constants of package
    cross, declared outside verifyEntangle.go (Doge=240, Ltc=241). *)
Definition ExpandedTxEntangle_Doge : Z := 240.
Definition ExpandedTxEntangle_Ltc : Z := 241.

(** [rand.Intn(n)] when the generator draws [r]: a panic for [n <= 0]. *)
Definition Intn (r n : Z) : outcome Z :=
  if n <=? 0 then Panic "invalid argument to Intn" else Ok (r mod n).

(** [x.Int64()] of a [big.Int]: the low word, with the sign. *)
Definition BigInt64 (x : Z) : Z :=
  let v := int64 (Big.lowWord x) in
  if x <? 0 then int64 (- v) else v.

(** The body shared by [verifyDogeTx] and [verifyLtcTx], which differ in
    the client list, the address id, the pool address, the maturity and
    the texts of their errors. *)
Definition verifyForeignTx (clients : list Client) (addrID : Z)
    (poolAddr : string) (maturity : Z)
    (eIndex eAddr ePool ePk eMaturity : string)
    (r : Z) (ExtTxHash : list byte) (Vout : Z) (Amount : Z) (height : Z)
  : outcome (list byte) :=
  i <- Intn r (len clients) ;;
  client <- Go.index clients i ;;
  tx <- GetRawTransaction client ExtTxHash ;;
  if len (TxOuts tx) <? int Vout
  then Err (errorsNew eIndex)
  else
    out <- Go.index (TxOuts tx) Vout ;;
    if negb (Value out =? BigInt64 Amount)
    then Err (errorsNew "amount err")
    else if negb (GetScriptClass (PkScript out) =? 2)
    then Err (errorsNew ePk)
    else
      pub <- ExtractPkScriptPub (PkScript out) ;;
      match NewLegacyAddressScriptHash pub addrID with
      | Panic s => Panic s
      | Err _ => Err (errorsNew eAddr)
      | Ok addr =>
          if negb (String.eqb addr poolAddr)
          then Err (errorsNew ePool)
          else
            txIn0 <- Go.index (TxIns tx) 0 ;;
            match ComputePk (SignatureScript txIn0) with
            | Panic s => Panic s
            | Err _ => Err (errorsNew ePk)
            | Ok pk =>
                count <- GetBlockCount client ;;
                if maturity <? int64 (count - int64 height)
                then Ok pk
                else Err (errorsNew eMaturity)
            end
      end.

Definition verifyDogeTx (ev : EntangleVerify) :=
  verifyForeignTx (DogeCoinRPC ev) 0x1e dogePoolAddr dogeMaturity
    "doge TxOut index err" "doge Pool err" "doge dogePoolPub err"
    "doge PkScript err" "dogeMaturity err".

Definition verifyLtcTx (ev : EntangleVerify) :=
  verifyForeignTx (LtcCoinRPC ev) 0x32 ltcPoolAddr ltcMaturity
    "ltc TxOut index err" "ltcaddr err" "ltc ltcPoolAddr err"
    "ltc PkScript err" "ltcMaturity err".

(** [nil, nil] for a type that is neither Doge nor Ltc. *)
Definition verifyTx (ev : EntangleVerify) (r : Z) (ExTxType : Z)
    (ExtTxHash : list byte) (Vout height Amount : Z) : outcome (list byte) :=
  if ExTxType =? ExpandedTxEntangle_Doge
  then verifyDogeTx ev r ExtTxHash Vout Amount height
  else if ExTxType =? ExpandedTxEntangle_Ltc
  then verifyLtcTx ev r ExtTxHash Vout Amount height
  else Ok nil.

Fixpoint checkRepeat (fetch : EntangleTxInfo -> bool) (tx : MsgTx)
    (einfos : list (Z * EntangleTxInfo)) (amount : Z) : outcome Z :=
  match einfos with
  | nil => Ok amount
  | (i, v) :: rest =>
      if fetch v then Err (errorsNew "txid has already entangle:")
      else
        out <- Go.index (TxOuts tx) i ;;
        checkRepeat fetch tx rest (int64 (amount + Value out))
  end.

(** [draws k] is what the generator draws at the [k]-th item. *)
Fixpoint verifyItems (ev : EntangleVerify) (draws : nat -> Z) (k : nat)
    (einfos : list (Z * EntangleTxInfo)) (pairs : list TuplePubIndex)
  : outcome (list TuplePubIndex) :=
  match einfos with
  | nil => Ok pairs
  | (i, v) :: rest =>
      match verifyTx ev (draws k) (ExTxType v) (ExtTxHash v) (Index v)
              (Height v) (Amount v) with
      | Panic s => Panic s
      | Err _ => Err (errorsNew "txid verify failed:")
      | Ok pub =>
          verifyItems ev draws (S k) rest
            (pairs ++ mkTuplePubIndex (ExTxType v) i pub :: nil)
      end
  end.

Definition VerifyEntangleTx (ev : EntangleVerify) (draws : nat -> Z)
    (tx : MsgTx) : outcome (list TuplePubIndex) :=
  match IsEntangleTx tx with
  | None => Err (errorsNew "not entangle tx")
  | Some einfos =>
      _ <- match Cache ev with
           | Some fetch => checkRepeat fetch tx einfos 0
           | None => Ok 0
           end ;;
      verifyItems ev draws 0 einfos nil
  end.

End Verify.
End Cross.

(** ** The utxo view and the chain index, as validate.go sees them *)

(** Modelled from the spec: [UtxoEntry] is declared in utxoviewpoint.go;
    section 3 of the specification lists its fields (amount, pk_script,
    block_height, is_coinbase, is_pool, spent). *)
Record UtxoEntry := mkUtxoEntry {
  utxoAmount : Z;
  utxoPkScript : list byte;
  utxoBlockHeight : Z;
  utxoIsCoinBase : bool;
  utxoIsPool : bool;
  utxoIsSpent : bool }.

(** [UtxoViewpoint.LookupEntry] is the lookup [view !! outpoint]. *)
Abbreviation UtxoViewpoint := (gmap OutPoint UtxoEntry).

Record SpentTxOut := mkSpentTxOut { stxoAmount : Z; stxoPkScript : list byte }.

(** A [blockNode] of the chain index with its parent pointer. *)
#[local] Set Warnings "-register-all".
Inductive blockNode :=
| mkBlockNode (hash : Hash) (parent : option blockNode) (workSum : Z)
              (height : Z) (bits : Z) (timestamp : Z).

Definition nodeHash (n : blockNode) := let (h, _, _, _, _, _) := n in h.
Definition nodeParent (n : blockNode) := let (_, p, _, _, _, _) := n in p.
Definition nodeWorkSum (n : blockNode) := let (_, _, w, _, _, _) := n in w.
Definition nodeHeight (n : blockNode) := let (_, _, _, h, _, _) := n in h.
Definition nodeBits (n : blockNode) := let (_, _, _, _, b, _) := n in b.
Definition nodeTimestamp (n : blockNode) := let (_, _, _, _, _, t) := n in t.

Inductive ThresholdState :=
| ThresholdDefined | ThresholdStarted | ThresholdLockedIn
| ThresholdActive | ThresholdFailed.

Record SequenceLock := mkSequenceLock { slSeconds : Z; slBlockHeight : Z }.

(** The [BlockChain] receiver and the functions of package blockchain
    that validate.go calls but does not define.  The two that mutate the
    view return the view they leave behind. *)
Class Chain := {
  chainParams : Params;
  addInputUtxos : UtxoViewpoint -> Block -> UtxoViewpoint * option error;
  connectTransactions :
    UtxoViewpoint -> Block -> list SpentTxOut -> bool ->
    UtxoViewpoint * list SpentTxOut * option error;
  blockByHashAndHeight : Hash -> Z -> outcome Block;
  (** the height of the latest checkpoint, if there is one *)
  LatestCheckpoint : option Z;
  deploymentStateCSV : option blockNode -> outcome ThresholdState;
  (** [node.CalcPastMedianTime()], as Unix seconds; the receiver may be nil *)
  CalcPastMedianTime : option blockNode -> Z;
  calcSequenceLock : blockNode -> MsgTx -> UtxoViewpoint -> outcome SequenceLock;
  checkBlockScripts : Block -> UtxoViewpoint -> Z -> outcome unit;
  entangleVerify : EntangleVerify }.

Module Sigops.
Section Sigops.
Context `{TxScript} `{Encoding}.

(** The input loop of [CountP2SHSigOps]. *)
Fixpoint countP2SHInputs (ins : list TxIn) (utxoView : UtxoViewpoint)
    (scriptFlags : Z) (totalSigOps : Z) : outcome Z :=
  match ins with
  | nil => Ok totalSigOps
  | txIn :: rest =>
      match utxoView !! PreviousOutPoint txIn with
      | None => Err (ruleError ErrMissingTxOut)
      | Some utxo =>
          if utxoIsSpent utxo then Err (ruleError ErrSpentTxOut)
          else
            let pkScript := utxoPkScript utxo in
            if negb (IsPayToScriptHash pkScript)
            then countP2SHInputs rest utxoView scriptFlags totalSigOps
            else
              let sigScript := SignatureScript txIn in
              let numSigOps := GetPreciseSigOpCount sigScript pkScript scriptFlags in
              let lastSigOps := totalSigOps in
              let totalSigOps := int (totalSigOps + numSigOps) in
              if totalSigOps <? lastSigOps
              then Err (ruleError ErrTooManySigOps)
              else countP2SHInputs rest utxoView scriptFlags totalSigOps
      end
  end.

Definition CountP2SHSigOps (tx : MsgTx) (isCoinBaseTx : bool)
    (utxoView : UtxoViewpoint) (scriptFlags : Z) : outcome Z :=
  if isCoinBaseTx then Ok 0
  else countP2SHInputs (TxIns tx) utxoView scriptFlags 0.

Definition GetSigOps (tx : MsgTx) (isCoinBaseTx : bool)
    (utxoView : UtxoViewpoint) (scriptFlags : Z) : outcome Z :=
  let numSigOps := Validate.CountSigOps tx scriptFlags in
  if HasFlag scriptFlags ScriptBip16
  then
    match CountP2SHSigOps tx isCoinBaseTx utxoView scriptFlags with
    | Ok numP2SHSigOps => Ok (int (numSigOps + numP2SHSigOps))
    | Err _ => Ok 0
    | Panic s => Panic s
    end
  else Ok numSigOps.

End Sigops.
End Sigops.

(** ** validate.go: checks that need the view and the chain *)

Module Connect.
Section Connect.
Context `{TxScript} `{Encoding} `{CrossPkg} `{Chain}.

Import Validate Sigops.

Definition SequenceLockActive (sequenceLock : SequenceLock) (blockHeight : Z)
    (medianTimePast : Z) : bool :=
  if (medianTimePast <=? slSeconds sequenceLock)
     || (blockHeight <=? slBlockHeight sequenceLock)
  then false else true.

Definition checkEntangleTx (draws : nat -> Z) (tx : MsgTx) : outcome unit :=
  _ <- Cross.VerifyEntangleTx entangleVerify draws tx ;;
  Ok tt.

(** [max] over the items of one transaction, from [int64(0)]. *)
Fixpoint maxEntangleHeight (einfos : list (Z * EntangleTxInfo)) (max : Z) : Z :=
  match einfos with
  | nil => max
  | (_, ii) :: rest =>
      maxEntangleHeight rest
        (if max <? int64 (Height ii) then int64 (Height ii) else max)
  end.

(** The loop of [CheckBlockEntangle].  [curHeight] is carried as the
    source has it: declared before the loop and assigned nowhere.
    [draws k] holds the generator's draws for the [k]-th transaction. *)
Fixpoint checkBlockEntangleLoop (draws : nat -> nat -> Z) (k : nat)
    (txs : list MsgTx) (curHeight : Z) : outcome unit :=
  match txs with
  | nil => Ok tt
  | tx :: rest =>
      match IsEntangleTx tx with
      | None => checkBlockEntangleLoop draws (S k) rest curHeight
      | Some einfos =>
          let max := maxEntangleHeight einfos 0 in
          if max <? curHeight
          then Err (errorsNew "unordered entangle tx in the block")
          else
            _ <- checkEntangleTx (draws k) tx ;;
            checkBlockEntangleLoop draws (S k) rest curHeight
      end
  end.

Definition CheckBlockEntangle (draws : nat -> nat -> Z) (block : Block)
  : outcome unit :=
  checkBlockEntangleLoop draws 0 (Transactions block) 0.

Definition CoinPool1 : list byte :=
  repeat x00 19 ++ x01 :: nil.
Definition CoinPool2 : list byte :=
  repeat x00 19 ++ x02 :: nil.

(** [utxo] is not read: the source classifies the pool's own bytes. *)
Definition matchPoolFromUtxo (utxo : UtxoEntry) (index : Z)
    (chainParams : Params) : outcome unit :=
  let pool :=
    if index =? 1 then CoinPool1
    else if index =? 2 then CoinPool2
    else nil in
  match NewAddressPubKeyHash pool chainParams with
  | Panic s => Panic s
  | Err _ => Err (errorsNew "[pool not match:]")
  | Ok addr =>
      let '(class, addrs, reqSigs, _) := ExtractPkScriptAddrs pool chainParams in
      if negb (class =? PubKeyHashTy) || negb (reqSigs =? 1)
         || negb (len addrs =? 1)
      then Err (errorsNew "pool not match")
      else
        a0 <- Go.index addrs 0 ;;
        if negb (String.eqb addr a0)
        then Err (errorsNew "pool not match")
        else Ok tt
  end.

(** The input loop of [checkMergeTxInCoinbase] past the activation
    height; the result is the [error] of the pair it returns. *)
Fixpoint checkPoolInputs (ins : list TxIn) (txInIndex : Z)
    (utxoView : UtxoViewpoint) (chainParams : Params) : outcome (option error) :=
  match ins with
  | nil => Ok None
  | txIn :: rest =>
      if txInIndex =? 0
      then checkPoolInputs rest (txInIndex + 1) utxoView chainParams
      else
        match utxoView !! PreviousOutPoint txIn with
        | None => Ok (Some (ruleError ErrMissingTxOut))
        | Some utxo =>
            if utxoIsSpent utxo then Ok (Some (ruleError ErrSpentTxOut))
            else if utxoBlockHeight utxo <? int32 (EntangleHeight chainParams - 1)
            then Ok (Some (ruleError ErrBadTxOutValue))
            else if txInIndex <=? 2
            then
              match matchPoolFromUtxo utxo txInIndex chainParams with
              | Panic s => Panic s
              | Err _ => Ok None
              | Ok _ => checkPoolInputs rest (txInIndex + 1) utxoView chainParams
              end
            else checkPoolInputs rest (txInIndex + 1) utxoView chainParams
        end
  end.

(** The pair [(ok, err)] that [checkMergeTxInCoinbase] returns. *)
Definition checkMergeTxInCoinbase (tx : MsgTx) (txHeight : Z)
    (utxoView : UtxoViewpoint) (chainParams : Params)
  : outcome (bool * option error) :=
  isCb <- isCoinBaseInParam tx chainParams ;;
  if txHeight <=? EntangleHeight chainParams
  then Ok (isCb, None)
  else if isCb
  then
    e <- checkPoolInputs (TxIns tx) 0 utxoView chainParams ;;
    Ok (true, e)
  else Ok (false, None).

Definition sumOutputs (outs : list TxOut) : Z :=
  fold_left (fun total txOut => int64 (total + Value txOut)) outs 0.

(** The input loop of [CheckTransactionInputs]. *)
Fixpoint sumInputs (ins : list TxIn) (txHeight : Z) (utxoView : UtxoViewpoint)
    (chainParams : Params) (totalSatoshiIn : Z) : outcome Z :=
  match ins with
  | nil => Ok totalSatoshiIn
  | txIn :: rest =>
      match utxoView !! PreviousOutPoint txIn with
      | None => Err (ruleError ErrMissingTxOut)
      | Some utxo =>
          if utxoIsSpent utxo then Err (ruleError ErrSpentTxOut)
          else if utxoIsCoinBase utxo && negb (utxoIsPool utxo)
                  && (int32 (txHeight - utxoBlockHeight utxo)
                      <? int32 (CoinbaseMaturity chainParams))
          then Err (ruleError ErrImmatureSpend)
          else
            let originTxSatoshi := utxoAmount utxo in
            if originTxSatoshi <? 0 then Err (ruleError ErrBadTxOutValue)
            else if MaxSatoshi <? originTxSatoshi
            then Err (ruleError ErrBadTxOutValue)
            else
              let lastSatoshiIn := totalSatoshiIn in
              let totalSatoshiIn := int64 (totalSatoshiIn + originTxSatoshi) in
              if (totalSatoshiIn <? lastSatoshiIn) || (MaxSatoshi <? totalSatoshiIn)
              then Err (ruleError ErrBadTxOutValue)
              else sumInputs rest txHeight utxoView chainParams totalSatoshiIn
      end
  end.

Definition CheckTransactionInputs (tx : MsgTx) (txHeight : Z)
    (utxoView : UtxoViewpoint) (chainParams : Params) : outcome Z :=
  merged <- checkMergeTxInCoinbase tx txHeight utxoView chainParams ;;
  match merged with
  | (true, Some e) => Err e
  | (true, None) => Ok 0
  | (false, _) =>
      totalSatoshiIn <- sumInputs (TxIns tx) txHeight utxoView chainParams 0 ;;
      let totalSatoshiOut := sumOutputs (TxOuts tx) in
      if totalSatoshiIn <? totalSatoshiOut
      then Err (ruleError ErrSpendTooHigh)
      else Ok (int64 (totalSatoshiIn - totalSatoshiOut))
  end.

Fixpoint sumInputsFee (ins : list TxIn) (utxoView : UtxoViewpoint)
    (totalSatoshiIn : Z) : outcome Z :=
  match ins with
  | nil => Ok totalSatoshiIn
  | txIn :: rest =>
      match utxoView !! PreviousOutPoint txIn with
      | None => Err (ruleError ErrMissingTxOut)
      | Some utxo =>
          if utxoAmount utxo <? 0 then Err (ruleError ErrBadTxOutValue)
          else sumInputsFee rest utxoView (int64 (totalSatoshiIn + utxoAmount utxo))
      end
  end.

Definition getFee (tx : MsgTx) (txHeight : Z) (utxoView : UtxoViewpoint)
    (chainParams : Params) : outcome Z :=
  isCb <- isCoinBaseInParam tx chainParams ;;
  if isCb then Ok 0
  else
    totalSatoshiIn <- sumInputsFee (TxIns tx) utxoView 0 ;;
    let totalSatoshiOut := sumOutputs (TxOuts tx) in
    if totalSatoshiIn <? totalSatoshiOut
    then Err (ruleError ErrSpendTooHigh)
    else Ok (int64 (totalSatoshiIn - totalSatoshiOut)).

Fixpoint getEtsInfos (txs : list MsgTx) (height : Z) (utxoView : UtxoViewpoint)
    (chainParams : Params) (infos : list EtsInfo) : outcome (list EtsInfo) :=
  match txs with
  | nil => Ok infos
  | tx :: rest =>
      fee <- getFee tx height utxoView chainParams ;;
      let size := int64 (SerializeSize tx) in
      if size =? 0 then Panic "integer divide by zero"
      else
        let etsInfo := mkEtsInfo (int64 (Z.quot (int64 (fee * 1000)) size)) tx in
        getEtsInfos rest height utxoView chainParams (infos ++ etsInfo :: nil)
  end.

Definition getEtsInfoInBlock (block : Block) (utxoView : UtxoViewpoint)
    (chainParams : Params) : outcome (list EtsInfo) :=
  getEtsInfos (Transactions block) (blockHeight block) utxoView chainParams nil.

Definition checkTxSequence (block : Block) (utxoView : UtxoViewpoint)
    (chainParams : Params) : outcome unit :=
  let height := blockHeight block in
  if height <=? EntangleHeight chainParams then Ok tt
  else
    infos <- getEtsInfoInBlock block utxoView chainParams ;;
    VerifyTxsSequence infos.

End Connect.
End Connect.

(** ** validate.go: subsidy accounting and [checkConnectBlock] *)

Module Subsidy.
Section Subsidy.
Context `{TxScript} `{Encoding} `{CrossPkg} `{Chain}.

Import Validate Sigops Connect.

Record KeepedInfoSummay := mkSummay {
  TotalIn : Z;
  TotalOut : Z;
  KeepedAmountInBlock : KeepedAmount;
  EntangleAmount : Z;
  lastpool1Amount : Z;
  lastpool2Amount : Z;
  pool1Amount : Z;
  pool2Amount : Z }.

(** [block.Tx(0)]: the first transaction of the block; on a block
    without transactions, what package czzutil makes of it. *)
Definition blockTx0 (block : Block) : outcome MsgTx :=
  match Transactions block with
  | nil =>
      match Tx0OfEmptyBlock block with
      | inl tag => Err (foreignError tag)
      | inr why => Panic why
      end
  | tx :: _ => Ok tx
  end.

Definition getKeepedAmountFormPreBlock (block : Block) : outcome KeepedAmount :=
  match blockTx0 block with
  | Ok coinbaseTx =>
      if 4 <=? len (TxOuts coinbaseTx)
      then
        out3 <- Go.index (TxOuts coinbaseTx) 3 ;;
        KeepedAmountParse (PkScript out3)
      else Ok emptyKeepedAmount
  | Err _ => Ok emptyKeepedAmount
  | Panic s => Panic s
  end.

(** The two pool amounts [getPoolAmountFromPreBlock] stores. *)
Definition getPoolAmountFromPreBlock (block : Block) : outcome (Z * Z) :=
  coinbaseTx <- blockTx0 block ;;
  out1 <- Go.index (TxOuts coinbaseTx) 1 ;;
  out2 <- Go.index (TxOuts coinbaseTx) 2 ;;
  Ok (Value out1, Value out2).

(** [handleSummayEntangle]: the block's kept amounts, the reserve and
    the entangle amount after the items of one transaction. *)
Fixpoint handleSummayEntangle (inBlock keepedInfo : KeepedAmount)
    (entangleAmount : Z) (infos : list (Z * EntangleTxInfo))
  : KeepedAmount * KeepedAmount * Z :=
  match infos with
  | nil => (inBlock, keepedInfo, entangleAmount)
  | (_, v) :: rest =>
      let inBlock := KeepedAmountAdd inBlock (ExTxType v) (Amount v) in
      let '(value, keepedInfo) :=
        PreCalcEntangleAmount (ExTxType v) (Amount v) keepedInfo in
      handleSummayEntangle inBlock keepedInfo
        (int64 (entangleAmount + Cross.BigInt64 value)) rest
  end.

(** The coinbase outputs: [(amount1, pool1Amount, pool2Amount, totalOut)]. *)
Fixpoint summayCoinbaseOuts (outs : list TxOut) (i : Z)
    (acc : Z * Z * Z * Z) : Z * Z * Z * Z :=
  match outs with
  | nil => acc
  | txout :: rest =>
      let '(amount1, p1, p2, totalOut) := acc in
      let amount1 := if 3 <? i then int64 (amount1 + Value txout) else amount1 in
      let p1 := if i =? 1 then Value txout else p1 in
      let p2 := if i =? 2 then Value txout else p2 in
      summayCoinbaseOuts rest (i + 1)
        (amount1, p1, p2, int64 (totalOut + Value txout))
  end.

Fixpoint summayInputs (ins : list TxIn) (utxoView : UtxoViewpoint)
    (totalIn : Z) : outcome Z :=
  match ins with
  | nil => Ok totalIn
  | txIn :: rest =>
      match utxoView !! PreviousOutPoint txIn with
      | None => Err (ruleError ErrMissingTxOut)
      | Some utxo => summayInputs rest utxoView (int64 (totalIn + utxoAmount utxo))
      end
  end.

(** The loop over the non-coinbase transactions. *)
Fixpoint summayTxs (txs : list MsgTx) (utxoView : UtxoViewpoint)
    (inBlock keepInfo : KeepedAmount) (entangleAmount totalIn totalOut : Z)
  : outcome (KeepedAmount * Z * Z * Z) :=
  match txs with
  | nil => Ok (inBlock, entangleAmount, totalIn, totalOut)
  | tx :: rest =>
      let '(inBlock, keepInfo, entangleAmount) :=
        match IsEntangleTx tx with
        | Some einfos => handleSummayEntangle inBlock keepInfo entangleAmount einfos
        | None => (inBlock, keepInfo, entangleAmount)
        end in
      let totalOut :=
        fold_left (fun t txout => int64 (t + Value txout)) (TxOuts tx) totalOut in
      totalIn <- summayInputs (TxIns tx) utxoView totalIn ;;
      summayTxs rest utxoView inBlock keepInfo entangleAmount totalIn totalOut
  end.

Definition summayOfTxsAndCheck (preblock block : Block)
    (utxoView : UtxoViewpoint) (subsidy pool1Amount pool2Amount : Z)
  : outcome KeepedInfoSummay :=
  keepInfo <- getKeepedAmountFormPreBlock preblock ;;
  last <- getPoolAmountFromPreBlock preblock ;;
  let '(last1, last2) := last in
  let totalIn :=
    int64 (int64 (int64 (int64 (last1 + last2) + pool1Amount) + pool2Amount)
           + subsidy) in
  let '(amount1, p1, p2, totalOut, rest) :=
    match Transactions block with
    | nil => (0, 0, 0, 0, nil)
    | cb :: rest =>
        let '(a, p1, p2, t) := summayCoinbaseOuts (TxOuts cb) 0 (0, 0, 0, 0) in
        (a, p1, p2, t, rest)
    end in
  r <- summayTxs rest utxoView emptyKeepedAmount keepInfo 0 totalIn totalOut ;;
  let '(inBlock, entangleAmount, totalIn, totalOut) := r in
  if negb (amount1 =? entangleAmount)
  then Err (errorsNew "not match the entangle amount.")
  else Ok (mkSummay totalIn totalOut inBlock entangleAmount last1 last2 p1 p2).

Definition checkBlockSubsidy (block preBlock : Block) (txHeight : Z)
    (utxoView : UtxoViewpoint) (amountSubsidy : Z) (chainParams : Params)
  : outcome unit :=
  if txHeight <=? EntangleHeight chainParams then Ok tt
  else
    let originIncome1 := int64 (Z.quot (int64 (amountSubsidy * 19)) 100) in
    let originIncome2 := int64 (Z.quot amountSubsidy 100) in
    let originIncome3 :=
      int64 (int64 (amountSubsidy - originIncome1) - originIncome2) in
    let catchUp := int64 (int32 (EntangleHeight chainParams - 1)) in
    let originIncome1 :=
      if txHeight =? EntangleHeight chainParams
      then int64 (originIncome1 * catchUp) else originIncome1 in
    let originIncome2 :=
      if txHeight =? EntangleHeight chainParams
      then int64 (originIncome2 * catchUp) else originIncome2 in
    summay <- summayOfTxsAndCheck preBlock block utxoView
                originIncome3 originIncome1 originIncome2 ;;
    let expPool1Amount :=
      int64 (int64 (lastpool1Amount summay + originIncome1)
             - EntangleAmount summay) in
    if negb (pool1Amount summay =? expPool1Amount)
    then Err (errorsNew "BlockSubsidy:the pool1 address's reward was wrong")
    else if negb (int64 (originIncome2 + lastpool2Amount summay)
                  =? pool2Amount summay)
    then Err (errorsNew "BlockSubsidy:the pool2 address's reward was wrong")
    else if TotalIn summay <? TotalOut summay
    then Err (errorsNew "BlockSubsidy:wrong,the totalOut > totalIn")
    else Ok tt.

(** The script flags [checkConnectBlock] builds, one [|=] after the
    other, from the zero value. *)
Definition connectScriptFlags : Z :=
  let f := 0 in
  let f := Z.lor f ScriptBip16 in
  let f := Z.lor f ScriptVerifyDERSignatures in
  let f := Z.lor f ScriptVerifyCheckLockTimeVerify in
  let f := Z.lor f (Z.lor ScriptVerifyStrictEncoding ScriptVerifyBip143SigHash) in
  let f := Z.lor f (Z.lor ScriptVerifyLowS ScriptVerifyNullFail) in
  let f := Z.lor f (Z.lor (Z.lor ScriptVerifySigPushOnly ScriptVerifyCleanStack)
                          ScriptVerifyCheckDataSig) in
  Z.lor f (Z.lor ScriptVerifySchnorr ScriptVerifyAllowSegwitRecovery).

(** The sigop loop: [i] is the position of [tx] in the block. *)
Fixpoint sigOpsLoop (txs : list MsgTx) (i : Z) (view : UtxoViewpoint)
    (scriptFlags maxSigOps totalSigOpCost : Z) : outcome unit :=
  match txs with
  | nil => Ok tt
  | tx :: rest =>
      sigOpCost <- GetSigOps tx (i =? 0) view scriptFlags ;;
      let lastSigOpCost := totalSigOpCost in
      let totalSigOpCost := int (totalSigOpCost + sigOpCost) in
      if (totalSigOpCost <? lastSigOpCost) || (maxSigOps <? totalSigOpCost)
      then Err (ruleError ErrTooManySigOps)
      else sigOpsLoop rest (i + 1) view scriptFlags maxSigOps totalSigOpCost
  end.

(** The input loop: the total fees of the block. *)
Fixpoint feesLoop (txs : list MsgTx) (height : Z) (view : UtxoViewpoint)
    (totalFees : Z) : outcome Z :=
  match txs with
  | nil => Ok totalFees
  | tx :: rest =>
      txFee <- CheckTransactionInputs tx height view chainParams ;;
      let lastTotalFees := totalFees in
      let totalFees := int64 (totalFees + txFee) in
      if totalFees <? lastTotalFees then Err (ruleError ErrBadFees)
      else feesLoop rest height view totalFees
  end.

(** What [checkConnectBlock] does between loading the inputs and
    connecting the transactions; the result is [totalFees]. *)
Definition beforeConnect (node : blockNode) (block : Block)
    (view : UtxoViewpoint) : outcome Z :=
  let transactions := Transactions block in
  let nBlockBytes := BlockSerializeSize block in
  let maxSigOps := MaxBlockSigOps (uint32 nBlockBytes) in
  _ <- sigOpsLoop transactions 0 view connectScriptFlags maxSigOps 0 ;;
  totalFees <- feesLoop transactions (nodeHeight node) view 0 ;;
  _ <- checkTxSequence block view chainParams ;;
  Ok totalFees.

(** The sequence-lock loop, run when CSV is active. *)
Fixpoint sequenceLocksLoop (txs : list MsgTx) (node : blockNode)
    (view : UtxoViewpoint) (medianTime : Z) : outcome unit :=
  match txs with
  | nil => Ok tt
  | tx :: rest =>
      sequenceLock <- calcSequenceLock node tx view ;;
      if negb (SequenceLockActive sequenceLock (nodeHeight node) medianTime)
      then Err (ruleError ErrUnfinalizedTx)
      else sequenceLocksLoop rest node view medianTime
  end.

(** Everything after the coinbase-value check. *)
Definition afterCoinbaseValue (node : blockNode) (block : Block)
    (view : UtxoViewpoint) (amountSubsidy : Z) : outcome unit :=
  let preHash := PrevBlock (Header block) in
  let preHeight := int32 (nodeHeight node - 1) in
  _ <- (if 0 <? preHeight
        then
          match blockByHashAndHeight preHash preHeight with
          | Panic s => Panic s
          | Err _ => Err (ruleError ErrPrevBlockNotBest)
          | Ok preblock =>
              checkBlockSubsidy block preblock (nodeHeight node) view
                amountSubsidy chainParams
          end
        else Ok tt) ;;
  let runScripts :=
    match LatestCheckpoint with
    | Some cpHeight => negb (nodeHeight node <=? cpHeight)
    | None => true
    end in
  csvState <- deploymentStateCSV (nodeParent node) ;;
  r <- match csvState with
       | ThresholdActive =>
           let medianTime := CalcPastMedianTime (nodeParent node) in
           _ <- sequenceLocksLoop (Transactions block) node view medianTime ;;
           Ok (Z.lor connectScriptFlags ScriptVerifyCheckSequenceVerify)
       | _ => Ok connectScriptFlags
       end ;;
  if runScripts then checkBlockScripts block view r else Ok tt.

(** The coinbase-value check: only the first output is added up, the
    loop breaks after it. *)
Definition coinbaseValueCheck (node : blockNode) (block : Block)
    (totalFees : Z) : outcome Z :=
  coinbase <- Go.index (Transactions block) 0 ;;
  let totalSatoshiOut :=
    match TxOuts coinbase with
    | nil => 0
    | txOut :: _ => int64 (0 + Value txOut)
    end in
  let amountSubsidy := CalcBlockSubsidy (nodeHeight node) chainParams in
  let expectedSatoshiOut := int64 (amountSubsidy + totalFees) in
  if expectedSatoshiOut <? totalSatoshiOut
  then Err (ruleError ErrBadCoinbaseValue)
  else Ok amountSubsidy.

(** The value of output 0 of the coinbase, what the loop above adds up. *)
Definition coinbaseOut0 (coinbase : MsgTx) : Z :=
  match TxOuts coinbase with
  | nil => 0
  | txOut :: _ => Value txOut
  end.

(** A call that does not end in [ErrBadCoinbaseValue]. *)
Definition quiet {A} (r : outcome A) : Prop :=
  r <> Err (ruleError ErrBadCoinbaseValue).

(** The collaborators called after the coinbase-value check hand up
    errors of their own, none of them [ErrBadCoinbaseValue]. *)
Definition collaboratorsQuiet : Prop :=
  (forall s, KeepedAmountParse s <> Err (ruleError ErrBadCoinbaseValue))
  /\ (forall p, deploymentStateCSV p <> Err (ruleError ErrBadCoinbaseValue))
  /\ (forall n tx v, calcSequenceLock n tx v <> Err (ruleError ErrBadCoinbaseValue))
  /\ (forall b v f, checkBlockScripts b v f <> Err (ruleError ErrBadCoinbaseValue)).

(** [checkConnectBlock]: the view and spent journal it leaves, and how
    the call ends. *)
Definition checkConnectBlock (node : blockNode) (block : Block)
    (view : UtxoViewpoint) (stxos : list SpentTxOut)
  : UtxoViewpoint * list SpentTxOut * outcome unit :=
  if nodeHash node =? GenesisHash chainParams
  then (view, stxos, Err (ruleError ErrMissingTxOut))
  else
    match addInputUtxos view block with
    | (view, Some e) => (view, stxos, Err e)
    | (view, None) =>
        match beforeConnect node block view with
        | Panic s => (view, stxos, Panic s)
        | Err e => (view, stxos, Err e)
        | Ok totalFees =>
            match connectTransactions view block stxos false with
            | (view, stxos, Some _) => (view, stxos, Ok tt)
            | (view, stxos, None) =>
                (view, stxos,
                 amountSubsidy <- coinbaseValueCheck node block totalFees ;;
                 afterCoinbaseValue node block view amountSubsidy)
            end
        end
    end.

End Subsidy.
End Subsidy.

(** ** difficulty.go: the next required difficulty *)

Module Difficulty.
Section Difficulty.
Context `{Chain}.

Definition big30 : Z := 30.
Definition bigMinus99 : Z := -99.
Definition DifficultyBoundDivisor : Z := 128.

(** Modelled from the spec: [RelativeAncestor] is declared in
    blockindex.go; section 4.4 of the specification reads
    [RelativeAncestor(1)] as the parent of the node. *)
Definition RelativeAncestor1 (node : blockNode) : option blockNode :=
  nodeParent node.

(** The difficulty of the parent: the work it added to the chain. *)
Definition parentDifficulty (lastNode : blockNode) : outcome Z :=
  if negb (nodeHeight lastNode =? 0)
  then
    match RelativeAncestor1 lastNode with
    | None => Panic "nil pointer dereference"
    | Some ancestor => Ok (nodeWorkSum lastNode - nodeWorkSum ancestor)
    end
  else Ok (nodeWorkSum lastNode).

Definition calcNextRequiredDifficulty (lastNode : option blockNode)
    (newBlockTime : Z) : outcome Z :=
  match lastNode with
  | None => Ok (PowLimitBits chainParams)
  | Some lastNode =>
      if NoDifficultyAdjustment chainParams then Ok (nodeBits lastNode)
      else
        let bigTime := newBlockTime in
        let bigParentTime := nodeTimestamp lastNode in
        x <- Big.Div (bigTime - bigParentTime) big30 ;;
        let x := 1 - x in
        let x := if x <? bigMinus99 then bigMinus99 else x in
        difficulty <- parentDifficulty lastNode ;;
        let y := difficulty * x in
        x <- Big.Div y DifficultyBoundDivisor ;;
        let newDifficulty := difficulty + x in
        let e := 2 ^ 256 in
        let nt := e - newDifficulty in
        newTarget <- Big.Div nt newDifficulty ;;
        let newTarget :=
          if PowLimit chainParams <? newTarget
          then PowLimit chainParams else newTarget in
        Ok (Compact.BigToCompact newTarget)
  end.

(** The formula of the specification, section 4.4. *)
Definition specX (blockTime parentTime : Z) : Z :=
  Z.max (1 - (blockTime - parentTime) / 30) (-99).

Definition specNewD (diff x : Z) : Z := diff + diff * x / 128.

Definition specNewT (newD : Z) : Z := (2 ^ 256 - newD) / newD.

(** [P.work_sum - P.parent.work_sum], or [P.work_sum] at height 0. *)
Definition specDiff (P : blockNode) : Z :=
  if nodeHeight P =? 0 then nodeWorkSum P
  else nodeWorkSum P
       - match nodeParent P with Some Q => nodeWorkSum Q | None => 0 end.

End Difficulty.
End Difficulty.

(** ** Concrete collaborators, for running the definitions *)

Module Fixtures.

(** A script engine that finds no signature operations and classifies
    every script as pay-to-script-hash of class 2. *)
Definition quietScript : TxScript := {|
  ScriptBip16 := 1;
  ScriptVerifyDERSignatures := 2;
  ScriptVerifyCheckLockTimeVerify := 4;
  ScriptVerifyStrictEncoding := 8;
  ScriptVerifyBip143SigHash := 16;
  ScriptVerifyLowS := 32;
  ScriptVerifyNullFail := 64;
  ScriptVerifySigPushOnly := 128;
  ScriptVerifyCleanStack := 256;
  ScriptVerifyCheckDataSig := 512;
  ScriptVerifySchnorr := 1024;
  ScriptVerifyAllowSegwitRecovery := 2048;
  ScriptVerifyCheckSequenceVerify := 4096;
  LockTimeThreshold := 500000000;
  OP_0 := 0x00;
  OP_1 := 0x51;
  OP_16 := 0x60;
  GetSigOpCount := fun _ _ => 0;
  GetPreciseSigOpCount := fun _ _ _ => 0;
  IsPayToScriptHash := fun _ => true;
  GetScriptClass := fun _ => 2;
  ExtractPkScriptPub := fun s => Ok s;
  ComputePk := fun s => Ok s;
  ExtractPkScriptAddrs := fun _ _ => (0, nil, 0, None);
  PubKeyHashTy := 2 |}.

(** A script engine like [quietScript] that counts one signature
    operation in every script. *)
Definition countingScript : TxScript := {|
  ScriptBip16 := 1;
  ScriptVerifyDERSignatures := 2;
  ScriptVerifyCheckLockTimeVerify := 4;
  ScriptVerifyStrictEncoding := 8;
  ScriptVerifyBip143SigHash := 16;
  ScriptVerifyLowS := 32;
  ScriptVerifyNullFail := 64;
  ScriptVerifySigPushOnly := 128;
  ScriptVerifyCleanStack := 256;
  ScriptVerifyCheckDataSig := 512;
  ScriptVerifySchnorr := 1024;
  ScriptVerifyAllowSegwitRecovery := 2048;
  ScriptVerifyCheckSequenceVerify := 4096;
  LockTimeThreshold := 500000000;
  OP_0 := 0x00;
  OP_1 := 0x51;
  OP_16 := 0x60;
  GetSigOpCount := fun _ _ => 1;
  GetPreciseSigOpCount := fun _ _ _ => 1;
  IsPayToScriptHash := fun _ => true;
  GetScriptClass := fun _ => 2;
  ExtractPkScriptPub := fun s => Ok s;
  ComputePk := fun s => Ok s;
  ExtractPkScriptAddrs := fun _ _ => (0, nil, 0, None);
  PubKeyHashTy := 2 |}.

(** Every transaction serializes to 200 bytes; a coin is 10^8 units. *)
Definition plainEncoding : Encoding := {|
  SerializeSize := fun _ => 200;
  BlockSerializeSize := fun _ => 1000;
  Tx0OfEmptyBlock := fun _ => inl 0;
  NewAddressPubKeyHash := fun _ _ => Ok EmptyString;
  NewLegacyAddressScriptHash := fun _ _ => Ok Cross.dogePoolAddr;
  SatoshiPerBitcoin := 100000000;
  MaxSatoshi := 2100000000000000;
  MainNetEntangleHeight := 100 |}.

(** No transaction carries entangle items. *)
Definition noEntangle : CrossPkg := {|
  IsEntangleTx := fun _ => None;
  KeepedAmount := unit;
  emptyKeepedAmount := tt;
  KeepedAmountParse := fun _ => Ok tt;
  KeepedAmountAdd := fun k _ _ => k;
  PreCalcEntangleAmount := fun _ v k => (v, k);
  VerifyTxsSequence := fun _ => Ok tt |}.

(** Every transaction carries one Doge item; its height is the
    transaction's lock time. *)
Definition lockTimeEntangle : CrossPkg := {|
  IsEntangleTx := fun tx =>
    Some ((0, mkEntangleTxInfo 240 0 (LockTime tx) 5 nil) :: nil);
  KeepedAmount := unit;
  emptyKeepedAmount := tt;
  KeepedAmountParse := fun _ => Ok tt;
  KeepedAmountAdd := fun k _ _ => k;
  PreCalcEntangleAmount := fun _ v k => (v, k);
  VerifyTxsSequence := fun _ => Ok tt |}.

(** Two inputs spending the same outpoint, and no output. *)
Definition twiceSpent : list TxIn :=
  mkTxIn (mkOutPoint 9 0) nil 0 :: mkTxIn (mkOutPoint 9 0) nil 0 :: nil.
Definition dupTxNoOutputs : MsgTx := mkMsgTx 1 twiceSpent nil 0.
(** The same inputs and one output of negative value. *)
Definition dupTxNegativeOutput : MsgTx :=
  mkMsgTx 1 twiceSpent (mkTxOut (-1) nil :: nil) 0.
(** The same inputs and one output of 5 units. *)
Definition dupTxPlain : MsgTx :=
  mkMsgTx 1 twiceSpent (mkTxOut 5 nil :: nil) 0.

(** One input whose outpoint no view holds, and no output. *)
Definition orphanTx : MsgTx :=
  mkMsgTx 1 (mkTxIn (mkOutPoint 9 0) nil 0 :: nil) nil 0.

Definition testParams : Params := {|
  SubsidyReductionInterval := 1000;
  EntangleHeight := 100;
  CoinbaseMaturity := 14;
  NoDifficultyAdjustment := false;
  PowLimit := 2 ^ 224 - 1;
  PowLimitBits := 0x1d00ffff;
  GenesisHash := 7 |}.

(** A foreign transaction with one input and one output of 5 units. *)
Definition foreignTx : MsgTx :=
  mkMsgTx 1 (mkTxIn (mkOutPoint 9 0) nil 0 :: nil) (mkTxOut 5 nil :: nil) 0.

(** A foreign node that knows [foreignTx] under every hash and is at
    block 1000. *)
Definition foreignClient : Client := {|
  GetRawTransaction := fun _ => Ok foreignTx;
  GetBlockCount := Ok 1000 |}.

Definition testVerify : EntangleVerify := {|
  DogeCoinRPC := foreignClient :: nil;
  LtcCoinRPC := foreignClient :: nil;
  Cache := None |}.

(** A chain whose collaborators accept everything, except
    [connectTransactions], which fails when [connectFails] is set. *)
Definition testChain (connectFails : bool) : Chain := {|
  chainParams := testParams;
  addInputUtxos := fun view _ => (view, None);
  connectTransactions := fun view _ stxos _ =>
    (view, stxos, if connectFails then Some (ruleError ErrMissingTxOut) else None);
  blockByHashAndHeight := fun _ _ => Ok (mkBlock (mkBlockHeader 0 0 0 0 0) nil 0);
  LatestCheckpoint := None;
  deploymentStateCSV := fun _ => Ok ThresholdDefined;
  CalcPastMedianTime := fun _ => 0;
  calcSequenceLock := fun _ _ _ => Ok (mkSequenceLock (-1) (-1));
  checkBlockScripts := fun _ _ _ => Ok tt;
  entangleVerify := testVerify |}.

(** A transaction that [lockTimeEntangle] reads as carrying one Doge
    item of height [h]. *)
Definition entangleTx (h : Z) : MsgTx :=
  mkMsgTx 1 (mkTxIn (mkOutPoint h 0) nil 0 :: nil) (mkTxOut 0 nil :: nil) h.

(** Two entangle transactions, of heights 10 and then 5. *)
Definition descendingBlock : Block :=
  mkBlock (mkBlockHeader 10 0 0 0 0) (entangleTx 10 :: entangleTx 5 :: nil) 200.

(** The block before the activation block: its coinbase carries 1000
    and 2000 units on the two pool outputs. *)
Definition preActivationBlock : Block :=
  mkBlock (mkBlockHeader 9 0 0 0 0)
          (mkMsgTx 1 (mkTxIn (mkOutPoint 0 Go.MaxUint32) nil 0 :: nil)
             (mkTxOut 50 nil :: mkTxOut 1000 nil :: mkTxOut 2000 nil
              :: mkTxOut 0 nil :: nil) 0 :: nil)
          99.

(** A block whose coinbase leaves both pool outputs empty. *)
Definition emptyPoolsBlock : Block :=
  mkBlock (mkBlockHeader 10 0 0 0 0)
          (mkMsgTx 1 (mkTxIn (mkOutPoint 0 Go.MaxUint32) nil 0 :: nil)
             (mkTxOut 50 nil :: mkTxOut 0 nil :: mkTxOut 0 nil
              :: mkTxOut 0 nil :: nil) 0 :: nil)
          100.

(** A coinbase input: the null outpoint, and a script that starts with
    [OP_0], height 0. *)
Definition coinbaseIn : TxIn :=
  mkTxIn (mkOutPoint 0 Go.MaxUint32) (x00 :: x00 :: nil) Go.MaxUint32.

(** A block at height 5 whose coinbase pays one unit more than the
    subsidy of 10^11 on output 0; there are no fees. *)
Definition overpayingBlock : Block :=
  mkBlock (mkBlockHeader 10 0 0 0 0)
          (mkMsgTx 1 (coinbaseIn :: nil) (mkTxOut 100000000001 nil :: nil) 0 :: nil)
          5.

(** A block at height 5 whose coinbase pays the subsidy on output 0 and
    more still on outputs 1 and 2. *)
Definition poolHeavyBlock : Block :=
  mkBlock (mkBlockHeader 10 0 0 0 0)
          (mkMsgTx 1 (coinbaseIn :: nil)
             (mkTxOut 100000000000 nil :: mkTxOut 700000000000 nil
              :: mkTxOut 900000000000 nil :: nil) 0 :: nil)
          5.

Definition tipNode : blockNode :=
  mkBlockNode 11 (Some (mkBlockNode 10 None 4000000 4 0x1d00ffff 970))
              5000000 5 0x1d00ffff 1000.

(** A parent at height 5 that added 1000000 units of work, found at
    second 1000. *)
Definition steadyParent : blockNode :=
  mkBlockNode 11 (Some (mkBlockNode 10 None 4000000 4 0x1d00ffff 970))
              5000000 5 0x1d00ffff 1000.

End Fixtures.

(** ** More of validate.go and difficulty.go *)

(** The proof-of-work seal (package consensus) and the behaviour flag
    that switches it off. *)
Class Seal := {
  BFNoPoWCheck : Z;
  BlockHashNoNonce : BlockHeader -> Hash;
  VerifyBlockSeal : Hash -> Z -> Z -> outcome unit }.

Module Pow.
Section Pow.
Context `{TxScript} `{Seal}.

Definition IsFinalizedTransaction (tx : MsgTx) (blockHeight : Z) (blockTime : Z)
  : bool :=
  let lockTime := LockTime tx in
  if lockTime =? 0 then true
  else
    let blockTimeOrHeight :=
      if lockTime <? LockTimeThreshold then int64 blockHeight else blockTime in
    if int64 lockTime <? blockTimeOrHeight then true
    else forallb (fun txIn => Sequence txIn =? Go.MaxUint32) (TxIns tx).

Definition checkProofOfWork (header : BlockHeader) (powLimit : Z) (flags : Z)
  : outcome unit :=
  let target := Compact.CompactToBig (Bits header) in
  if Z.sgn target <=? 0 then Err (ruleError ErrUnexpectedDifficulty)
  else if powLimit <? target then Err (ruleError ErrUnexpectedDifficulty)
  else if negb (HasFlag flags BFNoPoWCheck)
  then
    let hash := BlockHashNoNonce header in
    match VerifyBlockSeal hash target (Nonce header) with
    | Ok _ => Ok tt
    | Err _ => Err (ruleError ErrHighHash)
    | Panic s => Panic s
    end
  else Ok tt.

(** [buf[i], buf[j] = buf[j], buf[i]] *)
Definition swapAt (buf : list byte) (i j : nat) : list byte :=
  match buf !! i, buf !! j with
  | Some a, Some b => <[j := a]> (<[i := b]> buf)
  | _, _ => buf
  end.

(** The loop of [HashToBig]: [n] more rounds, the next at index [i]. *)
Fixpoint reverseLoop (n i : nat) (buf : list byte) : list byte :=
  match n with
  | O => buf
  | S n' => reverseLoop n' (S i) (swapAt buf i (length buf - 1 - i))
  end.

(** [new(big.Int).SetBytes]: the bytes as a big-endian number. *)
Definition SetBytes (bs : list byte) : Z :=
  fold_left (fun acc b => acc * 256 + Validate.byteZ b) bs 0.

(** [HashToBig] on the bytes of the hash. *)
Definition HashToBig (hash : list byte) : Z :=
  SetBytes (reverseLoop (length hash / 2) 0 hash).

(** The three-element network of [getSuitableBlock]: each step swaps
    two slots when the first has the later timestamp.  An
    [AssertError] is kept as the error that carries its text. *)
Definition getSuitableBlock (node0 : blockNode) : outcome blockNode :=
  match Difficulty.RelativeAncestor1 node0 with
  | None => Err (errorsNew "unable to obtain relative ancestor")
  | Some node1 =>
      match Difficulty.RelativeAncestor1 node1 with
      | None => Err (errorsNew "unable to obtain relative ancestor")
      | Some node2 =>
          let '(b0, b1, b2) := (node2, node1, node0) in
          let '(b0, b1, b2) :=
            if nodeTimestamp b2 <? nodeTimestamp b0 then (b2, b1, b0)
            else (b0, b1, b2) in
          let '(b0, b1, b2) :=
            if nodeTimestamp b1 <? nodeTimestamp b0 then (b1, b0, b2)
            else (b0, b1, b2) in
          let '(b0, b1, b2) :=
            if nodeTimestamp b2 <? nodeTimestamp b1 then (b0, b2, b1)
            else (b0, b1, b2) in
          Ok b1
      end
  end.

(** The middle one of three numbers. *)
Definition median3 (a b c : Z) : Z := Z.max (Z.min a b) (Z.min (Z.max a b) c).

End Pow.
End Pow.

(** ** Readings of a block's coinbase used to state the pool accounting *)

Module Accounting.

(** The value of output [i] of the block's coinbase; zero when the block
    has no transactions or the coinbase has no such output, as the
    fields of [KeepedInfoSummay] stay when the loop does not set them. *)
Definition coinbaseOutValue (block : Block) (i : nat) : Z :=
  match Transactions block with
  | nil => 0
  | cb :: _ =>
      match TxOuts cb !! i with
      | Some txout => Value txout
      | None => 0
      end
  end.

(** The outputs of the block's coinbase past index 3, added up as
    [amount1] is. *)
Definition coinbaseEntangleOut (block : Block) : Z :=
  match Transactions block with
  | nil => 0
  | cb :: _ =>
      fold_left (fun t txout => int64 (t + Value txout)) (skipn 4 (TxOuts cb)) 0
  end.

End Accounting.

(** ** validate.go: the context-free checks on a block *)

(** What [checkBlockSanity] and [checkBlockHeaderSanity] use from
    outside validate.go.  A [time.Time] is the number of nanoseconds
    since the Unix epoch.  The header keeps the seconds of its
    timestamp; [timestampNanos] is the part of it below the second. *)
Class BlockEnv := {
  BFNone : Z;
  BFMagneticAnomaly : Z;
  (** [tx.Hash()] *)
  TxHash : MsgTx -> Hash;
  (** [a.Compare(b)] *)
  HashCompare : Hash -> Hash -> Z;
  (** the store of [BuildMerkleTreeStore]; [None] is a nil entry *)
  BuildMerkleTreeStore : list MsgTx -> list (option Hash);
  timestampNanos : BlockHeader -> Z;
  (** [time.Now()] *)
  timeNow : Z;
  (** [timeSource.AdjustedTime()] *)
  AdjustedTime : Z;
  (** [bc.BlockByHash]: the block and the error it returns *)
  BlockByHash : Hash -> option Block * option error;
  (** [chainParams.Deployments[chaincfg.DeploymentSEQ].StartTime] *)
  DeploymentSEQStartTime : Z }.

Module BlockSanity.
Section BlockSanity.
Context `{TxScript} `{Encoding} `{Seal} `{BlockEnv}.

Import Validate.

(** [time.Second], in nanoseconds. *)
Definition second : Z := 1000000000.
Definition allowedFutureBlockTime : Z := 10 * second.

(** [header.Timestamp] as an instant. *)
Definition headerTime (header : BlockHeader) : Z :=
  Timestamp header * second + timestampNanos header.

Definition checkBlockHeaderSanity (header : BlockHeader) (powLimit : Z)
    (flags : Z) : outcome unit :=
  _ <- Pow.checkProofOfWork header powLimit flags ;;
  if negb (headerTime header =? Timestamp header * second)
  then Err (ruleError ErrInvalidTime)
  else if timeNow + allowedFutureBlockTime <? headerTime header
  then Err (ruleError ErrInvalidTime)
  else
    let '(prevblock, err) := BlockByHash (PrevBlock header) in
    if (match err with Some _ => true | None => false end)
       && (int64 DeploymentSEQStartTime <? Timestamp header)
       && (match prevblock with
           | Some p => headerTime header <? headerTime (Header p)
           | None => false
           end)
    then Err (ruleError ErrInvalidTime)
    else
      let maxTimestamp := AdjustedTime + MaxTimeOffsetSeconds * second in
      if maxTimestamp <? headerTime header
      then Err (ruleError ErrTimeTooNew)
      else Ok tt.

(** The loop over [transactions[1:]]. *)
Fixpoint checkNoMoreCoinbases (txs : list MsgTx) : outcome unit :=
  match txs with
  | nil => Ok tt
  | tx :: rest =>
      isCb <- IsCoinBase tx ;;
      if isCb then Err (ruleError ErrMultipleCoinbases)
      else checkNoMoreCoinbases rest
  end.

(** The loop that checks the order and the sanity of the transactions;
    [lastTxid] is [None] while it is nil. *)
Fixpoint checkTransactions (txs : list MsgTx) (i : Z) (lastTxid : option Hash)
    (magneticAnomaly : bool) (scriptFlags : Z) : outcome unit :=
  match txs with
  | nil => Ok tt
  | tx :: rest =>
      outOfOrder <-
        (if magneticAnomaly && (1 <? i)
         then match lastTxid with
              | None => Panic "nil pointer dereference"
              | Some last => Ok (0 <=? HashCompare last (TxHash tx))
              end
         else Ok false) ;;
      if (outOfOrder : bool) then Err (ruleError ErrInvalidTxOrder)
      else
        _ <- CheckTransactionSanity tx magneticAnomaly scriptFlags ;;
        checkTransactions rest (i + 1) (Some (TxHash tx)) magneticAnomaly
          scriptFlags
  end.

Fixpoint checkDuplicateTxs (txs : list MsgTx) (existingTxHashes : gset Hash)
  : outcome unit :=
  match txs with
  | nil => Ok tt
  | tx :: rest =>
      if decide (TxHash tx ∈ existingTxHashes)
      then Err (ruleError ErrDuplicateTx)
      else checkDuplicateTxs rest ({[TxHash tx]} ∪ existingTxHashes)
  end.

(** The script flags [checkBlockSanity] hands to the transaction check. *)
Definition sanityScriptFlags (magneticAnomaly : bool) : Z :=
  if magneticAnomaly
  then Z.lor 0 (Z.lor (Z.lor ScriptVerifySigPushOnly ScriptVerifyCleanStack)
                      ScriptVerifyCheckDataSig)
  else 0.

Definition checkBlockSanity (block : Block) (powLimit : Z) (flags : Z)
  : outcome unit :=
  let header := Header block in
  _ <- checkBlockHeaderSanity header powLimit flags ;;
  let numTx := len (Transactions block) in
  if numTx =? 0 then Err (ruleError ErrNoTransactions)
  else
    let transactions := Transactions block in
    tx0 <- Go.index transactions 0 ;;
    isCb <- IsCoinBase tx0 ;;
    if negb isCb then Err (ruleError ErrFirstTxNotCoinbase)
    else
      _ <- checkNoMoreCoinbases (skipn 1 transactions) ;;
      let magneticAnomaly := HasFlag flags BFMagneticAnomaly in
      let scriptFlags := sanityScriptFlags magneticAnomaly in
      _ <- checkTransactions transactions 0 None magneticAnomaly scriptFlags ;;
      let merkles := BuildMerkleTreeStore transactions in
      calculatedMerkleRoot <- Go.index merkles (len merkles - 1) ;;
      if negb (match calculatedMerkleRoot with
               | Some root => MerkleRoot header =? root
               | None => false
               end)
      then Err (ruleError ErrBadMerkleRoot)
      else checkDuplicateTxs transactions ∅.

Definition CheckBlockSanity (block : Block) (powLimit : Z)
    (magneticAnomalyActive : bool) : outcome unit :=
  let behaviorFlags :=
    if magneticAnomalyActive then Z.lor BFNone BFMagneticAnomaly else BFNone in
  checkBlockSanity block powLimit behaviorFlags.

(** [checkSerializedHeight] *)
Definition checkSerializedHeight (coinbaseTx : MsgTx) (wantHeight : Z)
  : outcome unit :=
  serializedHeight <- ExtractCoinbaseHeight coinbaseTx ;;
  if negb (serializedHeight =? wantHeight)
  then Err (ruleError ErrBadCoinbaseHeight)
  else Ok tt.

End BlockSanity.
End BlockSanity.

(** ** More sample inputs *)

Module Samples.
Import Fixtures.

(** A seal that every nonce satisfies. *)
Definition openSeal : Seal := {|
  BFNoPoWCheck := 1;
  BlockHashNoNonce := fun header => MerkleRoot header;
  VerifyBlockSeal := fun _ _ _ => Ok tt |}.

(** A seal that no nonce satisfies. *)
Definition shutSeal : Seal := {|
  BFNoPoWCheck := 1;
  BlockHashNoNonce := fun header => MerkleRoot header;
  VerifyBlockSeal := fun _ _ _ => Err (errorsNew "invalid seal") |}.

(** The hash of a transaction is its version; the root of the merkle
    store is 77; the clock stands at second 2000; no block is known by
    its hash. *)
Definition versionEnv : BlockEnv := {|
  BFNone := 0;
  BFMagneticAnomaly := 2;
  TxHash := fun tx => Version tx;
  HashCompare := fun a b => Z.sgn (a - b);
  BuildMerkleTreeStore := fun txs => map (fun tx => Some (Version tx)) txs
                                     ++ Some 77 :: nil;
  timestampNanos := fun _ => 0;
  timeNow := 2000 * 1000000000;
  AdjustedTime := 2000 * 1000000000;
  BlockByHash := fun _ => (None, Some (errorsNew "block not found"));
  DeploymentSEQStartTime := 0 |}.

(** The chain of [testChain] whose collaborators accept everything. *)
Definition acceptingChain : Chain := testChain false.

(** A coinbase of height 0 that pays 50 units. *)
Definition coinbaseTx : MsgTx :=
  mkMsgTx 1 (coinbaseIn :: nil) (mkTxOut 50 nil :: nil) 0.

(** Two transactions, of versions 2 and 3, that spend outputs 0 and 1
    of transaction 9 and pay 5 units each. *)
Definition spendTx (version index : Z) : MsgTx :=
  mkMsgTx version (mkTxIn (mkOutPoint 9 index) nil Go.MaxUint32 :: nil)
          (mkTxOut 5 nil :: nil) 0.

(** A view that holds outputs 0 and 1 of transaction 9, of 8 units
    each, unspent and not from a coinbase. *)
Definition sampleView : UtxoViewpoint :=
  <[mkOutPoint 9 0 := mkUtxoEntry 8 nil 1 false false false]>
    (<[mkOutPoint 9 1 := mkUtxoEntry 8 nil 1 false false false]> ∅).

(** [sampleView] with the amounts and the scripts wiped. *)
Definition blankedView : UtxoViewpoint :=
  (fun u => mkUtxoEntry 0 nil (utxoBlockHeight u) (utxoIsCoinBase u)
                        (utxoIsPool u) (utxoIsSpent u)) <$> sampleView.

(** A coinbase of height 100, one byte pushed, with the two pool inputs
    a coinbase carries from the entangle height on. *)
Definition poolCoinbaseTx : MsgTx :=
  mkMsgTx 1 (mkTxIn (mkOutPoint 0 Go.MaxUint32) (x01 :: x64 :: nil) Go.MaxUint32
             :: mkTxIn (mkOutPoint 9 0) nil Go.MaxUint32
             :: mkTxIn (mkOutPoint 9 1) nil Go.MaxUint32 :: nil)
          (mkTxOut 50 nil :: nil) 0.

(** A header with the target of [0x1d00ffff], found at second 1000,
    whose merkle root is 77. *)
Definition sampleHeader : BlockHeader := mkBlockHeader 10 77 1000 0x1d00ffff 0.

(** A block at height 5: the coinbase and the two spends. *)
Definition saneBlock : Block :=
  mkBlock sampleHeader (coinbaseTx :: spendTx 2 0 :: spendTx 3 1 :: nil) 5.

(** The two spends alone. *)
Definition spendsBlock : Block :=
  mkBlock sampleHeader (spendTx 2 0 :: spendTx 3 1 :: nil) 5.

(** A block whose first transaction has no input. *)
Definition hollowBlock : Block :=
  mkBlock sampleHeader (mkMsgTx 1 nil nil 0 :: nil) 5.

(** The block at height 100: its coinbase carries 5 and 7 units on the
    pool outputs. *)
Definition poolPrevBlock : Block :=
  mkBlock sampleHeader
          (mkMsgTx 1 (coinbaseIn :: nil)
             (mkTxOut 50 nil :: mkTxOut 5 nil :: mkTxOut 7 nil :: nil) 0 :: nil)
          100.

(** The block at height 101 for a subsidy of 1000: 800 to the miner,
    5 + 190 and 7 + 10 on the pool outputs. *)
Definition poolNextBlock : Block :=
  mkBlock sampleHeader
          (mkMsgTx 1 (coinbaseIn :: nil)
             (mkTxOut 800 nil :: mkTxOut 195 nil :: mkTxOut 17 nil :: nil) 0 :: nil)
          101.

(** A block at height 100 whose coinbase has two outputs. *)
Definition shortPrevBlock : Block :=
  mkBlock sampleHeader
          (mkMsgTx 1 (coinbaseIn :: nil)
             (mkTxOut 50 nil :: mkTxOut 5 nil :: nil) 0 :: nil)
          100.

(** A transaction locked until height 100, with an input that is not
    final. *)
Definition lockedTx : MsgTx :=
  mkMsgTx 1 (mkTxIn (mkOutPoint 9 0) nil 0 :: nil) (mkTxOut 5 nil :: nil) 100.

(** Three nodes in a row, found at seconds 30, 10 and 20. *)
Definition zigzagNode : blockNode :=
  mkBlockNode 3 (Some (mkBlockNode 2 (Some (mkBlockNode 1 None 100 1 0x1d00ffff 30))
                                   200 2 0x1d00ffff 10))
              300 3 0x1d00ffff 20.

End Samples.

(** * Properties *)

(** Closes a goal between closed numbers by evaluation. *)
Ltac by_evaluation :=
  vm_compute; repeat split; try reflexivity; try (intro; discriminate).

(** ** Fixed-width integers *)

Section GoFacts.

Lemma wrapU_small w z : 0 <= z < 2 ^ w -> wrapU w z = z.
Proof. intros H. unfold wrapU. apply Z.mod_small; exact H. Qed.


Lemma wrapS_small w z : 0 < w -> - 2 ^ (w - 1) <= z < 2 ^ (w - 1) -> wrapS w z = z.
Proof.
  intros Hw Hz. unfold wrapS.
  replace (2 ^ w) with (2 * 2 ^ (w - 1)).
  - rewrite Z.mod_small; lia.
  - rewrite <- Z.pow_succ_r by lia. f_equal. lia.
Qed.

Lemma int64_small z : is_int64 z -> int64 z = z.
Proof. intros Hz. apply wrapS_small; [lia | exact Hz]. Qed.

Lemma int32_small z : is_int32 z -> int32 z = z.
Proof. intros Hz. apply wrapS_small; [lia | exact Hz]. Qed.

End GoFacts.

(** ** The compact codec *)

Module CompactFacts.
Import Compact.

Lemma byteLen_bounds n : 0 < n ->
  1 <= Big.byteLen n /\ 2 ^ (8 * (Big.byteLen n - 1)) <= n < 2 ^ (8 * Big.byteLen n).
Proof.
  intros Hn. unfold Big.byteLen.
  destruct (Z.eqb_spec n 0) as [->|_]; [lia|].
  rewrite Z.abs_eq by lia.
  pose proof (Z.log2_nonneg n) as Hl.
  destruct (Z.log2_spec n Hn) as [Hlo Hhi].
  pose proof (Z.div_mod (Z.log2 n) 8 ltac:(lia)) as Hdm.
  pose proof (Z.mod_pos_bound (Z.log2 n) 8 ltac:(lia)) as Hm.
  assert (0 <= Z.log2 n / 8) by (apply Z.div_pos; lia).
  split; [lia|]. split.
  - eapply Z.le_trans; [|exact Hlo]. apply Z.pow_le_mono_r; lia.
  - eapply Z.lt_le_trans; [exact Hhi|]. apply Z.pow_le_mono_r; lia.
Qed.

Lemma byteLen_le n k : 0 < n -> 0 <= k -> n < 2 ^ (8 * k) -> Big.byteLen n <= k.
Proof.
  intros Hn Hk Hlt. destruct (byteLen_bounds n Hn) as (H1 & Hlo & _).
  destruct (Z.le_gt_cases (Big.byteLen n) k) as [|Hgt]; [assumption|].
  exfalso. assert (2 ^ (8 * k) <= 2 ^ (8 * (Big.byteLen n - 1))) by (apply Z.pow_le_mono_r; lia). lia.
Qed.

Lemma testbit_high_false m k : 0 <= m < 2 ^ k -> forall i, k <= i -> Z.testbit m i = false.
Proof.
  intros [H0 Hk] i Hi.
  destruct (Z.eq_dec m 0) as [->|Hne]; [apply Z.bits_0|].
  apply Z.bits_above_log2; [lia|].
  assert (Z.log2 m < k); [|lia].
  apply Z.log2_lt_pow2; lia.
Qed.

Lemma lor_shiftl_add e m k : 0 <= k -> 0 <= m < 2 ^ k ->
  Z.lor (Z.shiftl e k) m = e * 2 ^ k + m.
Proof.
  intros Hk Hm. rewrite Z.shiftl_mul_pow2 by lia.
  rewrite <- Z.lxor_lor, <- Z.add_nocarry_lxor; try reflexivity.
  all: apply Z.bits_inj'; intros i Hi; rewrite Z.land_spec, Z.bits_0.
  all: destruct (Z.lt_ge_cases i k);
    [rewrite Z.mul_pow2_bits_low by lia; reflexivity
    |rewrite (testbit_high_false m k) by lia; apply andb_false_r].
Qed.

Lemma land_bit m k : 0 <= k -> Z.land m (2 ^ k) = if Z.testbit m k then 2 ^ k else 0.
Proof.
  intros Hk. apply Z.bits_inj'; intros i Hi. rewrite Z.land_spec.
  destruct (Z.eq_dec i k) as [->|Hne].
  - rewrite Z.pow2_bits_true by lia. destruct (Z.testbit m k); simpl.
    + now rewrite Z.pow2_bits_true by lia.
    + now rewrite Z.bits_0.
  - rewrite Z.pow2_bits_false by lia. rewrite andb_false_r.
    destruct (Z.testbit m k); [now rewrite Z.pow2_bits_false by lia | now rewrite Z.bits_0].
Qed.

Lemma testbit_top m k : 0 <= k -> 0 <= m < 2 ^ (k + 1) -> Z.testbit m k = (2 ^ k <=? m).
Proof.
  intros Hk [H0 H1].
  destruct (Z.leb_spec (2 ^ k) m) as [Hle|Hlt].
  - apply Z.testbit_true; [lia|].
    rewrite Z.pow_add_r in H1 by lia.
    assert (m / 2 ^ k = 1); [|now rewrite H].
    assert (0 < 2 ^ k) by (apply Z.pow_pos_nonneg; lia).
    symmetry; apply Z.div_unique with (r := m - 2 ^ k); lia.
  - apply testbit_high_false with (k := k); lia.
Qed.

Lemma CompactToBig_pack e m : 0 <= e < 256 -> 0 <= m < 2 ^ 23 ->
  CompactToBig (Z.lor (uint32 (Z.shiftl e 24)) m)
  = if e <=? 3 then Z.shiftr m (8 * (3 - e)) else Z.shiftl m (8 * (e - 3)).
Proof.
  intros He Hm. unfold CompactToBig, uint32, uint.
  rewrite (wrapU_small 32 (Z.shiftl e 24)) by (rewrite Z.shiftl_mul_pow2; lia).
  rewrite lor_shiftl_add by lia.
  set (c := e * 2 ^ 24 + m).
  assert (Hmant : Z.land c 0x007fffff = m).
  { change 0x007fffff with (Z.ones 23). rewrite Z.land_ones by lia.
    subst c. replace (e * 2 ^ 24 + m) with (m + (2 * e) * 2 ^ 23) by lia.
    rewrite Z.mod_add by lia. apply Z.mod_small; lia. }
  assert (Hexp : Z.shiftr c 24 = e).
  { rewrite Z.shiftr_div_pow2 by lia. subst c.
    symmetry; apply Z.div_unique with (r := m); lia. }
  assert (Hsign : Z.land c 0x00800000 = 0).
  { change 0x00800000 with (2 ^ 23). rewrite land_bit by lia.
    replace (Z.testbit c 23) with false; [reflexivity|].
    symmetry. apply Z.testbit_false; [lia|].
    replace (c / 2 ^ 23) with (2 * e).
    - rewrite Z.mul_comm. apply Z.mod_mul; lia.
    - subst c. apply Z.div_unique with (r := m); lia. }
  rewrite Hmant, Hexp, Hsign. simpl negb. cbv iota.
  rewrite (wrapU_small 64 e) by lia.
  destruct (Z.leb_spec e 3) as [Hle|Hgt]; [|reflexivity].
  apply wrapU_small. rewrite Z.shiftr_div_pow2 by lia.
  split; [apply Z.div_pos; [lia|apply Z.pow_pos_nonneg; lia]|].
  apply Z.le_lt_trans with m; [|lia].
  apply Z.div_le_upper_bound; [apply Z.pow_pos_nonneg; lia|].
  assert (0 < 2 ^ (8 * (3 - e))) by (apply Z.pow_pos_nonneg; lia). nia.
Qed.

Lemma pow256 k : 0 <= k -> 256 ^ k = 2 ^ (8 * k).
Proof. intros Hk. rewrite Z.pow_mul_r by lia. reflexivity. Qed.

Lemma rawMantissa_range n : 0 < n ->
  2 ^ 16 <= rawMantissa n < 2 ^ 24.
Proof.
  intros Hn. destruct (byteLen_bounds n Hn) as (HL & Hlo & Hhi).
  unfold rawMantissa. set (l := Big.byteLen n) in *.
  destruct (Z.leb_spec l 3) as [Hle|Hgt].
  - assert (Hp : 0 < 2 ^ (8 * (3 - l))) by (apply Z.pow_pos_nonneg; lia).
    assert (E1 : 2 ^ (8 * (l - 1)) * 2 ^ (8 * (3 - l)) = 2 ^ 16)
      by (rewrite <- Z.pow_add_r by lia; f_equal; lia).
    assert (E2 : 2 ^ (8 * l) * 2 ^ (8 * (3 - l)) = 2 ^ 24)
      by (rewrite <- Z.pow_add_r by lia; f_equal; lia).
    nia.
  - assert (Hp : 0 < 2 ^ (8 * (l - 3))) by (apply Z.pow_pos_nonneg; lia).
    assert (E1 : 2 ^ (8 * (l - 1)) = 2 ^ 16 * 2 ^ (8 * (l - 3)))
      by (rewrite <- Z.pow_add_r by lia; f_equal; lia).
    assert (E2 : 2 ^ (8 * l) = 2 ^ 24 * 2 ^ (8 * (l - 3)))
      by (rewrite <- Z.pow_add_r by lia; f_equal; lia).
    split.
    + apply Z.div_le_lower_bound; lia.
    + apply Z.div_lt_upper_bound; lia.
Qed.

Lemma rawMantissa_topbit n : 0 < n ->
  Z.testbit (rawMantissa n) 23 = Z.testbit n (8 * Big.byteLen n - 1).
Proof.
  intros Hn. destruct (byteLen_bounds n Hn) as (HL & _).
  unfold rawMantissa. set (l := Big.byteLen n) in *.
  destruct (Z.leb_spec l 3) as [Hle|Hgt].
  - rewrite Z.mul_pow2_bits by lia. f_equal. lia.
  - rewrite Z.div_pow2_bits by lia. f_equal. lia.
Qed.

Lemma BigToCompact_pos n : 0 < n < 2 ^ 256 ->
  BigToCompact n =
    let m := rawMantissa n in
    let l := Big.byteLen n in
    if Z.testbit n (8 * l - 1)
    then Z.lor (uint32 (Z.shiftl (l + 1) 24)) (m / 2 ^ 8)
    else Z.lor (uint32 (Z.shiftl l 24)) m.
Proof.
  intros [Hn Hn256]. destruct (byteLen_bounds n Hn) as (HL & Hlo & Hhi).
  pose proof (byteLen_le n 32 Hn ltac:(lia) Hn256) as HL32.
  pose proof (rawMantissa_range n Hn) as Hr.
  pose proof (rawMantissa_topbit n Hn) as Ht.
  unfold BigToCompact.
  rewrite Z.sgn_pos by lia. simpl (1 =? 0). simpl (1 <? 0). cbv iota.
  unfold uint, uint32.
  rewrite (wrapU_small 64 (Big.byteLen n)) by lia.
  assert (Hm : (if Big.byteLen n <=? 3
      then wrapU 32 (Z.shiftl (wrapU 32 (Big.lowWord n)) (8 * (3 - Big.byteLen n)))
      else wrapU 32 (Big.lowWord (Z.shiftr n (8 * (Big.byteLen n - 3))))) = rawMantissa n).
  { unfold rawMantissa in *. set (l := Big.byteLen n) in *.
    destruct (Z.leb_spec l 3) as [Hle|Hgt].
    - assert (n < 2 ^ 24).
      { eapply Z.lt_le_trans; [exact Hhi|]. apply Z.pow_le_mono_r; lia. }
      unfold Big.lowWord. rewrite Z.abs_eq by lia.
      rewrite (Z.mod_small n (2 ^ 64)) by lia.
      rewrite (wrapU_small 32 n) by lia.
      rewrite Z.shiftl_mul_pow2 by lia. apply wrapU_small. lia.
    - rewrite Z.shiftr_div_pow2 by lia.
      unfold Big.lowWord. rewrite Z.abs_eq by lia.
      rewrite Z.mod_small by lia. apply wrapU_small. lia. }
  rewrite Hm. cbv zeta.
  change 0x00800000 with (2 ^ 23). rewrite land_bit by lia. rewrite Ht.
  destruct (Z.testbit n (8 * Big.byteLen n - 1)); simpl.
  - rewrite Z.shiftr_div_pow2 by lia. rewrite (wrapU_small 64) by lia. reflexivity.
  - reflexivity.
Qed.

Lemma roundtrip_truncate n : 0 < n <= 2 ^ 256 - 1 ->
  CompactToBig (BigToCompact n) = truncateToMantissa n.
Proof.
  intros [Hn Hn256]. destruct (byteLen_bounds n Hn) as (HL & Hlo & Hhi).
  pose proof (byteLen_le n 32 Hn ltac:(lia) ltac:(lia)) as HL32.
  pose proof (rawMantissa_range n Hn) as Hr.
  pose proof (rawMantissa_topbit n Hn) as Ht.
  rewrite BigToCompact_pos by lia. cbv zeta.
  unfold truncateToMantissa, storedExponent.
  rewrite (testbit_top (rawMantissa n) 23) in Ht by lia.
  rewrite <- Ht. unfold rawMantissa in *.
  set (l := Big.byteLen n) in *. clearbody l.
  assert (Hpow : forall k, 0 <= k -> 0 < 2 ^ k) by (intros; apply Z.pow_pos_nonneg; lia).
  destruct (Z.leb_spec (2 ^ 23) (if l <=? 3 then n * 2 ^ (8 * (3 - l)) else n / 2 ^ (8 * (l - 3)))) as [Hc|Hc].
  - (* the sign bit collides: one more byte is dropped *)
    rewrite CompactToBig_pack.
    2: lia.
    2: { split; [apply Z.div_pos; lia|]. apply Z.div_lt_upper_bound; lia. }
    destruct (Z.leb_spec l 3) as [Hle|Hgt]; destruct (Z.leb_spec (l + 1) 3) as [Hle1|Hgt1]; try lia.
    + rewrite Z.max_l by lia. rewrite Z.pow_0_r, Z.div_1_r, Z.mul_1_r.
      rewrite Z.shiftr_div_pow2 by lia.
      rewrite Z.div_div by (try apply Hpow; lia).
      rewrite <- Z.pow_add_r by lia.
      replace (8 + 8 * (3 - (l + 1))) with (8 * (3 - l)) by lia.
      apply Z.div_mul. specialize (Hpow (8 * (3 - l))). lia.
    + assert (l = 3) as -> by lia.
      change (8 * (3 - 3)) with 0. change (Z.max 0 (3 + 1 - 3)) with 1.
      change (8 * (3 + 1 - 3)) with 8.
      rewrite Z.pow_0_r, Z.mul_1_r, Z.pow_1_r.
      rewrite Z.shiftl_mul_pow2 by lia. reflexivity.
    + rewrite Z.max_r by lia. rewrite pow256 by lia.
      rewrite Z.shiftl_mul_pow2 by lia.
      rewrite Z.div_div by (try apply Hpow; lia).
      rewrite <- Z.pow_add_r by lia.
      replace (8 * (l - 3) + 8) with (8 * (l + 1 - 3)) by lia. reflexivity.
  - rewrite CompactToBig_pack by lia.
    destruct (Z.leb_spec l 3) as [Hle|Hgt].
    + rewrite Z.max_l by lia. rewrite Z.pow_0_r, Z.div_1_r, Z.mul_1_r.
      rewrite Z.shiftr_div_pow2 by lia.
      apply Z.div_mul. specialize (Hpow (8 * (3 - l))). lia.
    + rewrite Z.max_r by lia. rewrite pow256 by lia.
      rewrite Z.shiftl_mul_pow2 by lia. reflexivity.
Qed.

Lemma mantissa_fits n : 0 < n <= 2 ^ 256 - 1 ->
  0 <= n / 256 ^ Z.max 0 (storedExponent n - 3) < 2 ^ 23.
Proof.
  intros [Hn Hn256]. destruct (byteLen_bounds n Hn) as (HL & Hlo & Hhi).
  assert (Hpow : forall k, 0 <= k -> 0 < 2 ^ k) by (intros; apply Z.pow_pos_nonneg; lia).
  split; [apply Z.div_pos; [lia | apply Z.pow_pos_nonneg; lia]|].
  unfold storedExponent. set (l := Big.byteLen n) in *. clearbody l.
  rewrite (testbit_top n (8 * l - 1)) by (replace (8 * l - 1 + 1) with (8 * l); lia).
  destruct (Z.leb_spec (2 ^ (8 * l - 1)) n) as [Hc|Hc].
  - destruct (Z.le_gt_cases l 2) as [Hs|Hb].
    + rewrite Z.max_l by lia. rewrite Z.pow_0_r, Z.div_1_r.
      assert (2 ^ (8 * l) <= 2 ^ 16) by (apply Z.pow_le_mono_r; lia). lia.
    + rewrite Z.max_r by lia. rewrite pow256 by lia.
      apply Z.div_lt_upper_bound; [apply Hpow; lia|].
      apply Z.lt_le_trans with (2 ^ (8 * l)); [exact Hhi|].
      replace (8 * l) with (8 * (l + 1 - 3) + 16) at 1 by lia.
      rewrite Z.pow_add_r by lia.
      apply Z.mul_le_mono_nonneg_l; [specialize (Hpow (8 * (l + 1 - 3))); lia | lia].
  - destruct (Z.le_gt_cases l 3) as [Hs|Hb].
    + rewrite Z.max_l by lia. rewrite Z.pow_0_r, Z.div_1_r.
      assert (2 ^ (8 * l - 1) <= 2 ^ 23) by (apply Z.pow_le_mono_r; lia). lia.
    + rewrite Z.max_r by lia. rewrite pow256 by lia.
      apply Z.div_lt_upper_bound; [apply Hpow; lia|].
      rewrite <- Z.pow_add_r by lia.
      replace (8 * (l - 3) + 23) with (8 * l - 1) by lia. exact Hc.
Qed.

(** C9.  For every positive [n <= 2^256 - 1] the roundtrip
    [CompactToBig (BigToCompact n)] is [n] truncated to the encoded
    mantissa: with [k] the number of bytes below the mantissa (the byte
    length of [n] less three, one more when the top bit of [n] would
    land on the sign bit, never below zero), the roundtrip is [n] with
    its low [k] bytes zeroed, what is kept fits 23 bits, and [n] is
    reproduced exactly when those [k] bytes are already zero. *)
Theorem compact_roundtrip_truncates (n : Z) :
  0 < n <= 2 ^ 256 - 1 ->
  CompactToBig (BigToCompact n) = truncateToMantissa n
  /\ truncateToMantissa n = n - n mod 256 ^ Z.max 0 (storedExponent n - 3)
  /\ 0 <= n / 256 ^ Z.max 0 (storedExponent n - 3) < 2 ^ 23
  /\ (n mod 256 ^ Z.max 0 (storedExponent n - 3) = 0 ->
      CompactToBig (BigToCompact n) = n).
Proof.
  intros Hn.
  assert (Htr : truncateToMantissa n
                = n - n mod 256 ^ Z.max 0 (storedExponent n - 3)).
  { unfold truncateToMantissa.
    set (k := Z.max 0 (storedExponent n - 3)).
    assert (0 < 256 ^ k) by (apply Z.pow_pos_nonneg; lia).
    pose proof (Z.div_mod n (256 ^ k)). lia. }
  split; [apply roundtrip_truncate; exact Hn|].
  split; [exact Htr|].
  split; [apply mantissa_fits; exact Hn|].
  intros Hz. rewrite roundtrip_truncate by exact Hn. rewrite Htr, Hz. lia.
Qed.

Lemma compact_roundtrip_truncates_witness :
  CompactToBig (BigToCompact 0x800080) = 0x800000
  /\ CompactToBig (BigToCompact 0x1234567890) = 0x1234560000.
Proof.
  split.
  - destruct (compact_roundtrip_truncates 0x800080 ltac:(lia)) as [E _].
    rewrite E. vm_compute. reflexivity.
  - destruct (compact_roundtrip_truncates 0x1234567890 ltac:(lia)) as [E _].
    rewrite E. vm_compute. reflexivity.
Defined.

End CompactFacts.

(** ** The block subsidy *)

Module SubsidyFacts.
Section Facts.
  Context `{Encoding}.
  Import Validate.

Lemma double_le_pow2 k : 1 <= k -> 2 * k <= 2 ^ k.
Proof.
  intros Hk. replace k with (Z.succ (k - 1)) at 2 by lia.
  rewrite Z.pow_succ_r by lia.
  pose proof (Z.pow_gt_lin_r 2 (k - 1) ltac:(lia)). lia.
Qed.

(** What [CalcBlockSubsidy] computes once [halvings] is at least one and
    the constant [baseSubsidy] fits the [int64] it is returned in. *)
Lemma CalcBlockSubsidy_halvings (params : Params) (h : Z) :
  0 < baseSubsidy < 2 ^ 63 ->
  is_int32 h ->
  0 < SubsidyReductionInterval params ->
  1 <= h / SubsidyReductionInterval params ->
  CalcBlockSubsidy h params
  = if baseSubsidy / (h / SubsidyReductionInterval params) =? 0 then 1
    else baseSubsidy / (h / SubsidyReductionInterval params).
Proof.
  intros Hb Hh Hi Hq. unfold CalcBlockSubsidy.
  set (I := SubsidyReductionInterval params) in *.
  destruct (Z.eqb_spec I 0) as [|_]; [lia|].
  assert (Hh0 : 0 <= h).
  { destruct (Z.lt_ge_cases h 0) as [Hneg|]; [|assumption].
    pose proof (Z.div_lt_upper_bound h I 0 Hi ltac:(lia)). lia. }
  rewrite Z.quot_div_nonneg by lia.
  assert (Hqh : h / I <= h) by (apply Z.div_le_upper_bound; nia).
  unfold is_int32 in Hh.
  rewrite int32_small by (unfold is_int32; lia).
  unfold uint. rewrite !wrapU_small by lia.
  destruct (Z.eqb_spec (h / I) 0) as [|_]; [lia|].
  assert (Hd : 0 <= baseSubsidy / (h / I) <= baseSubsidy).
  { split; [apply Z.div_pos; lia | apply Z.div_le_upper_bound; nia]. }
  rewrite int64_small by (unfold is_int64; lia). reflexivity.
Qed.

(** C3.  With a positive reduction interval and [halvings = h / I >= 1],
    [CalcBlockSubsidy] is [baseSubsidy] divided by [halvings] with
    integer division, raised to 1 when that quotient is 0; it is never
    below 1 and it is never the shift [baseSubsidy >> halvings]. *)
Theorem CalcBlockSubsidy_integer_division (params : Params) (h : Z) :
  0 < baseSubsidy < 2 ^ 63 ->
  is_int32 h ->
  0 < SubsidyReductionInterval params ->
  1 <= h / SubsidyReductionInterval params ->
  CalcBlockSubsidy h params
    = Z.max 1 (baseSubsidy / (h / SubsidyReductionInterval params))
  /\ (baseSubsidy / (h / SubsidyReductionInterval params) = 0 ->
      CalcBlockSubsidy h params = 1)
  /\ 1 <= CalcBlockSubsidy h params
  /\ CalcBlockSubsidy h params
     <> Z.shiftr baseSubsidy (h / SubsidyReductionInterval params).
Proof.
  intros Hb Hh Hi Hq.
  rewrite (CalcBlockSubsidy_halvings params h Hb Hh Hi Hq).
  set (k := h / SubsidyReductionInterval params) in *.
  assert (Hd : 0 <= baseSubsidy / k) by (apply Z.div_pos; lia).
  assert (Hshift : Z.shiftr baseSubsidy k <= baseSubsidy / k / 2).
  { rewrite Z.shiftr_div_pow2 by lia.
    rewrite Z.div_div by lia.
    apply Z.div_le_compat_l; [lia|].
    pose proof (double_le_pow2 k Hq). lia. }
  assert (Hhalf : baseSubsidy / k / 2 <= baseSubsidy / k)
    by (apply Z.div_le_upper_bound; lia).
  destruct (Z.eqb_spec (baseSubsidy / k) 0) as [E|NE].
  - rewrite E in *. change (0 / 2) with 0 in Hshift. repeat split; lia.
  - assert (baseSubsidy / k / 2 < baseSubsidy / k)
      by (apply Z.div_lt_upper_bound; lia).
    repeat split; lia.
Qed.

End Facts.

Lemma CalcBlockSubsidy_integer_division_witness :
  @Validate.CalcBlockSubsidy Fixtures.plainEncoding 3500 Fixtures.testParams
  = 33333333333.
Proof.
  destruct (@CalcBlockSubsidy_integer_division Fixtures.plainEncoding
              Fixtures.testParams 3500
              ltac:(by_evaluation) ltac:(by_evaluation)
              ltac:(by_evaluation) ltac:(by_evaluation)) as [E _].
  rewrite E. vm_compute. reflexivity.
Defined.

(** At three halvings the shift of the upstream documentation would
    give an eighth of the base subsidy; the code gives a third. *)
Example CalcBlockSubsidy_not_shift :
  @Validate.CalcBlockSubsidy Fixtures.plainEncoding 3500 Fixtures.testParams
  <> Z.shiftr (@Validate.baseSubsidy Fixtures.plainEncoding) 3.
Proof. vm_compute. discriminate. Qed.

End SubsidyFacts.

(** ** The next required difficulty *)

Module DifficultyFacts.
Section Facts.
  Context `{Chain}.
  Import Difficulty Compact.

Lemma Div_positive x y : 0 < y -> Big.Div x y = Ok (x / y).
Proof.
  intros Hy. unfold Big.Div.
  destruct (Z.eqb_spec y 0) as [|_]; [lia|].
  rewrite Z.sgn_pos, Z.abs_eq by lia. f_equal. lia.
Qed.

Lemma parentDifficulty_specDiff P :
  (nodeHeight P <> 0 -> is_Some (nodeParent P)) ->
  parentDifficulty P = Ok (specDiff P).
Proof.
  intros Hp. unfold parentDifficulty, specDiff, RelativeAncestor1.
  destruct (Z.eqb_spec (nodeHeight P) 0) as [E|NE]; simpl; [reflexivity|].
  destruct (Hp NE) as [Q ->]. reflexivity.
Qed.

Lemma clamp_is_max x : (if x <? bigMinus99 then bigMinus99 else x) = Z.max x (-99).
Proof. unfold bigMinus99. destruct (Z.ltb_spec x (-99)); lia. Qed.

Lemma clip_is_min limit target :
  (if limit <? target then limit else target) = Z.min limit target.
Proof. destruct (Z.ltb_spec limit target); lia. Qed.

(** How the call ends for any parent with difficulty adjustment on: it
    panics on a missing ancestor or a zero new difficulty, and returns
    the clipped Euclidean quotient otherwise. *)
Lemma calcNextRequiredDifficulty_unfolded (P : blockNode) (t : Z) :
  NoDifficultyAdjustment chainParams = false ->
  (nodeHeight P <> 0 -> is_Some (nodeParent P)) ->
  calcNextRequiredDifficulty (Some P) t
  = newTarget <- Big.Div (2 ^ 256 - specNewD (specDiff P) (specX t (nodeTimestamp P)))
                         (specNewD (specDiff P) (specX t (nodeTimestamp P))) ;;
    Ok (BigToCompact (Z.min (PowLimit chainParams) newTarget)).
Proof.
  intros Hadj Hp. unfold calcNextRequiredDifficulty. rewrite Hadj.
  unfold big30, DifficultyBoundDivisor.
  rewrite Div_positive by lia. cbn [Go.bind].
  rewrite clamp_is_max, (parentDifficulty_specDiff P Hp). cbn [Go.bind].
  rewrite Div_positive by lia. cbn [Go.bind].
  unfold specNewD, specX.
  destruct (Big.Div _ _); cbn [Go.bind]; try reflexivity.
  rewrite clip_is_min. reflexivity.
Qed.

(** A new difficulty of zero is a division by zero in [math/big]. *)
Lemma calcNextRequiredDifficulty_zero_panics (P : blockNode) (t : Z) :
  NoDifficultyAdjustment chainParams = false ->
  (nodeHeight P <> 0 -> is_Some (nodeParent P)) ->
  specNewD (specDiff P) (specX t (nodeTimestamp P)) = 0 ->
  calcNextRequiredDifficulty (Some P) t = Panic "division by zero".
Proof.
  intros Hadj Hp Hz.
  rewrite (calcNextRequiredDifficulty_unfolded P t Hadj Hp), Hz. reflexivity.
Qed.

(** C4.  For a parent node [P] on a chain that adjusts difficulty and a
    new block time [t], with [x = max (1 - (t - P.timestamp) / 30) (-99)],
    [diff] the work [P] added and [newD = diff + diff * x / 128]
    positive, [calcNextRequiredDifficulty] returns [BigToCompact] of
    [min pow_limit ((2^256 - newD) / newD)]; and when
    [t - P.timestamp = 30], [newD] is [diff]. *)
Theorem calcNextRequiredDifficulty_formula (P : blockNode) (t : Z) :
  NoDifficultyAdjustment chainParams = false ->
  (nodeHeight P <> 0 -> is_Some (nodeParent P)) ->
  0 < specNewD (specDiff P) (specX t (nodeTimestamp P)) ->
  calcNextRequiredDifficulty (Some P) t
    = Ok (BigToCompact
            (Z.min (PowLimit chainParams)
                   (specNewT (specNewD (specDiff P) (specX t (nodeTimestamp P))))))
  /\ (t - nodeTimestamp P = 30 ->
      specNewD (specDiff P) (specX t (nodeTimestamp P)) = specDiff P).
Proof.
  intros Hadj Hp Hpos. split.
  - rewrite (calcNextRequiredDifficulty_unfolded P t Hadj Hp).
    rewrite Div_positive by exact Hpos. reflexivity.
  - intros H30. unfold specNewD, specX. rewrite H30.
    change (30 / 30) with 1. change (Z.max (1 - 1) (-99)) with 0.
    rewrite Z.mul_0_r. change (0 / 128) with 0. lia.
Qed.

End Facts.

Lemma calcNextRequiredDifficulty_formula_witness :
  @Difficulty.calcNextRequiredDifficulty (Fixtures.testChain false)
     (Some Fixtures.steadyParent) 1030
  = Ok (Compact.BigToCompact (Z.min (2 ^ 224 - 1) ((2 ^ 256 - 1000000) / 1000000)))
  /\ Difficulty.specNewD (Difficulty.specDiff Fixtures.steadyParent)
       (Difficulty.specX 1030 1000) = 1000000.
Proof.
  destruct (@calcNextRequiredDifficulty_formula (Fixtures.testChain false)
              Fixtures.steadyParent 1030 eq_refl
              (fun _ => ex_intro _ _ eq_refl) ltac:(by_evaluation)) as [E D].
  split.
  - rewrite E. vm_compute. reflexivity.
  - exact (D ltac:(by_evaluation)).
Defined.

(** With one unit of parent work and a block a minute late the new
    difficulty is zero and the call does not return. *)
Example calcNextRequiredDifficulty_panics :
  @Difficulty.calcNextRequiredDifficulty (Fixtures.testChain false)
     (Some (mkBlockNode 10 None 1 0 0x1d00ffff 1000)) 1060
  = Panic "division by zero".
Proof. vm_compute. reflexivity. Qed.

End DifficultyFacts.

(** ** Context-free transaction checks *)

Module SanityFacts.
Section Facts.
  Context `{TxScript} `{Encoding}.
  Import Validate.

Lemma checkDuplicateInputs_unique (ins : list TxIn) (seen : gset OutPoint) :
  NoDup (map PreviousOutPoint ins) ->
  (forall o, In o (map PreviousOutPoint ins) -> o ∉ seen) ->
  checkDuplicateInputs ins seen = Ok tt.
Proof.
  revert seen. induction ins as [|txIn rest IH]; intros seen Hnd Hfresh; simpl.
  - reflexivity.
  - simpl in Hnd. apply NoDup_cons in Hnd as [Hnotin Hnd].
    destruct (decide (PreviousOutPoint txIn ∈ seen)) as [Hin|_].
    + exfalso. apply (Hfresh (PreviousOutPoint txIn)); [left; reflexivity | exact Hin].
    + apply IH; [exact Hnd|].
      intros o Ho. rewrite elem_of_union, elem_of_singleton.
      intros [-> | Hseen].
      * apply Hnotin. apply list_elem_of_In. exact Ho.
      * apply (Hfresh o); [right; exact Ho | exact Hseen].
Qed.

Lemma checkDuplicateInputs_repeated (ins : list TxIn) (seen : gset OutPoint) :
  ~ (NoDup (map PreviousOutPoint ins)
     /\ forall o, In o (map PreviousOutPoint ins) -> o ∉ seen) ->
  checkDuplicateInputs ins seen = Err (ruleError ErrDuplicateTxInputs).
Proof.
  revert seen. induction ins as [|txIn rest IH]; intros seen Hbad; simpl.
  - exfalso. apply Hbad. split; [constructor | intros o []].
  - destruct (decide (PreviousOutPoint txIn ∈ seen)) as [Hin|Hout]; [reflexivity|].
    apply IH. intros [Hnd Hfresh]. apply Hbad. split.
    + simpl. apply NoDup_cons. split; [|exact Hnd].
      intros Hmem. apply list_elem_of_In in Hmem.
      apply (Hfresh _ Hmem). apply elem_of_union_l, elem_of_singleton. reflexivity.
    + intros o [<- | Ho]; [exact Hout|].
      intros Hseen. apply (Hfresh o Ho). apply elem_of_union_r. exact Hseen.
Qed.

Lemma hasDuplicateInputs_not_NoDup (tx : MsgTx) :
  hasDuplicateInputs tx -> ~ NoDup (map PreviousOutPoint (TxIns tx)).
Proof.
  intros (i & j & a & b & Hne & Hi & Hj & Heq) Hnd.
  apply Hne. eapply NoDup_lookup; [exact Hnd| |].
  - rewrite list_lookup_fmap, Hi. reflexivity.
  - change (map PreviousOutPoint (TxIns tx)) with (PreviousOutPoint <$> TxIns tx).
    rewrite list_lookup_fmap, Hj. simpl. rewrite Heq. reflexivity.
Qed.

Lemma checkOutputValues_outcome (outs : list TxOut) (total : Z) :
  checkOutputValues outs total = Ok tt
  \/ checkOutputValues outs total = Err (ruleError ErrBadTxOutValue).
Proof.
  revert total. induction outs as [|o rest IH]; intros total; simpl.
  - left; reflexivity.
  - repeat match goal with |- context [if ?c then _ else _] => destruct c end;
      auto.
Qed.

(** C8, as the code has it.  A transaction with two inputs spending the
    same outpoint is always rejected; the error is [ErrDuplicateTxInputs]
    when the checks that run before the duplicate scan pass (an output,
    the serialized size, the sigop count, the output values), and the
    error of the first of those checks that fails otherwise:
    [ErrNoTxOutputs], then [ErrTxTooBig], then [ErrTxTooSmall], then
    [ErrTxTooManySigOps], then [ErrBadTxOutValue]. *)
Theorem CheckTransactionSanity_duplicate_inputs (tx : MsgTx)
    (magneticAnomalyActive : bool) (scriptFlags : Z) :
  hasDuplicateInputs tx ->
  (passesEarlierChecks tx magneticAnomalyActive scriptFlags ->
   CheckTransactionSanity tx magneticAnomalyActive scriptFlags
   = Err (ruleError ErrDuplicateTxInputs))
  /\ (TxOuts tx = nil ->
      CheckTransactionSanity tx magneticAnomalyActive scriptFlags
      = Err (ruleError ErrNoTxOutputs))
  /\ (TxOuts tx <> nil ->
      MaxTransactionSize < SerializeSize tx ->
      CheckTransactionSanity tx magneticAnomalyActive scriptFlags
      = Err (ruleError ErrTxTooBig))
  /\ (TxOuts tx <> nil ->
      SerializeSize tx <= MaxTransactionSize ->
      magneticAnomalyActive = true ->
      SerializeSize tx < MinTransactionSize ->
      CheckTransactionSanity tx magneticAnomalyActive scriptFlags
      = Err (ruleError ErrTxTooSmall))
  /\ (TxOuts tx <> nil ->
      SerializeSize tx <= MaxTransactionSize ->
      (magneticAnomalyActive = true -> MinTransactionSize <= SerializeSize tx) ->
      MaxTransactionSigOps < CountSigOps tx scriptFlags ->
      CheckTransactionSanity tx magneticAnomalyActive scriptFlags
      = Err (ruleError ErrTxTooManySigOps))
  /\ (TxOuts tx <> nil ->
      SerializeSize tx <= MaxTransactionSize ->
      (magneticAnomalyActive = true -> MinTransactionSize <= SerializeSize tx) ->
      CountSigOps tx scriptFlags <= MaxTransactionSigOps ->
      checkOutputValues (TxOuts tx) 0 <> Ok tt ->
      CheckTransactionSanity tx magneticAnomalyActive scriptFlags
      = Err (ruleError ErrBadTxOutValue)).
Proof.
  intros Hdup.
  pose proof (hasDuplicateInputs_not_NoDup tx Hdup) as Hnd.
  assert (Hscan : checkDuplicateInputs (TxIns tx) ∅
                  = Err (ruleError ErrDuplicateTxInputs)).
  { apply checkDuplicateInputs_repeated. intros [Hn _]. exact (Hnd Hn). }
  assert (Hins : (len (TxIns tx) =? 0) = false).
  { destruct Hdup as (i & j & a & b & _ & Hi & _).
    unfold len. destruct (TxIns tx); [discriminate Hi | reflexivity]. }
  assert (Hsome : TxOuts tx <> nil -> (len (TxOuts tx) =? 0) = false).
  { intros Houts. unfold len. destruct (TxOuts tx); [contradiction | reflexivity]. }
  assert (Hfit : (magneticAnomalyActive = true ->
                  MinTransactionSize <= SerializeSize tx) ->
                 magneticAnomalyActive && (SerializeSize tx <? MinTransactionSize)
                 = false).
  { intros Hsmall. destruct magneticAnomalyActive; [|reflexivity]. simpl.
    apply Z.ltb_ge. exact (Hsmall eq_refl). }
  unfold CheckTransactionSanity. rewrite Hins, Hscan.
  split; [|split; [|split; [|split; [|split]]]].
  - intros (Houts & Hbig & Hsmall & Hsig & Hvals).
    rewrite (Hsome Houts).
    destruct (Z.ltb_spec MaxTransactionSize (SerializeSize tx)); [lia|].
    rewrite (Hfit Hsmall).
    destruct (Z.ltb_spec MaxTransactionSigOps (CountSigOps tx scriptFlags)); [lia|].
    rewrite Hvals. reflexivity.
  - intros ->. reflexivity.
  - intros Houts Hbig. rewrite (Hsome Houts).
    destruct (Z.ltb_spec MaxTransactionSize (SerializeSize tx)); [reflexivity | lia].
  - intros Houts Hbig -> Hsmall. rewrite (Hsome Houts).
    destruct (Z.ltb_spec MaxTransactionSize (SerializeSize tx)); [lia|].
    destruct (Z.ltb_spec (SerializeSize tx) MinTransactionSize); [reflexivity | lia].
  - intros Houts Hbig Hsmall Hsig. rewrite (Hsome Houts).
    destruct (Z.ltb_spec MaxTransactionSize (SerializeSize tx)); [lia|].
    rewrite (Hfit Hsmall).
    destruct (Z.ltb_spec MaxTransactionSigOps (CountSigOps tx scriptFlags));
      [reflexivity | lia].
  - intros Houts Hbig Hsmall Hsig Hvals. rewrite (Hsome Houts).
    destruct (Z.ltb_spec MaxTransactionSize (SerializeSize tx)); [lia|].
    rewrite (Hfit Hsmall).
    destruct (Z.ltb_spec MaxTransactionSigOps (CountSigOps tx scriptFlags)); [lia|].
    destruct (checkOutputValues_outcome (TxOuts tx) 0) as [E | ->];
      [contradiction | reflexivity].
Qed.

End Facts.

Lemma twiceSpent_duplicate (outs : list TxOut) :
  Validate.hasDuplicateInputs (mkMsgTx 1 Fixtures.twiceSpent outs 0).
Proof.
  exists 0%nat, 1%nat, (mkTxIn (mkOutPoint 9 0) nil 0), (mkTxIn (mkOutPoint 9 0) nil 0).
  repeat split; try reflexivity. discriminate.
Qed.

Lemma CheckTransactionSanity_duplicate_inputs_witness :
  @Validate.CheckTransactionSanity Fixtures.quietScript Fixtures.plainEncoding
     Fixtures.dupTxPlain true 0
  = Err (ruleError ErrDuplicateTxInputs).
Proof.
  apply (@CheckTransactionSanity_duplicate_inputs Fixtures.quietScript
           Fixtures.plainEncoding Fixtures.dupTxPlain true 0
           (twiceSpent_duplicate _)).
  unfold Validate.passesEarlierChecks. by_evaluation.
Defined.

(** The claim as the specification words it fails: with two inputs on
    one outpoint, a transaction without outputs is rejected with
    [ErrNoTxOutputs], one with a negative output with [ErrBadTxOutValue]. *)
Lemma CheckTransactionSanity_duplicate_inputs_counterexample :
  Validate.hasDuplicateInputs Fixtures.dupTxNoOutputs
  /\ @Validate.CheckTransactionSanity Fixtures.quietScript Fixtures.plainEncoding
       Fixtures.dupTxNoOutputs false 0
     = Err (ruleError ErrNoTxOutputs)
  /\ Validate.hasDuplicateInputs Fixtures.dupTxNegativeOutput
  /\ @Validate.CheckTransactionSanity Fixtures.quietScript Fixtures.plainEncoding
       Fixtures.dupTxNegativeOutput false 0
     = Err (ruleError ErrBadTxOutValue).
Proof.
  split; [apply twiceSpent_duplicate|].
  split; [vm_compute; reflexivity|].
  split; [apply twiceSpent_duplicate|].
  vm_compute; reflexivity.
Qed.

End SanityFacts.

(** ** Signature-operation counting *)

Module SigopsFacts.
Section Facts.
Context `{TxScript} `{Encoding} `{CrossPkg} `{Chain}.
Import Validate Sigops Subsidy.

Lemma HasFlag_self (flag : Z) : HasFlag (Z.lor 0 flag) flag = true.
Proof. unfold HasFlag. rewrite Z.lor_0_l, Z.land_diag. apply Z.eqb_refl. Qed.

Lemma HasFlag_lor (flags more flag : Z) :
  HasFlag flags flag = true -> HasFlag (Z.lor flags more) flag = true.
Proof.
  unfold HasFlag. rewrite !Z.eqb_eq. intros Hf.
  apply Z.bits_inj'. intros i Hi.
  rewrite Z.land_spec, Z.lor_spec.
  assert (Hb : Z.testbit flag i = Z.testbit flags i && Z.testbit flag i)
    by (rewrite <- Z.land_spec, Hf; reflexivity).
  destruct (Z.testbit flags i), (Z.testbit more i), (Z.testbit flag i);
    simpl in *; congruence.
Qed.

Lemma connectScriptFlags_Bip16 : HasFlag connectScriptFlags ScriptBip16 = true.
Proof.
  unfold connectScriptFlags. cbv zeta.
  do 6 apply HasFlag_lor. apply HasFlag_self.
Qed.

Lemma countP2SHInputs_no_panic ins view flags total :
  (exists n, countP2SHInputs ins view flags total = Ok n)
  \/ (exists e, countP2SHInputs ins view flags total = Err e).
Proof.
  revert total. induction ins as [|txIn rest IH]; intros total; simpl.
  - left; eexists; reflexivity.
  - destruct (view !! PreviousOutPoint txIn) as [utxo|]; [|right; eexists; reflexivity].
    destruct (utxoIsSpent utxo); [right; eexists; reflexivity|].
    destruct (negb (IsPayToScriptHash (utxoPkScript utxo))); [apply IH|].
    destruct (_ <? total); [right; eexists; reflexivity | apply IH].
Qed.

Lemma CountP2SHSigOps_no_panic tx cb view flags :
  (exists n, CountP2SHSigOps tx cb view flags = Ok n)
  \/ (exists e, CountP2SHSigOps tx cb view flags = Err e).
Proof.
  unfold CountP2SHSigOps. destruct cb; [left; eexists; reflexivity|].
  apply countP2SHInputs_no_panic.
Qed.

Lemma GetSigOps_returns tx cb view flags :
  exists n, GetSigOps tx cb view flags = Ok n.
Proof.
  unfold GetSigOps. destruct (HasFlag flags ScriptBip16); [|eexists; reflexivity].
  destruct (CountP2SHSigOps_no_panic tx cb view flags) as [[n ->] | [e ->]];
    eexists; reflexivity.
Qed.

Lemma sigOpsLoop_outcome txs i view flags maxSigOps total :
  sigOpsLoop txs i view flags maxSigOps total = Ok tt
  \/ sigOpsLoop txs i view flags maxSigOps total = Err (ruleError ErrTooManySigOps).
Proof.
  revert i total. induction txs as [|tx rest IH]; intros i total; simpl.
  - left; reflexivity.
  - destruct (GetSigOps_returns tx (i =? 0) view flags) as [n ->]. cbn [Go.bind].
    destruct (_ || _); [right; reflexivity | apply IH].
Qed.

(** C10, as the code has it.  [GetSigOps] never returns an error.  Under
    a flag set with [ScriptBip16] a failure of [CountP2SHSigOps] makes
    it return [(0, nil)]; under a flag set without it the P2SH count is
    not consulted and the fast count is returned.  [checkConnectBlock]
    sets [ScriptBip16], and its sigop loop ends in success or in
    [ErrTooManySigOps], never in an error of the P2SH count. *)
Theorem GetSigOps_swallows_P2SH_failure (tx : MsgTx) (isCoinBaseTx : bool)
    (utxoView : UtxoViewpoint) (scriptFlags : Z) :
  (exists n, GetSigOps tx isCoinBaseTx utxoView scriptFlags = Ok n)
  /\ (HasFlag scriptFlags ScriptBip16 = true ->
      forall e, CountP2SHSigOps tx isCoinBaseTx utxoView scriptFlags = Err e ->
                GetSigOps tx isCoinBaseTx utxoView scriptFlags = Ok 0)
  /\ (HasFlag scriptFlags ScriptBip16 = false ->
      GetSigOps tx isCoinBaseTx utxoView scriptFlags
      = Ok (CountSigOps tx scriptFlags))
  /\ (forall e, CountP2SHSigOps tx isCoinBaseTx utxoView connectScriptFlags = Err e ->
                GetSigOps tx isCoinBaseTx utxoView connectScriptFlags = Ok 0)
  /\ (forall txs i maxSigOps total,
        sigOpsLoop txs i utxoView connectScriptFlags maxSigOps total = Ok tt
        \/ sigOpsLoop txs i utxoView connectScriptFlags maxSigOps total
           = Err (ruleError ErrTooManySigOps)).
Proof.
  split; [apply GetSigOps_returns|].
  split; [intros Hf e He; unfold GetSigOps; rewrite Hf, He; reflexivity|].
  split; [intros Hf; unfold GetSigOps; rewrite Hf; reflexivity|].
  split.
  - intros e He. unfold GetSigOps. rewrite connectScriptFlags_Bip16, He. reflexivity.
  - intros. apply sigOpsLoop_outcome.
Qed.

End Facts.

Lemma GetSigOps_swallows_P2SH_failure_witness :
  @Sigops.GetSigOps Fixtures.countingScript Fixtures.orphanTx false ∅ 1 = Ok 0.
Proof.
  destruct (@GetSigOps_swallows_P2SH_failure Fixtures.countingScript
              Fixtures.orphanTx false ∅ 1) as (_ & Hswallow & _).
  apply (Hswallow eq_refl (ruleError ErrMissingTxOut)).
  vm_compute. reflexivity.
Defined.

(** The claim as worded, over every flag set, fails: without
    [ScriptBip16] the P2SH count of the same transaction still fails,
    and [GetSigOps] returns the fast count, here 1. *)
Lemma GetSigOps_swallows_P2SH_failure_counterexample :
  @Sigops.CountP2SHSigOps Fixtures.countingScript Fixtures.orphanTx false ∅ 0
  = Err (ruleError ErrMissingTxOut)
  /\ @Sigops.GetSigOps Fixtures.countingScript Fixtures.orphanTx false ∅ 0 = Ok 1
  /\ @Sigops.GetSigOps Fixtures.countingScript Fixtures.orphanTx false ∅ 0 <> Ok 0.
Proof.
  split; [vm_compute; reflexivity|].
  split; [vm_compute; reflexivity|].
  vm_compute. discriminate.
Qed.

End SigopsFacts.

(** ** Connecting a block *)

Module ConnectFacts.
Section Facts.
Context `{TxScript} `{Encoding} `{CrossPkg} `{Chain}.
Import Validate Sigops Connect Subsidy.

(** C1.  When the checks before it pass and [connectTransactions]
    fails, [checkConnectBlock] ends right there with a nil error: the
    caller sees success, whatever the coinbase-value, subsidy and
    script checks would have said. *)
Theorem checkConnectBlock_connect_failure_is_nil
    (node : blockNode) (block : Block) (view view1 view2 : UtxoViewpoint)
    (stxos stxos2 : list SpentTxOut) (totalFees : Z) (e : error) :
  (nodeHash node =? GenesisHash chainParams) = false ->
  addInputUtxos view block = (view1, None) ->
  beforeConnect node block view1 = Ok totalFees ->
  connectTransactions view1 block stxos false = (view2, stxos2, Some e) ->
  checkConnectBlock node block view stxos = (view2, stxos2, Ok tt).
Proof.
  intros Hgen Hload Hbefore Hconnect.
  unfold checkConnectBlock. rewrite Hgen, Hload, Hbefore, Hconnect. reflexivity.
Qed.

Lemma index_head {A} (a : A) (l : list A) : Go.index (a :: l) 0 = Ok a.
Proof.
  unfold Go.index.
  replace ((0 <? 0) || (len (a :: l) <=? 0)) with false.
  - reflexivity.
  - symmetry. apply orb_false_iff. split; [reflexivity|].
    apply Z.leb_gt. unfold len. simpl length. lia.
Qed.

Lemma quiet_bind {A B} (m : outcome A) (k : A -> outcome B) :
  quiet m -> (forall a, quiet (k a)) -> quiet (Go.bind m k).
Proof.
  unfold quiet. intros Hm Hk. destruct m as [a|e|s]; simpl.
  - apply Hk.
  - intros E. apply Hm. inversion E. reflexivity.
  - discriminate.
Qed.

Lemma quiet_index {A} (s : list A) (i : Z) : quiet (Go.index s i).
Proof.
  unfold quiet, Go.index. destruct (_ || _); [discriminate|].
  destruct (nth_error s (Z.to_nat i)); discriminate.
Qed.

Lemma quiet_summayInputs ins view totalIn : quiet (summayInputs ins view totalIn).
Proof.
  revert totalIn. induction ins as [|txIn rest IH]; intros totalIn; simpl.
  - discriminate.
  - destruct (view !! PreviousOutPoint txIn); [apply IH | discriminate].
Qed.

Lemma quiet_summayTxs txs view inBlock keepInfo ea totalIn totalOut :
  quiet (summayTxs txs view inBlock keepInfo ea totalIn totalOut).
Proof.
  revert inBlock keepInfo ea totalIn totalOut.
  induction txs as [|tx rest IH]; intros; simpl.
  - discriminate.
  - destruct (match IsEntangleTx tx with Some _ => _ | None => _ end) as [[ib ki] ea'].
    apply quiet_bind; [apply quiet_summayInputs | intros; apply IH].
Qed.

Lemma quiet_summayOfTxsAndCheck preblock block view subsidy p1 p2 :
  (forall s, quiet (KeepedAmountParse s)) ->
  quiet (summayOfTxsAndCheck preblock block view subsidy p1 p2).
Proof.
  intros Hparse. unfold summayOfTxsAndCheck.
  apply quiet_bind.
  { unfold getKeepedAmountFormPreBlock.
    destruct (blockTx0 preblock); try discriminate.
    destruct (4 <=? _); [|discriminate].
    apply quiet_bind; [apply quiet_index | intros; apply Hparse]. }
  intros keepInfo. apply quiet_bind.
  { unfold getPoolAmountFromPreBlock. apply quiet_bind.
    - unfold blockTx0.
      destruct (Transactions preblock); [destruct (Tx0OfEmptyBlock _)|];
        discriminate.
    - intros cb. apply quiet_bind; [apply quiet_index|].
      intros o1. apply quiet_bind; [apply quiet_index|]. discriminate. }
  intros [last1 last2].
  destruct (match Transactions block with nil => _ | _ :: _ => _ end)
    as [[[[amount1 p1'] p2'] totalOut] rest].
  apply quiet_bind; [apply quiet_summayTxs|].
  intros [[[ib ea] tin] tout]. destruct (negb _); discriminate.
Qed.

Lemma quiet_checkBlockSubsidy block preBlock txHeight view amountSubsidy params :
  (forall s, quiet (KeepedAmountParse s)) ->
  quiet (checkBlockSubsidy block preBlock txHeight view amountSubsidy params).
Proof.
  intros Hparse. unfold checkBlockSubsidy.
  destruct (txHeight <=? EntangleHeight params); [discriminate|].
  cbv zeta. apply quiet_bind; [apply quiet_summayOfTxsAndCheck; exact Hparse|].
  intros summay.
  repeat match goal with |- quiet (if ?c then _ else _) => destruct c end;
    discriminate.
Qed.

Lemma quiet_sequenceLocksLoop txs node view medianTime :
  (forall n tx v, quiet (calcSequenceLock n tx v)) ->
  quiet (sequenceLocksLoop txs node view medianTime).
Proof.
  intros Hlock. induction txs as [|tx rest IH]; simpl.
  - discriminate.
  - apply quiet_bind; [apply Hlock|].
    intros sl. destruct (negb _); [discriminate | exact IH].
Qed.

Lemma quiet_afterCoinbaseValue node block view amountSubsidy :
  collaboratorsQuiet ->
  quiet (afterCoinbaseValue node block view amountSubsidy).
Proof.
  intros (Hparse & Hcsv & Hlock & Hscripts). unfold afterCoinbaseValue. cbv zeta.
  apply quiet_bind.
  { destruct (0 <? _); [|discriminate].
    destruct (blockByHashAndHeight _ _); try discriminate.
    apply quiet_checkBlockSubsidy. exact Hparse. }
  intros _. apply quiet_bind; [apply Hcsv|].
  intros csvState. apply quiet_bind.
  { destruct csvState; try discriminate.
    apply quiet_bind; [apply quiet_sequenceLocksLoop; exact Hlock | discriminate]. }
  intros flags.
  destruct (match LatestCheckpoint with Some _ => _ | None => _ end);
    [apply Hscripts | discriminate].
Qed.

(** C6.  Once the block reaches the coinbase-value check (its inputs
    load, the checks before [connectTransactions] pass with total fees
    [F], and the transactions connect), [checkConnectBlock] ends in
    [ErrBadCoinbaseValue] exactly when output 0 of the coinbase is worth
    more than [S + F], with [S] the subsidy at the block's height and
    the sum taken in [int64]; no other output enters the comparison.
    In particular a value of [S + F + 1] is rejected. *)
Theorem checkConnectBlock_BadCoinbaseValue
    (node : blockNode) (block : Block) (view view1 view2 : UtxoViewpoint)
    (stxos stxos2 : list SpentTxOut) (totalFees : Z) (coinbase : MsgTx) :
  collaboratorsQuiet ->
  (nodeHash node =? GenesisHash chainParams) = false ->
  addInputUtxos view block = (view1, None) ->
  beforeConnect node block view1 = Ok totalFees ->
  connectTransactions view1 block stxos false = (view2, stxos2, None) ->
  head (Transactions block) = Some coinbase ->
  is_int64 (coinbaseOut0 coinbase) ->
  (snd (checkConnectBlock node block view stxos)
     = Err (ruleError ErrBadCoinbaseValue)
   <-> int64 (CalcBlockSubsidy (nodeHeight node) chainParams + totalFees)
       < coinbaseOut0 coinbase)
  /\ (is_int64 (CalcBlockSubsidy (nodeHeight node) chainParams + totalFees) ->
      (snd (checkConnectBlock node block view stxos)
         = Err (ruleError ErrBadCoinbaseValue)
       <-> CalcBlockSubsidy (nodeHeight node) chainParams + totalFees
           < coinbaseOut0 coinbase)
      /\ (coinbaseOut0 coinbase
          = CalcBlockSubsidy (nodeHeight node) chainParams + totalFees + 1 ->
          snd (checkConnectBlock node block view stxos)
          = Err (ruleError ErrBadCoinbaseValue))).
Proof.
  intros Hquiet Hgen Hload Hbefore Hconnect Hcb Hout.
  set (S := CalcBlockSubsidy (nodeHeight node) chainParams).
  assert (Hcheck :
    snd (checkConnectBlock node block view stxos)
    = if int64 (S + totalFees) <? coinbaseOut0 coinbase
      then Err (ruleError ErrBadCoinbaseValue)
      else afterCoinbaseValue node block view2 S).
  { unfold checkConnectBlock. rewrite Hgen, Hload, Hbefore, Hconnect. simpl snd.
    unfold coinbaseValueCheck.
    destruct (Transactions block) as [|cb rest]; [discriminate Hcb|].
    simpl in Hcb. injection Hcb as ->.
    rewrite index_head. cbn [Go.bind]. fold S.
    unfold coinbaseOut0 in *.
    destruct (TxOuts coinbase) as [|o os].
    - destruct (_ <? 0); reflexivity.
    - rewrite Z.add_0_l, (int64_small (Value o) Hout).
      destruct (_ <? Value o); reflexivity. }
  assert (Hiff : snd (checkConnectBlock node block view stxos)
                 = Err (ruleError ErrBadCoinbaseValue)
                 <-> int64 (S + totalFees) < coinbaseOut0 coinbase).
  { rewrite Hcheck.
    destruct (Z.ltb_spec (int64 (S + totalFees)) (coinbaseOut0 coinbase)) as [Hlt|Hge].
    - split; [intros _; exact Hlt | reflexivity].
    - split; [|lia]. intros E.
      exfalso. exact (quiet_afterCoinbaseValue node block view2 S Hquiet E). }
  split; [exact Hiff|].
  intros Hfit. rewrite (int64_small (S + totalFees) Hfit) in Hiff.
  split; [exact Hiff|].
  intros E. apply Hiff. lia.
Qed.

End Facts.

Import Fixtures.

Lemma checkConnectBlock_connect_failure_is_nil_witness :
  @Subsidy.checkConnectBlock quietScript plainEncoding noEntangle (testChain true)
     tipNode overpayingBlock ∅ nil
  = (∅, nil, Ok tt).
Proof.
  apply (@checkConnectBlock_connect_failure_is_nil quietScript plainEncoding
           noEntangle (testChain true) tipNode overpayingBlock ∅ ∅ ∅ nil nil 0
           (ruleError ErrMissingTxOut)).
  - reflexivity.
  - reflexivity.
  - vm_compute. reflexivity.
  - reflexivity.
Defined.

Lemma fixtures_quiet (connectFails : bool) :
  @Subsidy.collaboratorsQuiet noEntangle (testChain connectFails).
Proof. repeat split; intros; discriminate. Qed.

Lemma checkConnectBlock_BadCoinbaseValue_witness :
  snd (@Subsidy.checkConnectBlock quietScript plainEncoding noEntangle
         (testChain false) tipNode overpayingBlock ∅ nil)
  = Err (ruleError ErrBadCoinbaseValue).
Proof.
  destruct (@checkConnectBlock_BadCoinbaseValue quietScript plainEncoding
              noEntangle (testChain false) tipNode overpayingBlock ∅ ∅ ∅ nil nil 0
              (mkMsgTx 1 (coinbaseIn :: nil) (mkTxOut 100000000001 nil :: nil) 0)
              (fixtures_quiet false) eq_refl eq_refl
              ltac:(vm_compute; reflexivity) eq_refl eq_refl
              ltac:(by_evaluation)) as (_ & Hplain).
  destruct (Hplain ltac:(by_evaluation)) as (_ & Hover).
  apply Hover. vm_compute. reflexivity.
Defined.

(** A coinbase that pays the subsidy on output 0 passes however much
    its other outputs carry. *)
Example checkConnectBlock_only_output_0 :
  snd (@Subsidy.checkConnectBlock quietScript plainEncoding noEntangle
         (testChain false) tipNode poolHeavyBlock ∅ nil)
  = Ok tt.
Proof. vm_compute. reflexivity. Qed.

End ConnectFacts.

(** ** Entangle transactions in a block *)

Module EntangleFacts.
Section Facts.
Context `{TxScript} `{Encoding} `{CrossPkg} `{Chain}.
Import Validate Connect.

Lemma maxEntangleHeight_ge einfos max : max <= maxEntangleHeight einfos max.
Proof.
  revert max. induction einfos as [|[i ii] rest IH]; intros max; simpl; [lia|].
  destruct (Z.ltb_spec max (int64 (Height ii))); [|apply IH].
  eapply Z.le_trans; [|apply IH]. lia.
Qed.

Lemma checkRepeat_errors fetch tx einfos amount e :
  Cross.checkRepeat fetch tx einfos amount = Err e ->
  e = errorsNew "txid has already entangle:".
Proof.
  revert amount. induction einfos as [|[i v] rest IH]; intros amount; simpl.
  - discriminate.
  - destruct (fetch v); [intros E; inversion E; reflexivity|].
    unfold Go.index. destruct (_ || _); [discriminate|].
    destruct (nth_error _ _); [|discriminate]. simpl. apply IH.
Qed.

Lemma verifyItems_errors ev draws k einfos pairs e :
  Cross.verifyItems ev draws k einfos pairs = Err e ->
  e = errorsNew "txid verify failed:".
Proof.
  revert k pairs. induction einfos as [|[i v] rest IH]; intros k pairs; simpl.
  - discriminate.
  - destruct (Cross.verifyTx _ _ _ _ _ _ _); [apply IH | |discriminate].
    intros E; inversion E; reflexivity.
Qed.

Lemma checkEntangleTx_errors draws tx e :
  checkEntangleTx draws tx = Err e ->
  e <> errorsNew "unordered entangle tx in the block".
Proof.
  unfold checkEntangleTx, Cross.VerifyEntangleTx.
  destruct (IsEntangleTx tx) as [einfos|]; simpl.
  - destruct (Cache entangleVerify) as [fetch|]; simpl.
    + destruct (Cross.checkRepeat fetch tx einfos 0) eqn:Hrep; simpl.
      * destruct (Cross.verifyItems _ _ _ _ _) eqn:Hit; simpl; try discriminate.
        intros E; inversion E; subst.
        rewrite (verifyItems_errors _ _ _ _ _ _ Hit). discriminate.
      * intros E; inversion E; subst.
        rewrite (checkRepeat_errors _ _ _ _ _ Hrep). discriminate.
      * discriminate.
    + destruct (Cross.verifyItems _ _ _ _ _) eqn:Hit; simpl; try discriminate.
      intros E; inversion E; subst.
      rewrite (verifyItems_errors _ _ _ _ _ _ Hit). discriminate.
  - intros E; inversion E. discriminate.
Qed.

(** With [curHeight] left at zero the ordering test of the loop never
    fires: whatever the block, the result is not the ordering error. *)
Lemma checkBlockEntangleLoop_never_unordered draws k txs :
  checkBlockEntangleLoop draws k txs 0
  <> Err (errorsNew "unordered entangle tx in the block").
Proof.
  revert k. induction txs as [|tx rest IH]; intros k; simpl.
  - discriminate.
  - destruct (IsEntangleTx tx) as [einfos|]; [|apply IH].
    pose proof (maxEntangleHeight_ge einfos 0) as Hmax.
    destruct (Z.ltb_spec (maxEntangleHeight einfos 0) 0) as [|_]; [lia|].
    destruct (checkEntangleTx (draws k) tx) as [[]|e|s] eqn:Hchk; simpl.
    + apply IH.
    + intros E; inversion E; subst.
      exact (checkEntangleTx_errors _ _ _ Hchk eq_refl).
    + discriminate.
Qed.

End Facts.

Import Fixtures.

(** C2, what the code does instead.  [CheckBlockEntangle] never returns
    the ordering error, for no block and no collaborators; the block
    with entangle heights 10 and then 5, whose items all verify, is
    accepted. *)
Theorem CheckBlockEntangle_ordering_not_enforced :
  (forall (S : TxScript) (E : Encoding) (C : CrossPkg) (B : Chain)
          (draws : nat -> nat -> Z) (block : Block),
      @Connect.CheckBlockEntangle S E C B draws block
      <> Err (errorsNew "unordered entangle tx in the block"))
  /\ @IsEntangleTx lockTimeEntangle (entangleTx 10)
     = Some ((0, mkEntangleTxInfo 240 0 10 5 nil) :: nil)
  /\ @IsEntangleTx lockTimeEntangle (entangleTx 5)
     = Some ((0, mkEntangleTxInfo 240 0 5 5 nil) :: nil)
  /\ @Connect.CheckBlockEntangle quietScript plainEncoding lockTimeEntangle
       (testChain false) (fun _ _ => 0) descendingBlock
     = Ok tt.
Proof.
  split.
  - intros. unfold Connect.CheckBlockEntangle.
    apply checkBlockEntangleLoop_never_unordered.
  - repeat split; vm_compute; reflexivity.
Qed.

End EntangleFacts.

(** ** Foreign-chain verification of one entangle item *)

Module CrossFacts.
Section Facts.
Context `{TxScript} `{Encoding}.
Import Cross.

Lemma index_past_end {A} (s : list A) (i : Z) :
  len s <= i -> Go.index s i = Panic "index out of range".
Proof.
  intros Hi. unfold Go.index.
  replace ((i <? 0) || (len s <=? i)) with true; [reflexivity|].
  symmetry. apply orb_true_iff. right. apply Z.leb_le. exact Hi.
Qed.

(** The bound test lets [Vout = len(TxOut)] through, and the next line
    indexes the outputs with it. *)
Lemma verifyForeignTx_vout_at_length
    (clients : list Client) (addrID : Z) (poolAddr : string) (maturity : Z)
    (eIndex eAddr ePool ePk eMaturity : string)
    (r : Z) (ExtTxHash : list byte) (Vout Amount height i : Z)
    (client : Client) (tx : MsgTx) :
  Intn r (len clients) = Ok i ->
  Go.index clients i = Ok client ->
  GetRawTransaction client ExtTxHash = Ok tx ->
  Vout = len (TxOuts tx) ->
  is_uint32 Vout ->
  verifyForeignTx clients addrID poolAddr maturity
    eIndex eAddr ePool ePk eMaturity r ExtTxHash Vout Amount height
  = Panic "index out of range".
Proof.
  intros Hr Hc Htx Hv Hu. unfold verifyForeignTx.
  rewrite Hr. cbn [Go.bind]. rewrite Hc. cbn [Go.bind]. rewrite Htx. cbn [Go.bind].
  unfold Go.int. rewrite wrapS_small by (unfold is_uint32 in Hu; lia).
  destruct (Z.ltb_spec (len (TxOuts tx)) Vout) as [|_]; [lia|].
  rewrite index_past_end by lia. reflexivity.
Qed.

(** An index beyond the length is turned away with the index error. *)
Lemma verifyForeignTx_vout_beyond_length
    (clients : list Client) (addrID : Z) (poolAddr : string) (maturity : Z)
    (eIndex eAddr ePool ePk eMaturity : string)
    (r : Z) (ExtTxHash : list byte) (Vout Amount height i : Z)
    (client : Client) (tx : MsgTx) :
  Intn r (len clients) = Ok i ->
  Go.index clients i = Ok client ->
  GetRawTransaction client ExtTxHash = Ok tx ->
  len (TxOuts tx) < Vout ->
  is_uint32 Vout ->
  verifyForeignTx clients addrID poolAddr maturity
    eIndex eAddr ePool ePk eMaturity r ExtTxHash Vout Amount height
  = Err (errorsNew eIndex).
Proof.
  intros Hr Hc Htx Hv Hu. unfold verifyForeignTx.
  rewrite Hr. cbn [Go.bind]. rewrite Hc. cbn [Go.bind]. rewrite Htx. cbn [Go.bind].
  unfold Go.int. rewrite wrapS_small by (unfold is_uint32 in Hu; lia).
  destruct (Z.ltb_spec (len (TxOuts tx)) Vout) as [_|]; [reflexivity | lia].
Qed.

End Facts.

Import Fixtures.

(** C5, what the code does instead.  The foreign transaction has one
    output.  With [Vout = 1] both verifiers run into the index panic;
    only from [Vout = 2] on do they return their index error. *)
Theorem verifiers_index_past_the_outputs :
  len (TxOuts foreignTx) = 1
  /\ @Cross.verifyDogeTx quietScript plainEncoding testVerify 0 nil 1 5 10
     = Panic "index out of range"
  /\ @Cross.verifyLtcTx quietScript plainEncoding testVerify 0 nil 1 5 10
     = Panic "index out of range"
  /\ @Cross.verifyDogeTx quietScript plainEncoding testVerify 0 nil 2 5 10
     = Err (errorsNew "doge TxOut index err")
  /\ @Cross.verifyLtcTx quietScript plainEncoding testVerify 0 nil 2 5 10
     = Err (errorsNew "ltc TxOut index err").
Proof.
  split; [reflexivity|].
  split; [eapply verifyForeignTx_vout_at_length; by_evaluation|].
  split; [eapply verifyForeignTx_vout_at_length; by_evaluation|].
  split; eapply verifyForeignTx_vout_beyond_length; by_evaluation.
Qed.

End CrossFacts.

(** ** Pool accounting at the activation height *)

Module PoolFacts.
Import Fixtures.

(** C7, what the code does instead.  At [txHeight = EntangleHeight] the
    guard at the top of [checkBlockSubsidy] has already returned nil, so
    the catch-up branch below it never runs: every block passes at that
    height.  The block with empty pool outputs is accepted at height
    100 and rejected for its pool-1 output at height 101. *)
Theorem checkBlockSubsidy_skips_activation_height :
  (forall (E : Encoding) (C : CrossPkg) (block preBlock : Block)
          (utxoView : UtxoViewpoint) (amountSubsidy : Z) (params : Params),
      @Subsidy.checkBlockSubsidy E C block preBlock (EntangleHeight params)
         utxoView amountSubsidy params
      = Ok tt)
  /\ EntangleHeight testParams = 100
  /\ @Subsidy.checkBlockSubsidy plainEncoding noEntangle emptyPoolsBlock
       preActivationBlock 100 ∅ 100000000000 testParams
     = Ok tt
  /\ @Subsidy.checkBlockSubsidy plainEncoding noEntangle emptyPoolsBlock
       preActivationBlock 101 ∅ 100000000000 testParams
     = Err (errorsNew "BlockSubsidy:the pool1 address's reward was wrong").
Proof.
  split.
  - intros. unfold Subsidy.checkBlockSubsidy. rewrite Z.leb_refl. reflexivity.
  - repeat split; vm_compute; reflexivity.
Qed.

End PoolFacts.

(** * More of validate.go, difficulty.go and verifyEntangle.go *)

(** ** Slices and indices *)

Module IndexFacts.

Lemma nth_error_is_lookup {A} (s : list A) (n : nat) : nth_error s n = s !! n.
Proof. revert n. induction s as [|x s IH]; intros [|n]; simpl; auto. Qed.

Lemma index_lookup {A} (s : list A) (n : nat) (a : A) :
  s !! n = Some a -> Go.index s (Z.of_nat n) = Ok a.
Proof.
  intros Hl. unfold Go.index.
  pose proof (lookup_lt_Some _ _ _ Hl) as Hlt.
  destruct (Z.ltb_spec (Z.of_nat n) 0); [lia|].
  destruct (Z.leb_spec (len s) (Z.of_nat n)); [unfold len in *; lia|].
  simpl orb. cbv iota. rewrite Nat2Z.id.
  rewrite nth_error_is_lookup, Hl. reflexivity.
Qed.

Lemma index_Ok {A} (s : list A) (i : Z) (a : A) :
  Go.index s i = Ok a -> 0 <= i < len s /\ s !! Z.to_nat i = Some a.
Proof.
  unfold Go.index.
  destruct (Z.ltb_spec i 0); [discriminate|].
  destruct (Z.leb_spec (len s) i); [discriminate|].
  simpl orb. cbv iota. rewrite nth_error_is_lookup.
  destruct (s !! Z.to_nat i) as [x|]; [|discriminate].
  intros E; inversion E; subst. split; [lia | reflexivity].
Qed.

Lemma index_no_error {A} (s : list A) (i : Z) (e : error) : Go.index s i <> Err e.
Proof.
  unfold Go.index. destruct (_ || _); [discriminate|].
  destruct (nth_error _ _); discriminate.
Qed.

End IndexFacts.

Module CodecFacts.
Import Compact CompactFacts.

Lemma byteLen_unique n l :
  1 <= l -> 2 ^ (8 * (l - 1)) <= n < 2 ^ (8 * l) -> Big.byteLen n = l.
Proof.
  intros Hl [Hlo Hhi].
  assert (Hn : 0 < n).
  { assert (0 < 2 ^ (8 * (l - 1))) by (apply Z.pow_pos_nonneg; lia). lia. }
  destruct (byteLen_bounds n Hn) as (H1 & Hlo' & Hhi').
  set (k := Big.byteLen n) in *.
  destruct (Z.lt_trichotomy k l) as [Hlt | [Heq | Hgt]]; [exfalso | exact Heq | exfalso].
  - assert (2 ^ (8 * k) <= 2 ^ (8 * (l - 1))) by (apply Z.pow_le_mono_r; lia). lia.
  - assert (2 ^ (8 * l) <= 2 ^ (8 * (k - 1))) by (apply Z.pow_le_mono_r; lia). lia.
Qed.

(** The parts of a compact number with the sign bit clear. *)
Lemma compact_parts c :
  0 <= c -> Z.land c 0x00800000 = 0 ->
  c = Z.shiftr c 24 * 2 ^ 24 + Z.land c 0x007fffff
  /\ 0 <= Z.land c 0x007fffff < 2 ^ 23.
Proof.
  intros Hc Hs.
  change 0x007fffff with (Z.ones 23). rewrite Z.land_ones by lia.
  rewrite Z.shiftr_div_pow2 by lia.
  change 0x00800000 with (2 ^ 23) in Hs. rewrite land_bit in Hs by lia.
  destruct (Z.testbit c 23) eqn:Hb; [discriminate Hs|].
  apply Z.testbit_false in Hb; [|lia].
  pose proof (Z.div_mod c (2 ^ 23) ltac:(lia)) as D1.
  pose proof (Z.mod_pos_bound c (2 ^ 23) ltac:(lia)) as B1.
  pose proof (Z.div_mod (c / 2 ^ 23) 2 ltac:(lia)) as D2.
  assert (E : c / 2 ^ 24 = c / 2 ^ 23 / 2).
  { rewrite Z.div_div by lia. reflexivity. }
  split; [|exact B1]. rewrite E. lia.
Qed.

(** X1. Decoding a compact number in canonical form and encoding the
    result gives the compact number back: for an exponent between 3 and
    32, a clear sign bit and a mantissa whose top byte is not zero,
    [BigToCompact (CompactToBig c) = c], and the decoded target is
    positive and below 2^256. *)
Theorem encode_decode_canonical (c : Z) :
  0 <= c ->
  3 <= Z.shiftr c 24 <= 32 ->
  Z.land c 0x00800000 = 0 ->
  0x008000 <= Z.land c 0x007fffff ->
  0 < CompactToBig c < 2 ^ 256
  /\ BigToCompact (CompactToBig c) = c.
Proof.
  intros Hc He Hs Hm.
  destruct (compact_parts c Hc Hs) as [Hparts Hmr].
  set (e := Z.shiftr c 24) in *. set (m := Z.land c 0x007fffff) in *.
  assert (Hpack : c = Z.lor (uint32 (Z.shiftl e 24)) m).
  { unfold uint32. rewrite wrapU_small by (rewrite Z.shiftl_mul_pow2; lia).
    rewrite lor_shiftl_add by lia. exact Hparts. }
  assert (Hval : CompactToBig c = m * 2 ^ (8 * (e - 3))).
  { rewrite Hpack at 1. rewrite CompactToBig_pack by lia.
    destruct (Z.leb_spec e 3).
    - replace e with 3 by lia. change (8 * (3 - 3)) with 0.
      rewrite Z.shiftr_0_r, Z.pow_0_r. lia.
    - rewrite Z.shiftl_mul_pow2 by lia. reflexivity. }
  set (s := 8 * (e - 3)) in *.
  assert (Hs0 : 0 <= s) by lia.
  assert (Hp : 0 < 2 ^ s) by (apply Z.pow_pos_nonneg; lia).
  assert (Hlt : m * 2 ^ s < 2 ^ 256).
  { apply Z.lt_le_trans with (2 ^ 23 * 2 ^ s); [nia|].
    rewrite <- Z.pow_add_r by lia. apply Z.pow_le_mono_r; lia. }
  rewrite Hval. split; [nia|].
  rewrite BigToCompact_pos by nia. cbv zeta.
  destruct (Z.le_gt_cases (2 ^ 16) m) as [Hbig|Hsmall].
  - (* three mantissa bytes: the length is the exponent *)
    assert (HL : Big.byteLen (m * 2 ^ s) = e).
    { apply byteLen_unique; [lia|]. split.
      - replace (8 * (e - 1)) with (16 + s) by lia. rewrite Z.pow_add_r by lia. nia.
      - replace (8 * e) with (24 + s) by lia. rewrite Z.pow_add_r by lia. nia. }
    assert (Hraw : rawMantissa (m * 2 ^ s) = m).
    { unfold rawMantissa. rewrite HL. destruct (Z.leb_spec e 3).
      - assert (e = 3) as E3 by lia. subst s. rewrite E3.
        change (8 * (3 - 3)) with 0. rewrite Z.pow_0_r. lia.
      - fold s. apply Z.div_mul. lia. }
    rewrite HL, Hraw.
    rewrite (testbit_top (m * 2 ^ s) (8 * e - 1)).
    + destruct (Z.leb_spec (2 ^ (8 * e - 1)) (m * 2 ^ s)) as [Hge|_]; [|symmetry; exact Hpack].
      exfalso. replace (8 * e - 1) with (23 + s) in Hge by lia.
      rewrite Z.pow_add_r in Hge by lia. nia.
    + lia.
    + replace (8 * e - 1 + 1) with (24 + s) by lia. rewrite Z.pow_add_r by lia. nia.
  - (* two mantissa bytes with the top bit set: one byte shorter, and
       the encoder shifts back *)
    assert (HL : Big.byteLen (m * 2 ^ s) = e - 1).
    { apply byteLen_unique; [lia|]. split.
      - replace (8 * (e - 1 - 1)) with (8 + s) by lia. rewrite Z.pow_add_r by lia. nia.
      - replace (8 * (e - 1)) with (16 + s) by lia. rewrite Z.pow_add_r by lia. nia. }
    assert (Hraw : rawMantissa (m * 2 ^ s) = m * 2 ^ 8).
    { unfold rawMantissa. rewrite HL. destruct (Z.leb_spec (e - 1) 3).
      - replace (8 * (3 - (e - 1))) with (8 - s) by lia.
        rewrite <- Z.mul_assoc, <- Z.pow_add_r by lia.
        replace (s + (8 - s)) with 8 by lia. reflexivity.
      - replace s with (8 + 8 * (e - 1 - 3)) by lia.
        rewrite Z.pow_add_r by lia. rewrite Z.mul_assoc.
        apply Z.div_mul. assert (0 < 2 ^ (8 * (e - 1 - 3))) by (apply Z.pow_pos_nonneg; lia). lia. }
    rewrite HL, Hraw.
    rewrite (testbit_top (m * 2 ^ s) (8 * (e - 1) - 1)).
    + destruct (Z.leb_spec (2 ^ (8 * (e - 1) - 1)) (m * 2 ^ s)) as [_|Hlt'].
      * rewrite Z.div_mul by lia. replace (e - 1 + 1) with e by lia.
        symmetry; exact Hpack.
      * exfalso. replace (8 * (e - 1) - 1) with (15 + s) in Hlt' by lia.
        rewrite Z.pow_add_r in Hlt' by lia. nia.
    + lia.
    + replace (8 * (e - 1) - 1 + 1) with (16 + s) by lia. rewrite Z.pow_add_r by lia. nia.
Qed.

Lemma encode_decode_canonical_witness :
  0 < CompactToBig 0x1d00ffff < 2 ^ 256
  /\ BigToCompact (CompactToBig 0x1d00ffff) = 0x1d00ffff.
Proof. apply (encode_decode_canonical 0x1d00ffff); by_evaluation. Defined.

End CodecFacts.


Module WorkFacts.
Import Compact CompactFacts.

(** X2. [CalcWork] is zero for a target that is not positive, at least
    one for a positive target below 2^256, and never grows with the
    target: a larger target stands for less or equal work. *)
Theorem CalcWork_antitone (a b : Z) :
  (CompactToBig a <= 0 -> CalcWork a = 0)
  /\ (0 < CompactToBig a < 2 ^ 256 -> 1 <= CalcWork a)
  /\ (0 < CompactToBig a <= CompactToBig b -> CalcWork b <= CalcWork a).
Proof.
  unfold CalcWork, oneLsh256. rewrite Z.shiftl_mul_pow2 by lia. rewrite Z.mul_1_l.
  repeat split.
  - intros Hle. destruct (Z.leb_spec (Z.sgn (CompactToBig a)) 0) as [|Hs]; [reflexivity|].
    apply Z.sgn_pos_iff in Hs. lia.
  - intros [Hpos Hlt].
    destruct (Z.leb_spec (Z.sgn (CompactToBig a)) 0) as [Hs|_].
    + rewrite Z.sgn_pos in Hs by lia. lia.
    + apply Z.div_le_lower_bound; lia.
  - intros [Hpos Hle].
    destruct (Z.leb_spec (Z.sgn (CompactToBig a)) 0) as [Hs|_];
      [rewrite Z.sgn_pos in Hs by lia; lia|].
    destruct (Z.leb_spec (Z.sgn (CompactToBig b)) 0) as [Hs|_];
      [rewrite Z.sgn_pos in Hs by lia; lia|].
    apply Z.div_le_compat_l; lia.
Qed.

Lemma CompactToBig_sign_cases c :
  0 <= c ->
  (Z.land c 0x00800000 <> 0 -> CompactToBig c <= 0)
  /\ (Z.land c 0x00800000 = 0 -> 0 <= CompactToBig c).
Proof.
  intros Hc.
  assert (Hbn : 0 <= (let mantissa := Z.land c 0x007fffff in
                 let exponent := uint (Z.shiftr c 24) in
                 if exponent <=? 3
                 then uint32 (Z.shiftr mantissa (8 * (3 - exponent)))
                 else Z.shiftl mantissa (8 * (exponent - 3)))).
  { cbv zeta. destruct (_ <=? 3).
    - unfold uint32, wrapU. apply Z.mod_pos_bound. lia.
    - apply Z.shiftl_nonneg. apply Z.land_nonneg. right. lia. }
  cbv zeta in Hbn. unfold CompactToBig. cbv zeta. split; intros Hs.
  - destruct (Z.eqb_spec (Z.land c 8388608) 0) as [E|_]; [contradiction|]. simpl negb. cbv iota. lia.
  - rewrite Hs. simpl negb. cbv iota. exact Hbn.
Qed.

(** X3. The sign of a decoded target follows bit 23 of the compact
    form alone: with the bit set [CompactToBig] gives a number that is
    negative or zero, with the bit clear one that is positive or zero. *)
Theorem CompactToBig_sign (c : Z) :
  0 <= c ->
  (Z.land c 0x00800000 <> 0 -> CompactToBig c <= 0)
  /\ (Z.land c 0x00800000 = 0 -> 0 <= CompactToBig c).
Proof. exact (CompactToBig_sign_cases c). Qed.

Lemma CompactToBig_sign_witness :
  (Z.land 0x1d80ffff 0x00800000 <> 0 -> CompactToBig 0x1d80ffff <= 0)
  /\ (Z.land 0x1d80ffff 0x00800000 = 0 -> 0 <= CompactToBig 0x1d80ffff).
Proof. apply (CompactToBig_sign 0x1d80ffff). by_evaluation. Defined.

Lemma CalcWork_antitone_witness :
  1 <= CalcWork 0x1c00ffff /\ CalcWork 0x1d00ffff <= CalcWork 0x1c00ffff.
Proof.
  destruct (CalcWork_antitone 0x1c00ffff 0x1d00ffff) as (_ & Hpos & Hle).
  split; [apply Hpos | apply Hle]; by_evaluation.
Defined.

End WorkFacts.

Module PowFacts.
Section Facts.
Context `{TxScript} `{Seal}.
Import Compact Pow.

(** X4. A header [checkProofOfWork] accepts has a positive target that
    does not exceed the limit and, unless the flag [BFNoPoWCheck] is
    set, a seal that [VerifyBlockSeal] accepted; a header whose bits
    carry the sign bit is turned away with [ErrUnexpectedDifficulty]. *)
Theorem checkProofOfWork_sound (header : BlockHeader) (powLimit flags : Z) :
  (checkProofOfWork header powLimit flags = Ok tt ->
   0 < CompactToBig (Bits header) <= powLimit
   /\ (HasFlag flags BFNoPoWCheck = false ->
       exists u, VerifyBlockSeal (BlockHashNoNonce header)
                   (CompactToBig (Bits header)) (Nonce header) = Ok u))
  /\ (0 <= Bits header -> Z.land (Bits header) 0x00800000 <> 0 ->
      checkProofOfWork header powLimit flags
      = Err (ruleError ErrUnexpectedDifficulty)).
Proof.
  unfold checkProofOfWork. cbv zeta. split.
  - destruct (Z.leb_spec (Z.sgn (CompactToBig (Bits header))) 0) as [|Hs]; [discriminate|].
    apply Z.sgn_pos_iff in Hs.
    destruct (Z.ltb_spec powLimit (CompactToBig (Bits header))); [discriminate|].
    intros Hok. split; [lia|].
    intros Hf. rewrite Hf in Hok. simpl in Hok.
    destruct (VerifyBlockSeal _ _ _) as [u| |]; try discriminate. exists u. reflexivity.
  - intros Hb Hsign.
    destruct (WorkFacts.CompactToBig_sign_cases (Bits header) Hb) as [Hneg _].
    specialize (Hneg Hsign).
    destruct (Z.leb_spec (Z.sgn (CompactToBig (Bits header))) 0) as [|Hs]; [reflexivity|].
    apply Z.sgn_pos_iff in Hs. lia.
Qed.

End Facts.
Section Witnesses.
Import Fixtures Samples Compact Pow.

Lemma checkProofOfWork_sound_witness :
  0 < CompactToBig (Bits sampleHeader) <= 2 ^ 224 - 1
  /\ @checkProofOfWork shutSeal sampleHeader (2 ^ 224 - 1) 0
     = Err (ruleError ErrHighHash)
  /\ @checkProofOfWork openSeal (mkBlockHeader 10 77 1000 0x1d80ffff 0)
       (2 ^ 224 - 1) 0
     = Err (ruleError ErrUnexpectedDifficulty).
Proof.
  destruct (@checkProofOfWork_sound openSeal sampleHeader (2 ^ 224 - 1) 0)
    as [Hok _].
  destruct (@checkProofOfWork_sound openSeal (mkBlockHeader 10 77 1000 0x1d80ffff 0)
              (2 ^ 224 - 1) 0) as [_ Hsign].
  split; [apply Hok; by_evaluation|].
  split; [by_evaluation | apply Hsign; by_evaluation].
Defined.

End Witnesses.

End PowFacts.


Module HashFacts.
Import Pow.

Lemma swapAt_head (a b : byte) (mid post : list byte) :
  swapAt (a :: mid ++ b :: post) 0 (S (length mid)) = b :: mid ++ a :: post.
Proof.
  unfold swapAt. simpl.
  rewrite list_lookup_middle by reflexivity.
  f_equal. induction mid as [|x mid IH]; simpl; [reflexivity|]. f_equal. exact IH.
Qed.

Lemma swapAt_skip (x : byte) (buf : list byte) (i j : nat) :
  swapAt (x :: buf) (S i) (S j) = x :: swapAt buf i j.
Proof.
  unfold swapAt. simpl.
  destruct (buf !! i), (buf !! j); reflexivity.
Qed.

Lemma swapAt_ends (pre mid post : list byte) (a b : byte) :
  swapAt (pre ++ a :: mid ++ b :: post) (length pre)
         (length pre + S (length mid))%nat
  = pre ++ b :: mid ++ a :: post.
Proof.
  induction pre as [|x pre IH]; simpl.
  - apply swapAt_head.
  - rewrite swapAt_skip, IH. reflexivity.
Qed.

Lemma reverseLoop_rev (k : nat) : forall (pre mid post : list byte),
  (length mid = 2 * k \/ length mid = 2 * k + 1)%nat ->
  length pre = length post ->
  reverseLoop k (length pre) (pre ++ mid ++ post) = pre ++ rev mid ++ post.
Proof.
  induction k as [|k IH]; intros pre mid post Hlen Hends; simpl.
  - destruct mid as [|a [|b mid]]; simpl in *; try reflexivity; lia.
  - destruct mid as [|a mid]; [simpl in Hlen; lia|].
    assert (Hne : mid <> nil) by (intros ->; simpl in Hlen; lia).
    destruct (exists_last Hne) as (mid' & b & ->).
    simpl in Hlen. rewrite length_app in Hlen. simpl in Hlen.
    replace (length (pre ++ (a :: mid' ++ b :: nil) ++ post) - 1 - length pre)%nat
      with (length pre + S (length mid'))%nat
      by (rewrite !length_app; simpl; rewrite length_app; simpl; lia).
    replace (pre ++ (a :: mid' ++ b :: nil) ++ post)
      with (pre ++ a :: mid' ++ b :: post)
      by (simpl; rewrite <- app_assoc; reflexivity).
    rewrite swapAt_ends.
    replace (pre ++ b :: mid' ++ a :: post)
      with ((pre ++ b :: nil) ++ mid' ++ (a :: post))
      by (rewrite <- app_assoc; reflexivity).
    replace (S (length pre)) with (length (pre ++ b :: nil))
      by (rewrite length_app; simpl; lia).
    rewrite IH; [|lia|rewrite length_app; simpl; lia].
    simpl. rewrite rev_app_distr. simpl.
    rewrite <- !app_assoc. reflexivity.
Qed.

Lemma SetBytes_snoc (bs : list byte) (b : byte) :
  SetBytes (bs ++ b :: nil) = SetBytes bs * 256 + Validate.byteZ b.
Proof. unfold SetBytes. rewrite fold_left_app. reflexivity. Qed.

Lemma SetBytes_rev (bs : list byte) :
  SetBytes (rev bs) = Validate.littleEndian bs.
Proof.
  induction bs as [|b rest IH]; simpl; [reflexivity|].
  rewrite SetBytes_snoc, IH. lia.
Qed.

Lemma byteZ_range (b : byte) : 0 <= Validate.byteZ b < 256.
Proof.
  unfold Validate.byteZ. pose proof (Byte.to_N_bounded b). lia.
Qed.

Lemma littleEndian_range (bs : list byte) :
  0 <= Validate.littleEndian bs < 256 ^ len bs.
Proof.
  induction bs as [|b rest IH]; simpl.
  - unfold len. simpl. lia.
  - pose proof (byteZ_range b).
    unfold len in *. simpl length. rewrite Nat2Z.inj_succ, Z.pow_succ_r by lia. lia.
Qed.

(** X5. The swap loop of [HashToBig] reverses the bytes of the hash, so
    the number returned is the hash read as a little-endian number, below
    256 to the number of its bytes. *)
Theorem HashToBig_little_endian (hash : list byte) :
  reverseLoop (length hash / 2) 0 hash = rev hash
  /\ HashToBig hash = Validate.littleEndian hash
  /\ 0 <= HashToBig hash < 256 ^ len hash.
Proof.
  assert (Hrev : reverseLoop (length hash / 2) 0 hash = rev hash).
  { pose proof (reverseLoop_rev (length hash / 2) nil hash nil) as R.
    rewrite !app_nil_r in R. apply R; [|reflexivity].
    pose proof (Nat.div_mod_eq (length hash) 2) as D.
    pose proof (Nat.mod_upper_bound (length hash) 2 ltac:(lia)) as B.
    destruct (length hash mod 2)%nat as [|[|r]]; [left | right | ]; lia. }
  split; [exact Hrev|].
  assert (E : HashToBig hash = Validate.littleEndian hash).
  { unfold HashToBig. rewrite Hrev. apply SetBytes_rev. }
  split; [exact E|]. rewrite E. apply littleEndian_range.
Qed.

Lemma HashToBig_little_endian_witness :
  HashToBig (x01 :: x02 :: x03 :: nil) = 1 + 256 * (2 + 256 * 3).
Proof.
  destruct (HashToBig_little_endian (x01 :: x02 :: x03 :: nil)) as (_ & -> & _).
  reflexivity.
Defined.

End HashFacts.


Module RetargetFacts.
Section Facts.
Context `{Chain}.
Import Compact CompactFacts Difficulty DifficultyFacts.

Lemma specX_range t ts : -99 <= specX t ts.
Proof. unfold specX. lia. Qed.

Lemma specNewD_lower diff x :
  0 <= diff -> -99 <= x -> diff + diff * (-99) / 128 <= specNewD diff x.
Proof.
  intros Hd Hx. unfold specNewD.
  assert (diff * -99 / 128 <= diff * x / 128) by (apply Z.div_le_mono; nia). lia.
Qed.

Lemma specNewD_positive diff x : 5 <= diff -> -99 <= x -> 0 < specNewD diff x.
Proof.
  intros Hd Hx. pose proof (specNewD_lower diff x ltac:(lia) Hx).
  pose proof (Z.div_mod (diff * -99) 128 ltac:(lia)).
  pose proof (Z.mod_pos_bound (diff * -99) 128 ltac:(lia)). lia.
Qed.

Lemma uint32_nonneg z : 0 <= uint32 z.
Proof. unfold uint32, wrapU. apply Z.mod_pos_bound. lia. Qed.

Lemma BigToCompact_negative n : n < 0 -> CompactToBig (BigToCompact n) <= 0.
Proof.
  intros Hn. unfold BigToCompact.
  rewrite Z.sgn_neg by lia.
  change (-1 =? 0) with false. change (-1 <? 0) with true. cbv iota zeta.
  match goal with |- CompactToBig (Z.lor ?c _) <= 0 => set (compact := c) end.
  assert (Hc : 0 <= compact).
  { subst compact. apply (proj2 (Z.lor_nonneg _ _)). split.
    - apply uint32_nonneg.
    - destruct (negb _).
      + apply Z.shiftr_nonneg. destruct (_ <=? 3); apply uint32_nonneg.
      + destruct (_ <=? 3); apply uint32_nonneg. }
  apply WorkFacts.CompactToBig_sign_cases.
  - apply (proj2 (Z.lor_nonneg _ _)). lia.
  - rewrite Z.land_lor_distr_l. change (Z.land 8388608 8388608) with 8388608.
    intros E. apply Z.lor_eq_0_iff in E. lia.
Qed.

Lemma truncate_le n : 0 < n <= 2 ^ 256 - 1 -> CompactToBig (BigToCompact n) <= n.
Proof.
  intros Hn. rewrite roundtrip_truncate by exact Hn. unfold truncateToMantissa.
  set (k := Z.max 0 (storedExponent n - 3)).
  assert (0 < 256 ^ k) by (apply Z.pow_pos_nonneg; lia).
  pose proof (Z.div_mod n (256 ^ k) ltac:(lia)).
  pose proof (Z.mod_pos_bound n (256 ^ k) ltac:(lia)). lia.
Qed.

(** X6. With difficulty adjustment on, a parent that added at least 5
    units of work and a limit below 2^256, [calcNextRequiredDifficulty]
    returns bits, and the target they decode to does not exceed
    [PowLimit]. *)
Theorem calcNextRequiredDifficulty_within_limit (P : blockNode) (t : Z) :
  NoDifficultyAdjustment chainParams = false ->
  (nodeHeight P <> 0 -> is_Some (nodeParent P)) ->
  5 <= specDiff P ->
  0 <= PowLimit chainParams < 2 ^ 256 ->
  exists bits,
    calcNextRequiredDifficulty (Some P) t = Ok bits
    /\ CompactToBig bits <= PowLimit chainParams.
Proof.
  intros Hadj Hp Hd Hlim.
  pose proof (specNewD_positive (specDiff P) (specX t (nodeTimestamp P)) Hd
                (specX_range _ _)) as Hpos.
  rewrite (calcNextRequiredDifficulty_unfolded P t Hadj Hp).
  rewrite Div_positive by exact Hpos. cbn [Go.bind].
  eexists. split; [reflexivity|].
  set (T := Z.min (PowLimit chainParams) _).
  assert (HT : T <= PowLimit chainParams) by (subst T; lia).
  destruct (Z.lt_trichotomy T 0) as [Hneg | [Hz | Hp0]].
  - pose proof (BigToCompact_negative T Hneg). lia.
  - rewrite Hz. change (CompactToBig (BigToCompact 0)) with 0. lia.
  - pose proof (truncate_le T ltac:(lia)). lia.
Qed.

(** X7. The direction of the retarget: the new difficulty is at least
    the parent's when the block comes less than 30 seconds after it,
    equal to it from 30 to 59 seconds, at most the parent's from 60
    seconds on, and never drops by more than 99/128 of it. *)
Theorem next_difficulty_direction (P : blockNode) (t : Z) :
  NoDifficultyAdjustment chainParams = false ->
  (nodeHeight P <> 0 -> is_Some (nodeParent P)) ->
  0 <= specDiff P ->
  exists newD,
    calcNextRequiredDifficulty (Some P) t
    = (newTarget <- Big.Div (2 ^ 256 - newD) newD ;;
       Ok (BigToCompact (Z.min (PowLimit chainParams) newTarget)))
    /\ (t - nodeTimestamp P < 30 -> specDiff P <= newD)
    /\ (30 <= t - nodeTimestamp P < 60 -> newD = specDiff P)
    /\ (60 <= t - nodeTimestamp P -> newD <= specDiff P)
    /\ specDiff P + specDiff P * (-99) / 128 <= newD.
Proof.
  intros Hadj Hp Hd.
  exists (specNewD (specDiff P) (specX t (nodeTimestamp P))).
  split; [apply (calcNextRequiredDifficulty_unfolded P t Hadj Hp)|].
  set (d := specDiff P) in *. set (dt := t - nodeTimestamp P).
  unfold specNewD, specX. fold dt.
  repeat split.
  - intros Hs.
    assert (dt / 30 <= 0) by (apply Z.lt_succ_r; apply Z.div_lt_upper_bound; lia).
    assert (0 <= d * Z.max (1 - dt / 30) (-99) / 128) by (apply Z.div_pos; nia). lia.
  - intros [H1 H2].
    assert (dt / 30 = 1) as ->
      by (symmetry; apply Z.div_unique with (r := dt - 30); lia).
    change (Z.max (1 - 1) (-99)) with 0. rewrite Z.mul_0_r. change (0 / 128) with 0. lia.
  - intros Hl.
    assert (2 <= dt / 30) by (apply Z.div_le_lower_bound; lia).
    assert (d * Z.max (1 - dt / 30) (-99) / 128 <= 0).
    { apply Z.le_trans with (0 / 128); [apply Z.div_le_mono; nia | reflexivity]. }
    lia.
  - apply (specNewD_lower d (Z.max (1 - dt / 30) (-99))); lia.
Qed.

End Facts.
Section Witnesses.
Import Fixtures Compact Difficulty.

Lemma calcNextRequiredDifficulty_within_limit_witness :
  exists bits,
    @calcNextRequiredDifficulty (testChain false) (Some steadyParent) 1010 = Ok bits
    /\ CompactToBig bits <= PowLimit (@chainParams (testChain false)).
Proof.
  apply (@calcNextRequiredDifficulty_within_limit (testChain false) steadyParent 1010).
  - reflexivity.
  - intros _. eexists. reflexivity.
  - by_evaluation.
  - by_evaluation.
Defined.

Lemma next_difficulty_direction_witness :
  exists newD,
    @calcNextRequiredDifficulty (testChain false) (Some steadyParent) 1010
    = (newTarget <- Big.Div (2 ^ 256 - newD) newD ;;
       Ok (BigToCompact (Z.min (PowLimit (@chainParams (testChain false))) newTarget)))
    /\ (1010 - nodeTimestamp steadyParent < 30 -> specDiff steadyParent <= newD)
    /\ (30 <= 1010 - nodeTimestamp steadyParent < 60 -> newD = specDiff steadyParent)
    /\ (60 <= 1010 - nodeTimestamp steadyParent -> newD <= specDiff steadyParent)
    /\ specDiff steadyParent + specDiff steadyParent * (-99) / 128 <= newD.
Proof.
  apply (@next_difficulty_direction (testChain false) steadyParent 1010).
  - reflexivity.
  - intros _. eexists. reflexivity.
  - by_evaluation.
Defined.

End Witnesses.

End RetargetFacts.

Module SuitableFacts.
Import Pow.

(** X8. [getSuitableBlock] fails when the node has fewer than two
    ancestors; otherwise it returns one of the node, its parent and its
    grandparent, the one whose timestamp is the median of the three. *)
Theorem getSuitableBlock_median (node0 : blockNode) :
  (nodeParent node0 = None ->
   getSuitableBlock node0 = Err (errorsNew "unable to obtain relative ancestor"))
  /\ (forall node1, nodeParent node0 = Some node1 -> nodeParent node1 = None ->
      getSuitableBlock node0 = Err (errorsNew "unable to obtain relative ancestor"))
  /\ (forall node1 node2,
        nodeParent node0 = Some node1 -> nodeParent node1 = Some node2 ->
        exists r, getSuitableBlock node0 = Ok r
                  /\ (r = node0 \/ r = node1 \/ r = node2)
                  /\ nodeTimestamp r
                     = median3 (nodeTimestamp node2) (nodeTimestamp node1)
                               (nodeTimestamp node0)).
Proof.
  unfold getSuitableBlock, Difficulty.RelativeAncestor1. repeat split.
  - intros ->. reflexivity.
  - intros node1 -> ->. reflexivity.
  - intros node1 node2 -> ->. unfold median3.
    repeat (match goal with
            | |- context [?a <? ?b] => destruct (Z.ltb_spec a b)
            end; cbv beta iota);
      eexists; (split; [reflexivity|]); split; auto; lia.
Qed.

Lemma getSuitableBlock_median_witness :
  exists r, getSuitableBlock Samples.zigzagNode = Ok r /\ nodeTimestamp r = 20.
Proof.
  destruct (getSuitableBlock_median Samples.zigzagNode) as (_ & _ & Hmed).
  destruct (Hmed _ _ eq_refl eq_refl) as (r & Hr & _ & Ht).
  exists r. split; [exact Hr | rewrite Ht; reflexivity].
Defined.

End SuitableFacts.

Module FinalityFacts.
Section Facts.
Context `{TxScript} `{Seal}.
Import Pow.

(** X9. A transaction that is final at a height and a time stays final
    at every later height and time. *)
Theorem IsFinalizedTransaction_monotone (tx : MsgTx) (h h' t t' : Z) :
  is_int32 h -> is_int32 h' -> h <= h' -> t <= t' ->
  IsFinalizedTransaction tx h t = true ->
  IsFinalizedTransaction tx h' t' = true.
Proof.
  intros Hh Hh' Hle Hlt. unfold IsFinalizedTransaction. cbv zeta.
  destruct (LockTime tx =? 0); [reflexivity|].
  rewrite !(int64_small h), !(int64_small h') by (unfold is_int32, is_int64 in *; lia).
  destruct (LockTime tx <? LockTimeThreshold).
  - destruct (Z.ltb_spec (int64 (LockTime tx)) h);
      destruct (Z.ltb_spec (int64 (LockTime tx)) h'); auto; lia.
  - destruct (Z.ltb_spec (int64 (LockTime tx)) t);
      destruct (Z.ltb_spec (int64 (LockTime tx)) t'); auto; lia.
Qed.

(** X10. A transaction with lock time zero, or all of whose inputs carry
    the maximal sequence number, is final at every height and time. *)
Theorem IsFinalizedTransaction_final_sequences (tx : MsgTx) (h t : Z) :
  (LockTime tx = 0 \/ Forall (fun txIn => Sequence txIn = Go.MaxUint32) (TxIns tx)) ->
  IsFinalizedTransaction tx h t = true.
Proof.
  intros [Hz | Hall]; unfold IsFinalizedTransaction; cbv zeta.
  - rewrite Hz. reflexivity.
  - destruct (LockTime tx =? 0); [reflexivity|].
    destruct (_ <? _); [reflexivity|].
    apply forallb_forall. intros txIn Hin.
    apply Z.eqb_eq. rewrite Forall_forall in Hall. apply Hall.
    apply list_elem_of_In. exact Hin.
Qed.

End Facts.
Section Witnesses.
Import Fixtures Samples Compact Pow.

Lemma IsFinalizedTransaction_monotone_witness :
  @IsFinalizedTransaction quietScript lockedTx 102 0 = true.
Proof.
  apply (@IsFinalizedTransaction_monotone quietScript lockedTx 101 102 0 0);
    by_evaluation.
Defined.

Lemma IsFinalizedTransaction_final_sequences_witness :
  @IsFinalizedTransaction quietScript (mkMsgTx 2 (TxIns (spendTx 2 0)) nil 700) 0 0
  = true.
Proof.
  apply (@IsFinalizedTransaction_final_sequences quietScript
           (mkMsgTx 2 (TxIns (spendTx 2 0)) nil 700) 0 0).
  right. repeat constructor.
Defined.

End Witnesses.

End FinalityFacts.

Module LimitsFacts.
Section Facts.
Context `{TxScript} `{Encoding}.
Import Validate SubsidyFacts.

(** X11. For a block size that fits a uint32, [MaxBlockSigOps] allows
    20000 signature operations for every megabyte or part of one, and
    never fewer than 20000: an empty block counts as one megabyte. *)
Theorem MaxBlockSigOps_per_megabyte (n : Z) :
  is_uint32 n ->
  MaxBlockSigOps n = 20000 * Z.max 1 ((n + 999999) / 1000000)
  /\ 20000 <= MaxBlockSigOps n.
Proof.
  intros [Hlo Hhi]. unfold MaxBlockSigOps, oneMegabyte, MaxBlockSigOpsPerMB, Go.int.
  cbv zeta.
  rewrite (wrapS_small 64 n) by lia.
  rewrite (wrapS_small 64 (n - 1)) by lia.
  assert (Hq : Z.quot (n - 1) 1000000 = Z.max 1 ((n + 999999) / 1000000) - 1).
  { destruct (Z.eq_dec n 0) as [->|Hn].
    - vm_compute. reflexivity.
    - rewrite Z.quot_div_nonneg by lia.
      replace (n + 999999) with (n - 1 + 1 * 1000000) by lia.
      rewrite Z.div_add by lia.
      assert (0 <= (n - 1) / 1000000) by (apply Z.div_pos; lia). lia. }
  rewrite Hq.
  assert (Hb : 1 <= Z.max 1 ((n + 999999) / 1000000) <= 4296).
  { split; [lia|]. apply Z.max_lub; [lia|].
    apply Z.lt_succ_r. apply Z.div_lt_upper_bound; lia. }
  rewrite (wrapS_small 64 (1 + _)) by lia.
  rewrite wrapS_small by lia. lia.
Qed.

(** X12. With a positive reduction interval and a base subsidy that
    fits an int64, the subsidy never grows with the height: it is the
    base subsidy below the first interval, at most the base subsidy
    afterwards, and never less than one unit. *)
Theorem CalcBlockSubsidy_never_grows (params : Params) (h h' : Z) :
  0 < baseSubsidy < 2 ^ 63 ->
  0 < SubsidyReductionInterval params ->
  0 <= h <= h' -> is_int32 h' ->
  1 <= CalcBlockSubsidy h' params <= CalcBlockSubsidy h params
  /\ CalcBlockSubsidy h params <= baseSubsidy
  /\ (h < SubsidyReductionInterval params ->
      CalcBlockSubsidy h params = baseSubsidy).
Proof.
  intros Hb Hi Hh Hh'.
  set (I := SubsidyReductionInterval params) in *.
  assert (Hform : forall x, 0 <= x -> is_int32 x ->
            CalcBlockSubsidy x params
            = if x / I =? 0 then baseSubsidy
              else if baseSubsidy / (x / I) =? 0 then 1 else baseSubsidy / (x / I)).
  { intros x Hx Hx32. destruct (Z.eqb_spec (x / I) 0) as [E|NE].
    - unfold CalcBlockSubsidy. fold I.
      destruct (Z.eqb_spec I 0); [lia|].
      rewrite Z.quot_div_nonneg, E by lia. reflexivity.
    - assert (0 <= x / I) by (apply Z.div_pos; lia).
      apply CalcBlockSubsidy_halvings; try assumption. fold I. lia. }
  assert (Hh32 : is_int32 h) by (unfold is_int32 in *; lia).
  rewrite (Hform h) by (assumption || lia).
  rewrite (Hform h') by (assumption || lia).
  assert (Hk : 0 <= h / I <= h' / I)
    by (split; [apply Z.div_pos; lia | apply Z.div_le_mono; lia]).
  assert (Hq : forall k, 1 <= k -> 0 <= baseSubsidy / k <= baseSubsidy).
  { intros k Hk1. split; [apply Z.div_pos; lia | apply Z.div_le_upper_bound; nia]. }
  repeat split.
  - destruct (Z.eqb_spec (h' / I) 0); [lia|].
    pose proof (Hq (h' / I) ltac:(lia)).
    destruct (Z.eqb_spec (baseSubsidy / (h' / I)) 0); lia.
  - destruct (Z.eqb_spec (h / I) 0) as [E|NE].
    + destruct (Z.eqb_spec (h' / I) 0); [lia|].
      pose proof (Hq (h' / I) ltac:(lia)).
      destruct (baseSubsidy / (h' / I) =? 0); lia.
    + destruct (Z.eqb_spec (h' / I) 0); [lia|].
      assert (baseSubsidy / (h' / I) <= baseSubsidy / (h / I))
        by (apply Z.div_le_compat_l; lia).
      pose proof (Hq (h' / I) ltac:(lia)). pose proof (Hq (h / I) ltac:(lia)).
      destruct (Z.eqb_spec (baseSubsidy / (h' / I)) 0);
        destruct (Z.eqb_spec (baseSubsidy / (h / I)) 0); lia.
  - destruct (Z.eqb_spec (h / I) 0); [lia|].
    pose proof (Hq (h / I) ltac:(lia)).
    destruct (baseSubsidy / (h / I) =? 0); lia.
  - intros Hlt. rewrite Z.div_small by lia. reflexivity.
Qed.

End Facts.
Section Witnesses.
Import Fixtures Validate.
Existing Instances quietScript plainEncoding.

Lemma MaxBlockSigOps_per_megabyte_witness :
  MaxBlockSigOps 1500000 = 20000 * Z.max 1 ((1500000 + 999999) / 1000000)
  /\ 20000 <= MaxBlockSigOps 1500000.
Proof. apply (MaxBlockSigOps_per_megabyte 1500000). by_evaluation. Defined.

Lemma CalcBlockSubsidy_never_grows_witness :
  1 <= CalcBlockSubsidy 2500 testParams <= CalcBlockSubsidy 500 testParams
  /\ CalcBlockSubsidy 500 testParams <= baseSubsidy
  /\ (500 < SubsidyReductionInterval testParams ->
      CalcBlockSubsidy 500 testParams = baseSubsidy).
Proof.
  apply (CalcBlockSubsidy_never_grows testParams 500 2500); by_evaluation.
Defined.

End Witnesses.

End LimitsFacts.

Module CoinbaseFacts.
Section Facts.
Context `{TxScript} `{Encoding}.
Import Validate.

Lemma littleEndian_app (a b : list byte) :
  littleEndian (a ++ b) = littleEndian a + 256 ^ len a * littleEndian b.
Proof.
  induction a as [|x a IH]; simpl.
  - unfold len. simpl. lia.
  - rewrite IH. unfold len. simpl length.
    rewrite Nat2Z.inj_succ, Z.pow_succ_r by lia. lia.
Qed.

Lemma wrapS_periodic w z k : 0 < w -> wrapS w (z + 2 ^ w * k) = wrapS w z.
Proof.
  intros Hw. unfold wrapS.
  replace (z + 2 ^ w * k + 2 ^ (w - 1)) with (z + 2 ^ (w - 1) + k * 2 ^ w) by lia.
  rewrite Z.mod_add; [reflexivity|].
  assert (0 < 2 ^ w) by (apply Z.pow_pos_nonneg; lia). lia.
Qed.

Lemma int32_four_bytes (bs : list byte) :
  int32 (littleEndian bs) = int32 (littleEndian (firstn 4 bs)).
Proof.
  rewrite <- (firstn_skipn 4 bs) at 1. rewrite littleEndian_app.
  destruct (Nat.le_gt_cases 4 (length bs)) as [Hlong|Hshort].
  - unfold len. rewrite length_firstn, Nat.min_l by lia.
    change (256 ^ Z.of_nat 4) with (2 ^ 32).
    apply wrapS_periodic. lia.
  - rewrite skipn_all2 by lia. simpl. f_equal. lia.
Qed.

Lemma wrapS_range w z : 0 < w -> - 2 ^ (w - 1) <= wrapS w z < 2 ^ (w - 1).
Proof.
  intros Hw. unfold wrapS.
  assert (E : 2 ^ w = 2 * 2 ^ (w - 1)).
  { rewrite <- Z.pow_succ_r by lia. f_equal. lia. }
  assert (0 < 2 ^ (w - 1)) by (apply Z.pow_pos_nonneg; lia).
  pose proof (Z.mod_pos_bound (z + 2 ^ (w - 1)) (2 ^ w) ltac:(lia)). lia.
Qed.

(** X13. [ExtractCoinbaseHeight] answers with a number in the int32
    range; an empty signature script, and a push that runs past the end
    of the script, give [ErrMissingCoinbaseHeight]; of the bytes a push
    carries only the first four decide the height. *)
Theorem ExtractCoinbaseHeight_four_bytes (coinbaseTx : MsgTx) :
  (forall h, ExtractCoinbaseHeight coinbaseTx = Ok h -> is_int32 h \/ h = 0)
  /\ (forall txIn ins, TxIns coinbaseTx = txIn :: ins ->
        SignatureScript txIn = nil ->
        ExtractCoinbaseHeight coinbaseTx = Err (ruleError ErrMissingCoinbaseHeight))
  /\ (forall txIn ins b0 rest, TxIns coinbaseTx = txIn :: ins ->
        SignatureScript txIn = b0 :: rest ->
        byteZ b0 <> OP_0 -> ~ (OP_1 <= byteZ b0 <= OP_16) ->
        (len rest < byteZ b0 ->
         ExtractCoinbaseHeight coinbaseTx = Err (ruleError ErrMissingCoinbaseHeight))
        /\ (byteZ b0 <= len rest ->
            ExtractCoinbaseHeight coinbaseTx
            = Ok (int32 (littleEndian
                           (firstn 4 (firstn (Z.to_nat (byteZ b0)) rest)))))).
Proof.
  repeat split.
  - intros h. unfold ExtractCoinbaseHeight.
    destruct (Go.index (TxIns coinbaseTx) 0) as [txIn| |]; simpl; try discriminate.
    destruct (SignatureScript txIn) as [|b0 rest]; [discriminate|].
    destruct (_ =? OP_0); [intros E; inversion E; right; reflexivity|].
    destruct (_ && _);
      [intros E; inversion E; left; apply (wrapS_range 32); lia|].
    destruct (_ <? _); [discriminate|].
    intros E; inversion E; left; apply (wrapS_range 32); lia.
  - intros txIn ins Hins Hs. unfold ExtractCoinbaseHeight.
    rewrite Hins, ConnectFacts.index_head. simpl. rewrite Hs. reflexivity.
  - intros Hshort. unfold ExtractCoinbaseHeight.
    rewrite H1, ConnectFacts.index_head. simpl. rewrite H2.
    destruct (Z.eqb_spec (byteZ b0) OP_0); [contradiction|].
    destruct (Z.leb_spec OP_1 (byteZ b0)); destruct (Z.leb_spec (byteZ b0) OP_16);
      simpl; try (exfalso; apply H4; lia);
      (destruct (Z.ltb_spec (len rest) (byteZ b0)); [reflexivity | lia]).
  - intros Hlong. unfold ExtractCoinbaseHeight.
    rewrite H1, ConnectFacts.index_head. simpl. rewrite H2.
    destruct (Z.eqb_spec (byteZ b0) OP_0); [contradiction|].
    assert ((OP_1 <=? byteZ b0) && (byteZ b0 <=? OP_16) = false) as ->.
    { destruct (Z.leb_spec OP_1 (byteZ b0)); destruct (Z.leb_spec (byteZ b0) OP_16);
        simpl; try reflexivity. exfalso; apply H4; lia. }
    destruct (Z.ltb_spec (len rest) (byteZ b0)); [lia|].
    f_equal. rewrite int32_four_bytes.
    f_equal. f_equal.
    rewrite firstn_firstn. reflexivity.
Qed.

(** What a positive answer of the coinbase test says about [msgTx]. *)
Lemma isCoinBaseAt_true (entangleHeight : Z) (msgTx : MsgTx) :
  isCoinBaseAt entangleHeight msgTx = Ok true ->
  exists txIn ins height,
    TxIns msgTx = txIn :: ins
    /\ isNullOutpoint (PreviousOutPoint txIn) = true
    /\ ExtractCoinbaseHeight msgTx = Ok height
    /\ len (TxIns msgTx) = (if entangleHeight <=? height then 3 else 1).
Proof.
  unfold isCoinBaseAt.
  destruct (ExtractCoinbaseHeight msgTx) as [height| |] eqn:Hh; try discriminate.
  destruct (Z.eqb_spec (len (TxIns msgTx)) (if entangleHeight <=? height then 3 else 1))
    as [Hlen|]; [|discriminate]. simpl negb. cbv iota.
  destruct (TxIns msgTx) as [|txIn ins] eqn:Hins.
  - unfold len in Hlen. simpl in Hlen. destruct (_ <=? _); discriminate.
  - rewrite ConnectFacts.index_head. simpl.
    unfold isNullOutpoint.
    destruct (opIndex (PreviousOutPoint txIn) =? MaxUint32) eqn:Ei;
      destruct (opHash (PreviousOutPoint txIn) =? zeroHash) eqn:Eh;
      simpl; try discriminate.
    intros _. exists txIn, ins, height.
    repeat split; try assumption; try reflexivity.
    unfold isNullOutpoint. rewrite Ei, Eh. reflexivity.
Qed.

(** X14. [IsCoinBaseTx] and [isCoinBaseInParam] panic on a transaction
    without inputs; a transaction they accept has the null outpoint on
    its first input, a height in its script, and three inputs from the
    entangle height on, one below it. *)
Theorem IsCoinBaseTx_shape (msgTx : MsgTx) (chainParams : Params) :
  (TxIns msgTx = nil ->
   IsCoinBaseTx msgTx = Panic "index out of range"
   /\ isCoinBaseInParam msgTx chainParams = Panic "index out of range")
  /\ (IsCoinBaseTx msgTx = Ok true ->
      exists txIn ins height,
        TxIns msgTx = txIn :: ins
        /\ isNullOutpoint (PreviousOutPoint txIn) = true
        /\ ExtractCoinbaseHeight msgTx = Ok height
        /\ len (TxIns msgTx) = (if MainNetEntangleHeight <=? height then 3 else 1))
  /\ (isCoinBaseInParam msgTx chainParams = Ok true ->
      exists txIn ins height,
        TxIns msgTx = txIn :: ins
        /\ isNullOutpoint (PreviousOutPoint txIn) = true
        /\ ExtractCoinbaseHeight msgTx = Ok height
        /\ len (TxIns msgTx)
           = (if EntangleHeight chainParams <=? height then 3 else 1)).
Proof.
  split; [|split; apply isCoinBaseAt_true].
  intros Hnil. unfold IsCoinBaseTx, isCoinBaseInParam, isCoinBaseAt, ExtractCoinbaseHeight.
  rewrite Hnil. split; reflexivity.
Qed.

End Facts.
Section Witnesses.
Import Fixtures Samples Validate.
Existing Instances quietScript plainEncoding.

Lemma ExtractCoinbaseHeight_four_bytes_witness :
  ExtractCoinbaseHeight
    (mkMsgTx 1 (mkTxIn (mkOutPoint 0 Go.MaxUint32)
                       (x05 :: x01 :: x00 :: x00 :: x00 :: x07 :: nil) 0 :: nil)
             nil 0)
  = Ok 1.
Proof.
  destruct (ExtractCoinbaseHeight_four_bytes
              (mkMsgTx 1 (mkTxIn (mkOutPoint 0 Go.MaxUint32)
                                 (x05 :: x01 :: x00 :: x00 :: x00 :: x07 :: nil) 0
                          :: nil) nil 0)) as (_ & _ & Hpush).
  destruct (Hpush _ _ x05 (x01 :: x00 :: x00 :: x00 :: x07 :: nil) eq_refl eq_refl
              ltac:(by_evaluation)
              ltac:(intros [Hlo _]; vm_compute in Hlo; apply Hlo; reflexivity))
    as [_ Hlong].
  rewrite Hlong by by_evaluation. reflexivity.
Defined.

Lemma IsCoinBaseTx_shape_witness :
  exists txIn ins height,
    TxIns coinbaseTx = txIn :: ins
    /\ isNullOutpoint (PreviousOutPoint txIn) = true
    /\ ExtractCoinbaseHeight coinbaseTx = Ok height
    /\ len (TxIns coinbaseTx) = (if MainNetEntangleHeight <=? height then 3 else 1).
Proof.
  destruct (IsCoinBaseTx_shape coinbaseTx testParams) as (_ & Hshape & _).
  apply Hshape. by_evaluation.
Defined.

End Witnesses.

End CoinbaseFacts.

Module AcceptFacts.
Section Facts.
Context `{TxScript} `{Encoding}.
Import Validate.

Lemma int64_add_no_wrap (a b : Z) :
  0 <= a < 2 ^ 63 -> 0 <= b < 2 ^ 63 -> 0 <= int64 (a + b) -> int64 (a + b) = a + b.
Proof.
  intros Ha Hb. unfold int64, wrapS. change (64 - 1) with 63.
  change (2 ^ 64) with (2 * 2 ^ 63).
  destruct (Z_lt_le_dec (a + b) (2 ^ 63)) as [Hs|Hl].
  - rewrite Z.mod_small by lia. lia.
  - replace ((a + b + 2 ^ 63) mod (2 * 2 ^ 63)) with (a + b - 2 ^ 63); [lia|].
    apply Z.mod_unique with (q := 1); lia.
Qed.

Lemma checkOutputValues_sound (outs : list TxOut) (total : Z) :
  0 <= MaxSatoshi < 2 ^ 63 -> 0 <= total <= MaxSatoshi ->
  checkOutputValues outs total = Ok tt ->
  Forall (fun txOut => 0 <= Value txOut <= MaxSatoshi) outs
  /\ total + fold_right Z.add 0 (map Value outs) <= MaxSatoshi
  /\ fold_left (fun t txOut => int64 (t + Value txOut)) outs total
     = total + fold_right Z.add 0 (map Value outs).
Proof.
  intros HM. revert total. induction outs as [|o rest IH]; intros total Ht; simpl.
  - intros _. simpl. repeat split; [constructor | lia | lia].
  - destruct (Z.ltb_spec (Value o) 0); [discriminate|].
    destruct (Z.ltb_spec MaxSatoshi (Value o)); [discriminate|].
    destruct (Z.ltb_spec (int64 (total + Value o)) 0); [discriminate|].
    destruct (Z.ltb_spec MaxSatoshi (int64 (total + Value o))); [discriminate|].
    assert (E : int64 (total + Value o) = total + Value o)
      by (apply int64_add_no_wrap; lia).
    rewrite E in *. intros Hrest.
    destruct (IH (total + Value o) ltac:(lia) Hrest) as (Hall & Hsum & Hfold).
    simpl.
    repeat split; [constructor; [lia | exact Hall] | lia | rewrite Hfold; lia].
Qed.

Lemma checkDuplicateInputs_sound (ins : list TxIn) (seen : gset OutPoint) :
  checkDuplicateInputs ins seen = Ok tt -> NoDup (map PreviousOutPoint ins).
Proof.
  intros Hok.
  destruct (decide (NoDup (map PreviousOutPoint ins))) as [Hnd|Hbad]; [exact Hnd|].
  rewrite SanityFacts.checkDuplicateInputs_repeated in Hok; [discriminate|].
  intros [Hnd _]. exact (Hbad Hnd).
Qed.

Lemma checkNoNullInputs_sound (ins : list TxIn) :
  checkNoNullInputs ins = Ok tt ->
  Forall (fun txIn => isNullOutpoint (PreviousOutPoint txIn) = false) ins.
Proof.
  induction ins as [|txIn rest IH]; simpl; [constructor|].
  destruct (isNullOutpoint (PreviousOutPoint txIn)) eqn:E; [discriminate|].
  intros Hr. constructor; [exact E | exact (IH Hr)].
Qed.

Lemma checkNoNullInputs_outcome (ins : list TxIn) :
  checkNoNullInputs ins = Ok tt
  \/ checkNoNullInputs ins = Err (ruleError ErrBadTxInput).
Proof.
  induction ins as [|txIn rest IH]; simpl; [left; reflexivity|].
  destruct (isNullOutpoint _); [right; reflexivity | exact IH].
Qed.

Lemma checkDuplicateInputs_outcome (ins : list TxIn) (seen : gset OutPoint) :
  checkDuplicateInputs ins seen = Ok tt
  \/ checkDuplicateInputs ins seen = Err (ruleError ErrDuplicateTxInputs).
Proof.
  revert seen. induction ins as [|txIn rest IH]; intros seen; simpl;
    [left; reflexivity|].
  destruct (decide _); [right; reflexivity | apply IH].
Qed.

Lemma IsCoinBase_no_panic (tx : MsgTx) :
  TxIns tx <> nil -> exists b, IsCoinBase tx = Ok b.
Proof.
  intros Hne. unfold IsCoinBase, IsCoinBaseTx, isCoinBaseAt, ExtractCoinbaseHeight.
  destruct (TxIns tx) as [|txIn ins]; [contradiction|].
  rewrite ConnectFacts.index_head. simpl.
  destruct (SignatureScript txIn) as [|b0 rest]; [eexists; reflexivity|].
  repeat match goal with
         | |- context [if ?c then _ else _] => destruct c
         end; eexists; reflexivity.
Qed.

Lemma len_zero_nil {A} (l : list A) : (len l =? 0) = false -> l <> nil.
Proof. intros E ->. discriminate. Qed.

(** X15. A transaction [CheckTransactionSanity] accepts has inputs and
    outputs, a size and a sigop count within their bounds, outputs
    between zero and [MaxSatoshi] whose true sum does not exceed
    [MaxSatoshi], inputs that spend pairwise different outpoints, and
    either a coinbase script of 2 to 100 bytes or no null input. *)
Theorem CheckTransactionSanity_accepts (tx : MsgTx)
    (magneticAnomalyActive : bool) (scriptFlags : Z) :
  0 <= MaxSatoshi < 2 ^ 63 ->
  CheckTransactionSanity tx magneticAnomalyActive scriptFlags = Ok tt ->
  TxIns tx <> nil /\ TxOuts tx <> nil
  /\ SerializeSize tx <= MaxTransactionSize
  /\ (magneticAnomalyActive = true -> MinTransactionSize <= SerializeSize tx)
  /\ CountSigOps tx scriptFlags <= MaxTransactionSigOps
  /\ Forall (fun txOut => 0 <= Value txOut <= MaxSatoshi) (TxOuts tx)
  /\ fold_right Z.add 0 (map Value (TxOuts tx)) <= MaxSatoshi
  /\ NoDup (map PreviousOutPoint (TxIns tx))
  /\ ((exists txIn ins, TxIns tx = txIn :: ins /\ IsCoinBase tx = Ok true
         /\ MinCoinbaseScriptLen <= len (SignatureScript txIn) <= MaxCoinbaseScriptLen)
      \/ (IsCoinBase tx = Ok false
          /\ Forall (fun txIn => isNullOutpoint (PreviousOutPoint txIn) = false)
               (TxIns tx))).
Proof.
  intros HM. unfold CheckTransactionSanity.
  destruct (len (TxIns tx) =? 0) eqn:Ei; [discriminate|].
  destruct (len (TxOuts tx) =? 0) eqn:Eo; [discriminate|].
  cbv zeta.
  destruct (Z.ltb_spec MaxTransactionSize (SerializeSize tx)); [discriminate|].
  destruct (magneticAnomalyActive && (SerializeSize tx <? MinTransactionSize)) eqn:Em;
    [discriminate|].
  destruct (Z.ltb_spec MaxTransactionSigOps (CountSigOps tx scriptFlags));
    [discriminate|].
  destruct (checkOutputValues (TxOuts tx) 0) as [[]| |] eqn:Ev; try discriminate.
  destruct (checkDuplicateInputs (TxIns tx) ∅) as [[]| |] eqn:Ed; try discriminate.
  cbn [Go.bind].
  destruct (checkOutputValues_sound _ 0 HM ltac:(lia) Ev) as (Hall & Hsum & _).
  pose proof (checkDuplicateInputs_sound _ _ Ed) as Hnd.
  destruct (IsCoinBase tx) as [[|]| |] eqn:Ec; try discriminate; cbn [Go.bind];
    intros Hlast;
    (split; [exact (len_zero_nil _ Ei)|]); (split; [exact (len_zero_nil _ Eo)|]);
    (split; [assumption|]);
    (split; [intros ->; simpl in Em; apply Z.ltb_ge in Em; exact Em|]);
    (split; [assumption|]); (split; [exact Hall|]);
    (split; [lia|]); (split; [exact Hnd|]).
  - left. destruct (TxIns tx) as [|txIn ins]; [discriminate|].
    rewrite ConnectFacts.index_head in Hlast.
    exists txIn, ins. split; [reflexivity|]. split; [reflexivity|].
    destruct (Z.ltb_spec (len (SignatureScript txIn)) MinCoinbaseScriptLen);
      [discriminate|].
    destruct (Z.ltb_spec MaxCoinbaseScriptLen (len (SignatureScript txIn)));
      [discriminate|]. lia.
  - right. split; [reflexivity|]. exact (checkNoNullInputs_sound _ Hlast).
Qed.

(** X16. [CheckTransactionSanity] never panics and never hands up a
    foreign error: it accepts, or it rejects with one of nine rule
    errors. *)
Theorem CheckTransactionSanity_rejects_by_rule (tx : MsgTx)
    (magneticAnomalyActive : bool) (scriptFlags : Z) :
  CheckTransactionSanity tx magneticAnomalyActive scriptFlags = Ok tt
  \/ exists c, In c (ErrNoTxInputs :: ErrNoTxOutputs :: ErrTxTooBig :: ErrTxTooSmall
                     :: ErrTxTooManySigOps :: ErrBadTxOutValue
                     :: ErrDuplicateTxInputs :: ErrBadCoinbaseScriptLen
                     :: ErrBadTxInput :: nil)
       /\ CheckTransactionSanity tx magneticAnomalyActive scriptFlags
          = Err (ruleError c).
Proof.
  unfold CheckTransactionSanity.
  destruct (len (TxIns tx) =? 0) eqn:Ei;
    [right; eexists; split; [|reflexivity]; simpl; tauto|].
  destruct (len (TxOuts tx) =? 0);
    [right; eexists; split; [|reflexivity]; simpl; tauto|].
  cbv zeta.
  destruct (_ <? _); [right; eexists; split; [|reflexivity]; simpl; tauto|].
  destruct (_ && _); [right; eexists; split; [|reflexivity]; simpl; tauto|].
  destruct (_ <? _); [right; eexists; split; [|reflexivity]; simpl; tauto|].
  destruct (SanityFacts.checkOutputValues_outcome (TxOuts tx) 0) as [-> | ->];
    [|right; eexists; split; [|reflexivity]; simpl; tauto].
  destruct (checkDuplicateInputs_outcome (TxIns tx) ∅) as [-> | ->];
    [|right; eexists; split; [|reflexivity]; simpl; tauto].
  cbn [Go.bind].
  destruct (IsCoinBase_no_panic tx (len_zero_nil _ Ei)) as [b ->]. cbn [Go.bind].
  destruct b.
  - destruct (TxIns tx) as [|txIn ins]; [discriminate|].
    rewrite ConnectFacts.index_head.
    destruct (_ || _); [right; eexists; split; [|reflexivity]; simpl; tauto|].
    left; reflexivity.
  - destruct (checkNoNullInputs_outcome (TxIns tx)) as [-> | ->];
      [left; reflexivity | right; eexists; split; [|reflexivity]; simpl; tauto].
Qed.

End Facts.
Section Witnesses.
Import Fixtures Samples Validate.
Existing Instances quietScript plainEncoding.

Lemma CheckTransactionSanity_accepts_witness :
  TxIns (spendTx 2 0) <> nil /\ TxOuts (spendTx 2 0) <> nil
  /\ SerializeSize (spendTx 2 0) <= MaxTransactionSize
  /\ (true = true -> MinTransactionSize <= SerializeSize (spendTx 2 0))
  /\ CountSigOps (spendTx 2 0) 0 <= MaxTransactionSigOps
  /\ Forall (fun txOut => 0 <= Value txOut <= MaxSatoshi) (TxOuts (spendTx 2 0))
  /\ fold_right Z.add 0 (map Value (TxOuts (spendTx 2 0))) <= MaxSatoshi
  /\ NoDup (map PreviousOutPoint (TxIns (spendTx 2 0)))
  /\ ((exists txIn ins,
          TxIns (spendTx 2 0) = txIn :: ins
          /\ IsCoinBase (spendTx 2 0) = Ok true
          /\ MinCoinbaseScriptLen <= len (SignatureScript txIn) <= MaxCoinbaseScriptLen)
      \/ (IsCoinBase (spendTx 2 0) = Ok false
          /\ Forall (fun txIn => isNullOutpoint (PreviousOutPoint txIn) = false)
               (TxIns (spendTx 2 0)))).
Proof.
  apply (CheckTransactionSanity_accepts (spendTx 2 0) true 0); by_evaluation.
Defined.

End Witnesses.

End AcceptFacts.

Module FeeFacts.
Section Facts.
Context `{TxScript} `{Encoding} `{CrossPkg} `{Chain}.
Import Validate Sigops Connect Subsidy.

Lemma sumInputs_sound (ins : list TxIn) (txHeight : Z) (view : UtxoViewpoint)
    (params : Params) (t0 T : Z) :
  0 <= MaxSatoshi < 2 ^ 63 -> 0 <= t0 <= MaxSatoshi ->
  sumInputs ins txHeight view params t0 = Ok T ->
  exists utxos,
    Forall2 (fun txIn utxo =>
               view !! PreviousOutPoint txIn = Some utxo
               /\ utxoIsSpent utxo = false
               /\ 0 <= utxoAmount utxo <= MaxSatoshi) ins utxos
    /\ T = t0 + fold_right Z.add 0 (map utxoAmount utxos)
    /\ T <= MaxSatoshi.
Proof.
  intros HM. revert t0. induction ins as [|txIn rest IH]; intros t0 Ht; simpl.
  - intros E; inversion E; subst. exists nil. simpl.
    repeat split; [constructor | lia | lia].
  - destruct (view !! PreviousOutPoint txIn) as [utxo|] eqn:El; [|discriminate].
    destruct (utxoIsSpent utxo) eqn:Es; [discriminate|].
    destruct (_ && _ && _); [discriminate|].
    destruct (Z.ltb_spec (utxoAmount utxo) 0); [discriminate|].
    destruct (Z.ltb_spec MaxSatoshi (utxoAmount utxo)); [discriminate|].
    destruct (Z.ltb_spec (int64 (t0 + utxoAmount utxo)) t0); [discriminate|].
    destruct (Z.ltb_spec MaxSatoshi (int64 (t0 + utxoAmount utxo))); [discriminate|].
    simpl orb. cbv iota.
    assert (E : int64 (t0 + utxoAmount utxo) = t0 + utxoAmount utxo)
      by (apply AcceptFacts.int64_add_no_wrap; lia).
    rewrite E in *. intros Hrest.
    destruct (IH (t0 + utxoAmount utxo) ltac:(lia) Hrest)
      as (utxos & Hall & HT & Hle).
    exists (utxo :: utxos). simpl.
    repeat split; [constructor; [repeat split; assumption || lia | exact Hall]
                  | lia | exact Hle].
Qed.

Lemma sumInputs_sumInputsFee (ins : list TxIn) (txHeight : Z)
    (view : UtxoViewpoint) (params : Params) (t0 T : Z) :
  sumInputs ins txHeight view params t0 = Ok T ->
  sumInputsFee ins view t0 = Ok T.
Proof.
  revert t0. induction ins as [|txIn rest IH]; intros t0; simpl; [trivial|].
  destruct (view !! PreviousOutPoint txIn) as [utxo|]; [|discriminate].
  destruct (utxoIsSpent utxo); [discriminate|].
  destruct (_ && _ && _); [discriminate|].
  destruct (utxoAmount utxo <? 0); [discriminate|].
  destruct (MaxSatoshi <? utxoAmount utxo); [discriminate|].
  destruct (_ || _); [discriminate|]. apply IH.
Qed.

Lemma checkMerge_not_coinbase (tx : MsgTx) (txHeight : Z) (view : UtxoViewpoint)
    (params : Params) :
  isCoinBaseInParam tx params = Ok false ->
  checkMergeTxInCoinbase tx txHeight view params = Ok (false, None).
Proof.
  intros E. unfold checkMergeTxInCoinbase. rewrite E. cbn [Go.bind].
  destruct (_ <=? _); reflexivity.
Qed.

Lemma checkMerge_coinbase (tx : MsgTx) (txHeight : Z) (view : UtxoViewpoint)
    (params : Params) (r : bool * option error) :
  isCoinBaseInParam tx params = Ok true ->
  checkMergeTxInCoinbase tx txHeight view params = Ok r -> fst r = true.
Proof.
  intros E. unfold checkMergeTxInCoinbase. rewrite E. cbn [Go.bind].
  destruct (_ <=? _); [intros R; inversion R; reflexivity|].
  destruct (checkPoolInputs _ _ _ _); cbn [Go.bind]; try discriminate.
  intros R; inversion R; reflexivity.
Qed.

Lemma inputs_fee_is_getFee (tx : MsgTx) (txHeight : Z)
    (view : UtxoViewpoint) (params : Params) (fee : Z) :
  CheckTransactionInputs tx txHeight view params = Ok fee ->
  getFee tx txHeight view params = Ok fee.
Proof.
  unfold CheckTransactionInputs, getFee.
  destruct (isCoinBaseInParam tx params) as [[|]| |] eqn:Ec.
  - destruct (checkMergeTxInCoinbase tx txHeight view params) as [[ok e]| |] eqn:Em;
      cbn [Go.bind]; try discriminate.
    pose proof (checkMerge_coinbase _ _ _ _ _ Ec Em) as Hok. simpl in Hok. subst ok.
    destruct e; [discriminate | trivial].
  - rewrite (checkMerge_not_coinbase _ _ _ _ Ec). cbn [Go.bind].
    destruct (sumInputs _ _ _ _ _) as [T| |] eqn:Es; cbn [Go.bind]; try discriminate.
    rewrite (sumInputs_sumInputsFee _ _ _ _ _ _ Es). cbn [Go.bind]. trivial.
  - unfold checkMergeTxInCoinbase. rewrite Ec. discriminate.
  - unfold checkMergeTxInCoinbase. rewrite Ec. discriminate.
Qed.

Lemma inputs_fee_bounds (tx : MsgTx) (txHeight : Z)
    (view : UtxoViewpoint) (params : Params) (fee : Z) :
  0 <= MaxSatoshi < 2 ^ 63 ->
  checkOutputValues (TxOuts tx) 0 = Ok tt ->
  CheckTransactionInputs tx txHeight view params = Ok fee ->
  0 <= fee <= MaxSatoshi
  /\ (isCoinBaseInParam tx params = Ok true -> fee = 0)
  /\ (isCoinBaseInParam tx params = Ok false ->
      exists utxos,
        Forall2 (fun txIn utxo =>
                   view !! PreviousOutPoint txIn = Some utxo
                   /\ utxoIsSpent utxo = false
                   /\ 0 <= utxoAmount utxo <= MaxSatoshi) (TxIns tx) utxos
        /\ fee = fold_right Z.add 0 (map utxoAmount utxos)
                 - fold_right Z.add 0 (map Value (TxOuts tx))).
Proof.
  intros HM Hv. unfold CheckTransactionInputs.
  destruct (AcceptFacts.checkOutputValues_sound _ 0 HM ltac:(lia) Hv)
    as (Hall & Hsum & Hfold).
  assert (Hpos : 0 <= fold_right Z.add 0 (map Value (TxOuts tx))).
  { clear -Hall. induction Hall; simpl; lia. }
  destruct (isCoinBaseInParam tx params) as [[|]| |] eqn:Ec.
  - destruct (checkMergeTxInCoinbase tx txHeight view params) as [[ok e]| |] eqn:Em;
      cbn [Go.bind]; try discriminate.
    pose proof (checkMerge_coinbase _ _ _ _ _ Ec Em) as Hok. simpl in Hok. subst ok.
    destruct e; [discriminate|]. intros E; inversion E; subst.
    repeat split; try lia. discriminate.
  - rewrite (checkMerge_not_coinbase _ _ _ _ Ec). cbn [Go.bind].
    destruct (sumInputs _ _ _ _ _) as [T| |] eqn:Es; cbn [Go.bind]; try discriminate.
    destruct (sumInputs_sound _ _ _ _ 0 _ HM ltac:(lia) Es)
      as (utxos & Hin & HT & Hle).
    unfold sumOutputs. rewrite Hfold, Z.add_0_l.
    destruct (Z.ltb_spec T (fold_right Z.add 0 (map Value (TxOuts tx))));
      [discriminate|].
    rewrite int64_small by (unfold is_int64; lia).
    intros E; inversion E; subst.
    split; [lia|]. split; [discriminate|].
    intros _. exists utxos. split; [exact Hin|]. lia.
  - unfold checkMergeTxInCoinbase. rewrite Ec. discriminate.
  - unfold checkMergeTxInCoinbase. rewrite Ec. discriminate.
Qed.



(** X17. Whenever [CheckTransactionInputs] returns a fee, [getFee]
    returns the same fee for the same transaction and view. *)
Theorem CheckTransactionInputs_getFee (tx : MsgTx) (txHeight : Z)
    (view : UtxoViewpoint) (params : Params) (fee : Z) :
  CheckTransactionInputs tx txHeight view params = Ok fee ->
  getFee tx txHeight view params = Ok fee.
Proof. exact (inputs_fee_is_getFee tx txHeight view params fee). Qed.

(** X18. For a transaction whose outputs passed the sanity check, the
    fee [CheckTransactionInputs] returns lies between zero and
    [MaxSatoshi]; it is zero for a coinbase, and otherwise every input
    is in the view, unspent, with an amount in range, and the fee is the
    true sum of the inputs minus the true sum of the outputs. *)
Theorem CheckTransactionInputs_fee_range (tx : MsgTx) (txHeight : Z)
    (view : UtxoViewpoint) (params : Params) (fee : Z) :
  0 <= MaxSatoshi < 2 ^ 63 ->
  checkOutputValues (TxOuts tx) 0 = Ok tt ->
  CheckTransactionInputs tx txHeight view params = Ok fee ->
  0 <= fee <= MaxSatoshi
  /\ (isCoinBaseInParam tx params = Ok true -> fee = 0)
  /\ (isCoinBaseInParam tx params = Ok false ->
      exists utxos,
        Forall2 (fun txIn utxo =>
                   view !! PreviousOutPoint txIn = Some utxo
                   /\ utxoIsSpent utxo = false
                   /\ 0 <= utxoAmount utxo <= MaxSatoshi) (TxIns tx) utxos
        /\ fee = fold_right Z.add 0 (map utxoAmount utxos)
                 - fold_right Z.add 0 (map Value (TxOuts tx))).
Proof. exact (inputs_fee_bounds tx txHeight view params fee). Qed.

End Facts.
Section Witnesses.
Import Fixtures Samples Validate Connect Subsidy.
Existing Instances quietScript plainEncoding noEntangle acceptingChain.


Lemma CheckTransactionInputs_getFee_witness :
  getFee (spendTx 2 0) 5 sampleView testParams = Ok 3.
Proof.
  apply (CheckTransactionInputs_getFee (spendTx 2 0) 5 sampleView testParams 3).
  by_evaluation.
Defined.

Lemma CheckTransactionInputs_fee_range_witness :
  0 <= 3 <= MaxSatoshi
  /\ (isCoinBaseInParam (spendTx 2 0) testParams = Ok true -> 3 = 0)
  /\ (isCoinBaseInParam (spendTx 2 0) testParams = Ok false ->
      exists utxos,
        Forall2 (fun txIn utxo =>
                   sampleView !! PreviousOutPoint txIn = Some utxo
                   /\ utxoIsSpent utxo = false
                   /\ 0 <= utxoAmount utxo <= MaxSatoshi) (TxIns (spendTx 2 0)) utxos
        /\ 3 = fold_right Z.add 0 (map utxoAmount utxos)
               - fold_right Z.add 0 (map Value (TxOuts (spendTx 2 0)))).
Proof.
  apply (CheckTransactionInputs_fee_range (spendTx 2 0) 5 sampleView testParams 3);
    by_evaluation.
Defined.

End Witnesses.

End FeeFacts.

Module InputFacts.
Section Facts.
Context `{TxScript} `{Encoding} `{CrossPkg} `{Chain}.
Import Validate Sigops Connect Subsidy.

Lemma int_range z : - 2 ^ 63 <= int z < 2 ^ 63.
Proof.
  unfold int, wrapS. change (64 - 1) with 63.
  pose proof (Z.mod_pos_bound (z + 2 ^ 63) (2 ^ 64) ltac:(lia)). lia.
Qed.

Lemma countP2SHInputs_sound (ins : list TxIn) (view : UtxoViewpoint)
    (flags total n : Z) :
  countP2SHInputs ins view flags total = Ok n ->
  total <= n
  /\ Forall (fun txIn => exists utxo, view !! PreviousOutPoint txIn = Some utxo
                                      /\ utxoIsSpent utxo = false) ins
  /\ (Forall (fun txIn => forall utxo, view !! PreviousOutPoint txIn = Some utxo ->
                                       IsPayToScriptHash (utxoPkScript utxo) = false)
        ins -> n = total).
Proof.
  revert total. induction ins as [|txIn rest IH]; intros total; simpl.
  - intros E; inversion E; subst. repeat split; [lia | constructor].
  - destruct (view !! PreviousOutPoint txIn) as [utxo|] eqn:El; [|discriminate].
    destruct (utxoIsSpent utxo) eqn:Es; [discriminate|].
    destruct (IsPayToScriptHash (utxoPkScript utxo)) eqn:Ep; simpl negb; cbv iota.
    + destruct (Z.ltb_spec
                  (int (total + GetPreciseSigOpCount (SignatureScript txIn)
                                   (utxoPkScript utxo) flags)) total);
        [discriminate|].
      intros Hrest. destruct (IH _ Hrest) as (Hle & Hall & _).
      repeat split; [lia | constructor; [exists utxo; split; assumption | exact Hall] |].
      intros Hno. pose proof (Forall_inv Hno utxo El) as Hhd.
      rewrite Hhd in Ep. discriminate.
    + intros Hrest. destruct (IH _ Hrest) as (Hle & Hall & Hsame).
      repeat split; [lia | constructor; [exists utxo; split; assumption | exact Hall] |].
      intros Hno. apply Hsame. exact (Forall_inv_tail Hno).
Qed.

(** X20. A count [CountP2SHSigOps] returns is not negative; it is zero
    for a coinbase; otherwise every input is in the view and unspent,
    and the count is zero when no input spends a pay-to-script-hash
    output. *)
Theorem CountP2SHSigOps_sound (tx : MsgTx) (isCoinBaseTx : bool)
    (utxoView : UtxoViewpoint) (scriptFlags n : Z) :
  CountP2SHSigOps tx isCoinBaseTx utxoView scriptFlags = Ok n ->
  0 <= n
  /\ (isCoinBaseTx = true -> n = 0)
  /\ (isCoinBaseTx = false ->
      Forall (fun txIn => exists utxo,
                  utxoView !! PreviousOutPoint txIn = Some utxo
                  /\ utxoIsSpent utxo = false) (TxIns tx)
      /\ (Forall (fun txIn => forall utxo,
                      utxoView !! PreviousOutPoint txIn = Some utxo ->
                      IsPayToScriptHash (utxoPkScript utxo) = false) (TxIns tx) ->
          n = 0)).
Proof.
  unfold CountP2SHSigOps. destruct isCoinBaseTx.
  - intros E; inversion E; subst. repeat split; try lia; discriminate.
  - intros E. destruct (countP2SHInputs_sound _ _ _ _ _ E) as (Hle & Hall & Hsame).
    repeat split; [lia | discriminate | exact Hall | exact Hsame].
Qed.

(** Two views that agree, at every outpoint, on whether an entry is
    there, whether it is spent and the height of its block. *)
Lemma checkPoolInputs_reads (ins : list TxIn) (i : Z) (v v' : UtxoViewpoint)
    (params : Params) :
  (forall o,
      option_map (fun u => (utxoIsSpent u, utxoBlockHeight u)) (v !! o)
      = option_map (fun u => (utxoIsSpent u, utxoBlockHeight u)) (v' !! o)) ->
  checkPoolInputs ins i v params = checkPoolInputs ins i v' params.
Proof.
  intros Hagree. revert i. induction ins as [|txIn rest IH]; intros i; simpl;
    [reflexivity|].
  destruct (i =? 0); [apply IH|].
  specialize (Hagree (PreviousOutPoint txIn)).
  destruct (v !! PreviousOutPoint txIn) as [u|],
           (v' !! PreviousOutPoint txIn) as [u'|]; simpl in Hagree;
    try discriminate; [|reflexivity].
  inversion Hagree as [[Hs Hh]]. rewrite Hs, Hh.
  destruct (utxoIsSpent u'); [reflexivity|].
  destruct (_ <? _); [reflexivity|].
  destruct (i <=? 2); [|apply IH].
  change (matchPoolFromUtxo u i params) with (matchPoolFromUtxo u' i params).
  destruct (matchPoolFromUtxo u' i params); [apply IH | reflexivity | reflexivity].
Qed.

(** X21. [checkMergeTxInCoinbase] reads of the view only whether an
    entry is there, whether it is spent and the height of its block:
    two views that agree on these give the same answer, whatever the
    amounts and scripts; up to the entangle height the view is not read
    at all. *)
Theorem checkMergeTxInCoinbase_reads (tx : MsgTx) (txHeight : Z)
    (v v' : UtxoViewpoint) (params : Params) :
  (forall o,
      option_map (fun u => (utxoIsSpent u, utxoBlockHeight u)) (v !! o)
      = option_map (fun u => (utxoIsSpent u, utxoBlockHeight u)) (v' !! o)) ->
  checkMergeTxInCoinbase tx txHeight v params
  = checkMergeTxInCoinbase tx txHeight v' params
  /\ (txHeight <= EntangleHeight params ->
      checkMergeTxInCoinbase tx txHeight v params
      = checkMergeTxInCoinbase tx txHeight ∅ params).
Proof.
  intros Hagree. unfold checkMergeTxInCoinbase. split.
  - rewrite (checkPoolInputs_reads _ 0 v v' params Hagree). reflexivity.
  - intros Hh. apply Z.leb_le in Hh. rewrite Hh. reflexivity.
Qed.

(** X22. Above the entangle height [checkBlockSubsidy] panics with an
    index out of range when the coinbase of the previous block has fewer
    than three outputs: the pool amounts are read from its outputs 1 and
    2 without a test of their number. *)
Theorem checkBlockSubsidy_short_previous_coinbase (block preBlock : Block)
    (txHeight : Z) (utxoView : UtxoViewpoint) (amountSubsidy : Z)
    (params : Params) (cb : MsgTx) (rest : list MsgTx) :
  EntangleHeight params < txHeight ->
  Transactions preBlock = cb :: rest ->
  len (TxOuts cb) < 3 ->
  checkBlockSubsidy block preBlock txHeight utxoView amountSubsidy params
  = Panic "index out of range".
Proof.
  intros Hh Hcb Hlen. unfold checkBlockSubsidy.
  destruct (Z.leb_spec txHeight (EntangleHeight params)); [lia|].
  cbv zeta. unfold summayOfTxsAndCheck, getKeepedAmountFormPreBlock,
    getPoolAmountFromPreBlock, blockTx0.
  rewrite Hcb.
  destruct (Z.leb_spec 4 (len (TxOuts cb))); [lia|]. cbn [Go.bind].
  destruct (TxOuts cb) as [|o0 [|o1 [|o2 more]]]; try reflexivity.
  unfold len in Hlen. simpl length in Hlen. lia.
Qed.

End Facts.
Section Witnesses.
Import Fixtures Samples Validate Sigops Connect Subsidy.
Existing Instances quietScript plainEncoding noEntangle.

Lemma CountP2SHSigOps_sound_witness :
  0 <= 0
  /\ (false = true -> 0 = 0)
  /\ (false = false ->
      Forall (fun txIn => exists utxo,
                  sampleView !! PreviousOutPoint txIn = Some utxo
                  /\ utxoIsSpent utxo = false) (TxIns (spendTx 2 0))
      /\ (Forall (fun txIn => forall utxo,
                      sampleView !! PreviousOutPoint txIn = Some utxo ->
                      IsPayToScriptHash (utxoPkScript utxo) = false)
            (TxIns (spendTx 2 0)) ->
          0 = 0)).
Proof.
  apply (CountP2SHSigOps_sound (spendTx 2 0) false sampleView 0 0). by_evaluation.
Defined.

Lemma checkMergeTxInCoinbase_reads_witness :
  checkMergeTxInCoinbase poolCoinbaseTx 101 sampleView testParams
  = checkMergeTxInCoinbase poolCoinbaseTx 101 blankedView testParams
  /\ (101 <= EntangleHeight testParams ->
      checkMergeTxInCoinbase poolCoinbaseTx 101 sampleView testParams
      = checkMergeTxInCoinbase poolCoinbaseTx 101 ∅ testParams).
Proof.
  apply (checkMergeTxInCoinbase_reads poolCoinbaseTx 101 sampleView blankedView
           testParams).
  intros o. unfold blankedView. rewrite lookup_fmap.
  destruct (sampleView !! o); reflexivity.
Defined.

Lemma checkBlockSubsidy_short_previous_coinbase_witness :
  checkBlockSubsidy poolNextBlock shortPrevBlock 101 ∅ 1000 testParams
  = Panic "index out of range".
Proof.
  apply (checkBlockSubsidy_short_previous_coinbase poolNextBlock shortPrevBlock
           101 ∅ 1000 testParams
           (mkMsgTx 1 (coinbaseIn :: nil)
              (mkTxOut 50 nil :: mkTxOut 5 nil :: nil) 0) nil);
    by_evaluation.
Defined.

End Witnesses.

End InputFacts.

Module AccountingFacts.
Section Facts.
Context `{TxScript} `{Encoding} `{CrossPkg} `{Chain}.
Import Validate Sigops Connect Subsidy Accounting IndexFacts.

Lemma summayCoinbaseOuts_cons (o : TxOut) (rest : list TxOut) (i a p1 p2 t : Z) :
  summayCoinbaseOuts (o :: rest) i (a, p1, p2, t)
  = summayCoinbaseOuts rest (i + 1)
      (if 3 <? i then int64 (a + Value o) else a,
       if i =? 1 then Value o else p1,
       if i =? 2 then Value o else p2,
       int64 (t + Value o)).
Proof. reflexivity. Qed.

Lemma summayCoinbaseOuts_nil (i : Z) (acc : Z * Z * Z * Z) :
  summayCoinbaseOuts nil i acc = acc.
Proof. reflexivity. Qed.

Lemma summayCoinbaseOuts_tail (outs : list TxOut) (i a p1 p2 t : Z) :
  3 < i ->
  summayCoinbaseOuts outs i (a, p1, p2, t)
  = (fold_left (fun t txout => int64 (t + Value txout)) outs a, p1, p2,
     fold_left (fun t txout => int64 (t + Value txout)) outs t).
Proof.
  revert i a t. induction outs as [|o rest IH]; intros i a t Hi; [reflexivity|].
  rewrite summayCoinbaseOuts_cons. cbn [fold_left].
  destruct (Z.ltb_spec 3 i); [|lia].
  destruct (Z.eqb_spec i 1); [lia|]. destruct (Z.eqb_spec i 2); [lia|].
  apply IH. lia.
Qed.

Lemma fold_left_four {A B} (f : A -> B -> A) (a : A) (x0 x1 x2 x3 : B)
    (l : list B) :
  fold_left f (x0 :: x1 :: x2 :: x3 :: l) a
  = fold_left f l (f (f (f (f a x0) x1) x2) x3).
Proof. reflexivity. Qed.

Lemma summayCoinbaseOuts_spec (outs : list TxOut) :
  summayCoinbaseOuts outs 0 (0, 0, 0, 0)
  = (fold_left (fun t txout => int64 (t + Value txout)) (skipn 4 outs) 0,
     match outs !! 1%nat with Some txout => Value txout | None => 0 end,
     match outs !! 2%nat with Some txout => Value txout | None => 0 end,
     sumOutputs outs).
Proof.
  unfold sumOutputs.
  assert (L0 : (3 <? 0) = false) by reflexivity.
  assert (L1 : (3 <? 1) = false) by reflexivity.
  assert (L2 : (3 <? 2) = false) by reflexivity.
  assert (L3 : (3 <? 3) = false) by reflexivity.
  assert (A1 : 0 + 1 = 1) by reflexivity.
  assert (A2 : 1 + 1 = 2) by reflexivity.
  assert (A3 : 2 + 1 = 3) by reflexivity.
  assert (A4 : 3 + 1 = 4) by reflexivity.
  assert (E01 : (0 =? 1) = false) by reflexivity.
  assert (E02 : (0 =? 2) = false) by reflexivity.
  assert (E11 : (1 =? 1) = true) by reflexivity.
  assert (E12 : (1 =? 2) = false) by reflexivity.
  assert (E21 : (2 =? 1) = false) by reflexivity.
  assert (E22 : (2 =? 2) = true) by reflexivity.
  assert (E31 : (3 =? 1) = false) by reflexivity.
  assert (E32 : (3 =? 2) = false) by reflexivity.
  destruct outs as [|o0 outs]; [reflexivity|].
  rewrite summayCoinbaseOuts_cons, L0, E01, E02, A1.
  destruct outs as [|o1 outs]; [reflexivity|].
  rewrite summayCoinbaseOuts_cons, L1, E11, E12, A2.
  destruct outs as [|o2 outs]; [reflexivity|].
  rewrite summayCoinbaseOuts_cons, L2, E21, E22, A3.
  destruct outs as [|o3 outs]; [reflexivity|].
  rewrite summayCoinbaseOuts_cons, L3, E31, E32, A4.
  rewrite summayCoinbaseOuts_tail by lia.
  rewrite fold_left_four.
  change (skipn 4 (o0 :: o1 :: o2 :: o3 :: outs)) with outs.
  change ((o0 :: o1 :: o2 :: o3 :: outs) !! 1%nat) with (Some o1).
  change ((o0 :: o1 :: o2 :: o3 :: outs) !! 2%nat) with (Some o2).
  reflexivity.
Qed.
(** X23. A block [checkBlockSubsidy] accepts above the entangle height
    carries on output 1 of its coinbase what output 1 of the previous
    coinbase held plus 19% of the subsidy minus the entangle outputs,
    and on output 2 what output 2 held plus 1% of the subsidy. *)
Theorem checkBlockSubsidy_pool_accounts (block preBlock : Block)
    (txHeight : Z) (utxoView : UtxoViewpoint) (amountSubsidy : Z)
    (params : Params) :
  EntangleHeight params < txHeight ->
  checkBlockSubsidy block preBlock txHeight utxoView amountSubsidy params = Ok tt ->
  exists cbPrev restPrev last1 last2,
    Transactions preBlock = cbPrev :: restPrev
    /\ TxOuts cbPrev !! 1%nat = Some last1
    /\ TxOuts cbPrev !! 2%nat = Some last2
    /\ coinbaseOutValue block 1
       = int64 (int64 (Value last1 + int64 (Z.quot (int64 (amountSubsidy * 19)) 100))
                - coinbaseEntangleOut block)
    /\ coinbaseOutValue block 2
       = int64 (int64 (Z.quot amountSubsidy 100) + Value last2).
Proof.
  intros Hh. unfold checkBlockSubsidy.
  destruct (Z.leb_spec txHeight (EntangleHeight params)); [lia|].
  destruct (Z.eqb_spec txHeight (EntangleHeight params)); [lia|].
  cbv zeta.
  set (r1 := int64 (Z.quot (int64 (amountSubsidy * 19)) 100)).
  set (r2 := int64 (Z.quot amountSubsidy 100)).
  set (r3 := int64 (int64 (amountSubsidy - r1) - r2)).
  destruct (summayOfTxsAndCheck preBlock block utxoView r3 r1 r2)
    as [summay| |] eqn:Es; cbn [Go.bind]; try discriminate.
  destruct (Z.eqb_spec (pool1Amount summay)
              (int64 (int64 (lastpool1Amount summay + r1) - EntangleAmount summay)))
    as [Hp1|]; [|discriminate].
  destruct (Z.eqb_spec (int64 (r2 + lastpool2Amount summay)) (pool2Amount summay))
    as [Hp2|]; [|discriminate].
  simpl negb. cbv iota. intros _.
  revert Es. unfold summayOfTxsAndCheck.
  destruct (getKeepedAmountFormPreBlock preBlock) as [keep| |]; cbn [Go.bind];
    try discriminate.
  unfold getPoolAmountFromPreBlock, blockTx0.
  destruct (Transactions preBlock) as [|cbPrev restPrev] eqn:Ep;
    [destruct (Tx0OfEmptyBlock preBlock); discriminate|].
  cbn [Go.bind].
  destruct (TxOuts cbPrev) as [|o0 [|last1 [|last2 more]]] eqn:Eo;
    try discriminate.
  pose proof (index_lookup (o0 :: last1 :: last2 :: more) 1 last1 eq_refl) as I1.
  pose proof (index_lookup (o0 :: last1 :: last2 :: more) 2 last2 eq_refl) as I2.
  change (Z.of_nat 1) with 1 in I1. change (Z.of_nat 2) with 2 in I2.
  rewrite I1. cbn [Go.bind]. rewrite I2.
  cbn [Go.bind].
  assert (Hcb :
    (let '(a, p1, p2, t, rest) :=
       match Transactions block with
       | nil => (0, 0, 0, 0, nil)
       | cb :: rest =>
           let '(a, p1, p2, t) := summayCoinbaseOuts (TxOuts cb) 0 (0, 0, 0, 0) in
           (a, p1, p2, t, rest)
       end in (a, p1, p2))
    = (coinbaseEntangleOut block, coinbaseOutValue block 1, coinbaseOutValue block 2)).
  { unfold coinbaseEntangleOut, coinbaseOutValue.
    destruct (Transactions block) as [|cb rest]; [reflexivity|].
    rewrite summayCoinbaseOuts_spec. reflexivity. }
  destruct (match Transactions block with
            | nil => (0, 0, 0, 0, nil)
            | cb :: rest =>
                let '(a, p1, p2, t) := summayCoinbaseOuts (TxOuts cb) 0 (0, 0, 0, 0) in
                (a, p1, p2, t, rest)
            end) as [[[[a p1] p2] t] rest].
  inversion Hcb as [[Ha Hq1 Hq2]]. clear Hcb.
  destruct (summayTxs rest utxoView emptyKeepedAmount keep 0 _ t)
    as [[[[inBlock ent] tin] tout]| |]; cbn [Go.bind]; try discriminate.
  destruct (Z.eqb_spec (coinbaseEntangleOut block) ent) as [He|]; [|discriminate].
  simpl negb. cbv iota. intros E. inversion E; subst summay. clear E.
  simpl in Hp1, Hp2.
  exists cbPrev, restPrev, last1, last2.
  split; [reflexivity|]. rewrite Eo.
  split; [reflexivity|]. split; [reflexivity|]. split.
  - rewrite Hp1, He. reflexivity.
  - rewrite <- Hp2. reflexivity.
Qed.

End Facts.
Section Witnesses.
Import Fixtures Samples Subsidy Accounting.
Existing Instances plainEncoding noEntangle.

Lemma checkBlockSubsidy_pool_accounts_witness :
  exists cbPrev restPrev last1 last2,
    Transactions poolPrevBlock = cbPrev :: restPrev
    /\ TxOuts cbPrev !! 1%nat = Some last1
    /\ TxOuts cbPrev !! 2%nat = Some last2
    /\ coinbaseOutValue poolNextBlock 1
       = int64 (int64 (Value last1 + int64 (Z.quot (int64 (1000 * 19)) 100))
                - coinbaseEntangleOut poolNextBlock)
    /\ coinbaseOutValue poolNextBlock 2
       = int64 (int64 (Z.quot 1000 100) + Value last2).
Proof.
  apply (checkBlockSubsidy_pool_accounts poolNextBlock poolPrevBlock
           101 ∅ 1000 testParams); by_evaluation.
Defined.

End Witnesses.

End AccountingFacts.

Module ForeignFacts.
Section Facts.
Context `{TxScript} `{Encoding} `{CrossPkg}.
Import Cross IndexFacts.

Lemma BigInt64_small (x : Z) : 0 <= x < 2 ^ 63 -> BigInt64 x = x.
Proof.
  intros Hx. unfold BigInt64, Big.lowWord. cbv zeta.
  destruct (Z.ltb_spec x 0); [lia|].
  rewrite Z.abs_eq by lia. rewrite Z.mod_small by lia.
  apply int64_small. unfold is_int64. lia.
Qed.

Lemma verifyForeignTx_sound
    (clients : list Client) (addrID : Z) (poolAddr : string) (maturity : Z)
    (eIndex eAddr ePool ePk eMaturity : string)
    (r : Z) (ExtTxHash : list byte) (Vout Amount height : Z) (pk : list byte) :
  verifyForeignTx clients addrID poolAddr maturity
    eIndex eAddr ePool ePk eMaturity r ExtTxHash Vout Amount height = Ok pk ->
  exists client tx out pub txIn0 count,
    clients !! Z.to_nat (r mod len clients) = Some client
    /\ GetRawTransaction client ExtTxHash = Ok tx
    /\ TxOuts tx !! Z.to_nat Vout = Some out
    /\ Value out = BigInt64 Amount
    /\ GetScriptClass (PkScript out) = 2
    /\ ExtractPkScriptPub (PkScript out) = Ok pub
    /\ NewLegacyAddressScriptHash pub addrID = Ok poolAddr
    /\ TxIns tx !! 0%nat = Some txIn0
    /\ ComputePk (SignatureScript txIn0) = Ok pk
    /\ GetBlockCount client = Ok count
    /\ maturity < int64 (count - int64 height)
    /\ (0 <= Amount < 2 ^ 63 -> Value out = Amount)
    /\ (0 <= height < 2 ^ 63 -> 0 <= count < 2 ^ 63 -> maturity < count - height).
Proof.
  unfold verifyForeignTx, Intn.
  destruct (len clients <=? 0); [discriminate|]. cbn [Go.bind].
  destruct (Go.index clients (r mod len clients)) as [client| |] eqn:Ec;
    cbn [Go.bind]; try discriminate.
  destruct (GetRawTransaction client ExtTxHash) as [tx| |] eqn:Et;
    cbn [Go.bind]; try discriminate.
  destruct (_ <? _); [discriminate|].
  destruct (Go.index (TxOuts tx) Vout) as [out| |] eqn:Eo;
    cbn [Go.bind]; try discriminate.
  destruct (Z.eqb_spec (Value out) (BigInt64 Amount)) as [Hv|]; [|discriminate].
  destruct (Z.eqb_spec (GetScriptClass (PkScript out)) 2) as [Hc|]; [|discriminate].
  simpl negb. cbv iota.
  destruct (ExtractPkScriptPub (PkScript out)) as [pub| |] eqn:Ep;
    cbn [Go.bind]; try discriminate.
  destruct (NewLegacyAddressScriptHash pub addrID) as [addr| |] eqn:Ea;
    try discriminate.
  destruct (String.eqb_spec addr poolAddr) as [->|]; [|discriminate].
  simpl negb. cbv iota.
  destruct (Go.index (TxIns tx) 0) as [txIn0| |] eqn:Ei; cbn [Go.bind];
    try discriminate.
  destruct (ComputePk (SignatureScript txIn0)) as [pk'| |] eqn:Ek; try discriminate.
  destruct (GetBlockCount client) as [count| |] eqn:Eb; cbn [Go.bind];
    try discriminate.
  destruct (Z.ltb_spec maturity (int64 (count - int64 height))) as [Hm|];
    [|discriminate].
  intros E; inversion E; subst pk'.
  exists client, tx, out, pub, txIn0, count.
  split; [exact (proj2 (index_Ok _ _ _ Ec))|].
  split; [exact Et|].
  split; [exact (proj2 (index_Ok _ _ _ Eo))|].
  split; [exact Hv|]. split; [exact Hc|]. split; [exact Ep|]. split; [exact Ea|].
  split; [exact (proj2 (index_Ok _ _ _ Ei))|].
  split; [exact Ek|]. split; [exact Eb|]. split; [exact Hm|].
  split.
  - intros Ha. rewrite Hv. apply BigInt64_small. exact Ha.
  - intros Hh Hcnt.
    rewrite (int64_small height) in Hm by (unfold is_int64; lia).
    rewrite int64_small in Hm by (unfold is_int64; lia).
    exact Hm.
Qed.

(** X25. A key [verifyDogeTx] or [verifyLtcTx] returns comes from a
    client of the list, for a transaction whose output [Vout] has script
    class 2, the pool address and the value [Amount.Int64()], and with
    [count - int64(height) > 14] in int64 arithmetic.  These are the
    requested amount and more than 14 blocks below the tip when the
    amount, the height and the count lie in [0, 2^63); beyond that the
    conversions wrap.  With an empty client list the verification
    panics. *)
Theorem foreign_verifiers_sound (ev : EntangleVerify) (r : Z)
    (ExtTxHash : list byte) (Vout Amount height : Z) (pk : list byte) :
  (verifyDogeTx ev r ExtTxHash Vout Amount height = Ok pk ->
   exists client tx out pub txIn0 count,
     DogeCoinRPC ev !! Z.to_nat (r mod len (DogeCoinRPC ev)) = Some client
     /\ GetRawTransaction client ExtTxHash = Ok tx
     /\ TxOuts tx !! Z.to_nat Vout = Some out
     /\ Value out = BigInt64 Amount
     /\ GetScriptClass (PkScript out) = 2
     /\ ExtractPkScriptPub (PkScript out) = Ok pub
     /\ NewLegacyAddressScriptHash pub 0x1e = Ok dogePoolAddr
     /\ TxIns tx !! 0%nat = Some txIn0
     /\ ComputePk (SignatureScript txIn0) = Ok pk
     /\ GetBlockCount client = Ok count
     /\ 14 < int64 (count - int64 height)
     /\ (0 <= Amount < 2 ^ 63 -> Value out = Amount)
     /\ (0 <= height < 2 ^ 63 -> 0 <= count < 2 ^ 63 -> 14 < count - height))
  /\ (verifyLtcTx ev r ExtTxHash Vout Amount height = Ok pk ->
      exists client tx out pub txIn0 count,
        LtcCoinRPC ev !! Z.to_nat (r mod len (LtcCoinRPC ev)) = Some client
        /\ GetRawTransaction client ExtTxHash = Ok tx
        /\ TxOuts tx !! Z.to_nat Vout = Some out
        /\ Value out = BigInt64 Amount
        /\ GetScriptClass (PkScript out) = 2
        /\ ExtractPkScriptPub (PkScript out) = Ok pub
        /\ NewLegacyAddressScriptHash pub 0x32 = Ok ltcPoolAddr
        /\ TxIns tx !! 0%nat = Some txIn0
        /\ ComputePk (SignatureScript txIn0) = Ok pk
        /\ GetBlockCount client = Ok count
        /\ 14 < int64 (count - int64 height)
        /\ (0 <= Amount < 2 ^ 63 -> Value out = Amount)
        /\ (0 <= height < 2 ^ 63 -> 0 <= count < 2 ^ 63 -> 14 < count - height))
  /\ (DogeCoinRPC ev = nil ->
      verifyTx ev r ExpandedTxEntangle_Doge ExtTxHash Vout height Amount
      = Panic "invalid argument to Intn")
  /\ (LtcCoinRPC ev = nil ->
      verifyTx ev r ExpandedTxEntangle_Ltc ExtTxHash Vout height Amount
      = Panic "invalid argument to Intn").
Proof.
  split; [|split; [|split]].
  - intros Hok. exact (verifyForeignTx_sound _ _ _ _ _ _ _ _ _ _ _ _ _ _ _ Hok).
  - intros Hok. exact (verifyForeignTx_sound _ _ _ _ _ _ _ _ _ _ _ _ _ _ _ Hok).
  - intros Hnil. unfold verifyTx, verifyDogeTx, verifyForeignTx.
    rewrite Hnil. reflexivity.
  - intros Hnil. unfold verifyTx, verifyLtcTx, verifyForeignTx.
    rewrite Hnil. reflexivity.
Qed.

(** Items of a type other than Doge and Ltc pass without a client. *)
Lemma verifyItems_unknown_types (ev : EntangleVerify) (draws : nat -> Z) (k : nat)
    (einfos : list (Z * EntangleTxInfo)) (pairs : list TuplePubIndex) :
  Forall (fun iv => ExTxType (snd iv) <> ExpandedTxEntangle_Doge
                    /\ ExTxType (snd iv) <> ExpandedTxEntangle_Ltc) einfos ->
  verifyItems ev draws k einfos pairs
  = Ok (pairs ++ map (fun iv => mkTuplePubIndex (ExTxType (snd iv)) (fst iv) nil)
                     einfos).
Proof.
  revert k pairs. induction einfos as [|[i v] rest IH]; intros k pairs Hall; simpl.
  - rewrite app_nil_r. reflexivity.
  - pose proof (Forall_inv Hall) as [Hd Hl]. simpl in Hd, Hl.
    unfold verifyTx.
    destruct (Z.eqb_spec (ExTxType v) ExpandedTxEntangle_Doge); [contradiction|].
    destruct (Z.eqb_spec (ExTxType v) ExpandedTxEntangle_Ltc); [contradiction|].
    rewrite (IH _ _ (Forall_inv_tail Hall)), <- app_assoc. reflexivity.
Qed.

Lemma verifyItems_mirror (ev : EntangleVerify) (draws : nat -> Z) (k : nat)
    (einfos : list (Z * EntangleTxInfo)) (pairs0 pairs : list TuplePubIndex) :
  verifyItems ev draws k einfos pairs0 = Ok pairs ->
  exists more,
    pairs = pairs0 ++ more
    /\ Forall2 (fun iv p =>
                  EType p = ExTxType (snd iv) /\ TIndex p = fst iv
                  /\ exists j,
                      verifyTx ev (draws j) (ExTxType (snd iv)) (ExtTxHash (snd iv))
                        (Index (snd iv)) (Height (snd iv)) (Amount (snd iv))
                      = Ok (Pub p)) einfos more.
Proof.
  revert k pairs0. induction einfos as [|[i v] rest IH]; intros k pairs0; simpl.
  - intros E; inversion E; subst. exists nil. rewrite app_nil_r.
    split; [reflexivity | constructor].
  - destruct (verifyTx ev (draws k) _ _ _ _ _) as [pub| |] eqn:Ev; try discriminate.
    intros Hrest. destruct (IH _ _ Hrest) as (more & -> & Hall).
    exists (mkTuplePubIndex (ExTxType v) i pub :: more).
    rewrite <- app_assoc. split; [reflexivity|].
    constructor; [|exact Hall]. simpl.
    repeat split. exists k. exact Ev.
Qed.

(** X24. [VerifyEntangleTx] rejects a transaction without entangle
    items; the pairs it returns mirror the items in order, type and
    index, each with the key of its verification, and no item was in the
    cache; items of a type other than Doge and Ltc are accepted with an
    empty key, without any client. *)
Theorem VerifyEntangleTx_pairs (ev : EntangleVerify) (draws : nat -> Z)
    (tx : MsgTx) :
  (IsEntangleTx tx = None ->
   VerifyEntangleTx ev draws tx = Err (errorsNew "not entangle tx"))
  /\ (forall pairs, VerifyEntangleTx ev draws tx = Ok pairs ->
        exists einfos,
          IsEntangleTx tx = Some einfos
          /\ Forall2 (fun iv p =>
                        EType p = ExTxType (snd iv) /\ TIndex p = fst iv
                        /\ exists j,
                            verifyTx ev (draws j) (ExTxType (snd iv))
                              (ExtTxHash (snd iv)) (Index (snd iv))
                              (Height (snd iv)) (Amount (snd iv))
                            = Ok (Pub p)) einfos pairs
          /\ forall fetch, Cache ev = Some fetch ->
               Forall (fun iv => fetch (snd iv) = false) einfos)
  /\ (forall einfos, IsEntangleTx tx = Some einfos -> Cache ev = None ->
        Forall (fun iv => ExTxType (snd iv) <> ExpandedTxEntangle_Doge
                          /\ ExTxType (snd iv) <> ExpandedTxEntangle_Ltc) einfos ->
        VerifyEntangleTx ev draws tx
        = Ok (map (fun iv => mkTuplePubIndex (ExTxType (snd iv)) (fst iv) nil)
                  einfos)).
Proof.
  unfold VerifyEntangleTx. split; [|split].
  - intros ->. reflexivity.
  - intros pairs. destruct (IsEntangleTx tx) as [einfos|]; [|discriminate].
    destruct (Cache ev) as [fetch|] eqn:Ecache.
    + destruct (checkRepeat fetch tx einfos 0) as [amount| |] eqn:Er;
        cbn [Go.bind]; try discriminate.
      intros Hit. destruct (verifyItems_mirror _ _ _ _ _ _ Hit) as (more & -> & Hall).
      exists einfos. split; [reflexivity|]. split; [exact Hall|].
      intros f Ef. inversion Ef; subst f. clear -Er.
      revert Er. generalize 0 at 1. induction einfos as [|[i v] rest IH];
        intros a; simpl; [constructor|].
      destruct (fetch v) eqn:Efv; [discriminate|].
      destruct (Go.index (TxOuts tx) i); cbn [Go.bind]; try discriminate.
      intros Hr. constructor; [exact Efv | exact (IH _ Hr)].
    + cbn [Go.bind]. intros Hit.
      destruct (verifyItems_mirror _ _ _ _ _ _ Hit) as (more & -> & Hall).
      exists einfos. split; [reflexivity|]. split; [exact Hall|]. discriminate.
  - intros einfos -> -> Hall. cbn [Go.bind].
    rewrite (verifyItems_unknown_types _ _ _ _ _ Hall). reflexivity.
Qed.

End Facts.
Section Witnesses.
Import Fixtures Samples Cross.
Existing Instances quietScript plainEncoding lockTimeEntangle.

Lemma foreign_verifiers_sound_witness :
  exists client tx out pub txIn0 count,
    DogeCoinRPC testVerify !! Z.to_nat (0 mod len (DogeCoinRPC testVerify))
    = Some client
    /\ GetRawTransaction client nil = Ok tx
    /\ TxOuts tx !! Z.to_nat 0 = Some out
    /\ Value out = BigInt64 5
    /\ GetScriptClass (PkScript out) = 2
    /\ ExtractPkScriptPub (PkScript out) = Ok pub
    /\ NewLegacyAddressScriptHash pub 0x1e = Ok dogePoolAddr
    /\ TxIns tx !! 0%nat = Some txIn0
    /\ ComputePk (SignatureScript txIn0) = Ok nil
    /\ GetBlockCount client = Ok count
    /\ 14 < int64 (count - int64 10)
    /\ (0 <= 5 < 2 ^ 63 -> Value out = 5)
    /\ (0 <= 10 < 2 ^ 63 -> 0 <= count < 2 ^ 63 -> 14 < count - 10).
Proof.
  destruct (foreign_verifiers_sound testVerify 0 nil 0 5 10 nil) as (Hdoge & _).
  apply Hdoge. by_evaluation.
Defined.

(** Beyond the int64 range the conversions wrap: an amount of 2^64 + 5
    is met by an output of 5 units, and a height of 2^64 - 1 counts as
    the block before the first. *)
Lemma verifyDogeTx_wraps :
  verifyDogeTx testVerify 0 nil 0 (2 ^ 64 + 5) (2 ^ 64 - 1) = Ok nil
  /\ Value (mkTxOut 5 nil) <> 2 ^ 64 + 5.
Proof. by_evaluation. Qed.

Lemma VerifyEntangleTx_pairs_witness :
  exists einfos,
    IsEntangleTx (entangleTx 10) = Some einfos
    /\ Forall2 (fun iv p =>
                  EType p = ExTxType (snd iv) /\ TIndex p = fst iv
                  /\ exists j : nat,
                      verifyTx testVerify 0 (ExTxType (snd iv))
                        (ExtTxHash (snd iv)) (Index (snd iv))
                        (Height (snd iv)) (Amount (snd iv))
                      = Ok (Pub p)) einfos (mkTuplePubIndex 240 0 nil :: nil)
    /\ forall fetch, Cache testVerify = Some fetch ->
         Forall (fun iv => fetch (snd iv) = false) einfos.
Proof.
  destruct (VerifyEntangleTx_pairs testVerify (fun _ => 0) (entangleTx 10))
    as (_ & Hpairs & _).
  apply Hpairs. by_evaluation.
Defined.

End Witnesses.

End ForeignFacts.

Module BlockFacts.
Section Facts.
Context `{TxScript} `{Encoding} `{CrossPkg} `{Chain}.
Import Validate Sigops Connect Subsidy.

Lemma checkBlockEntangleLoop_verifies (draws : nat -> nat -> Z) (k0 : nat)
    (txs : list MsgTx) :
  checkBlockEntangleLoop draws k0 txs 0 = Ok tt
  <-> forall k tx, txs !! k = Some tx -> IsEntangleTx tx <> None ->
        exists pairs,
          Cross.VerifyEntangleTx entangleVerify (draws (k0 + k)%nat) tx = Ok pairs.
Proof.
  revert k0. induction txs as [|tx rest IH]; intros k0; simpl.
  - split; [intros _ k tx Hk; destruct k; discriminate | reflexivity].
  - destruct (IsEntangleTx tx) as [einfos|] eqn:Ee.
    + pose proof (EntangleFacts.maxEntangleHeight_ge einfos 0) as Hmax.
      destruct (Z.ltb_spec (maxEntangleHeight einfos 0) 0) as [|_]; [lia|].
      unfold checkEntangleTx.
      destruct (Cross.VerifyEntangleTx entangleVerify (draws k0) tx)
        as [pairs| |] eqn:Ev; cbn [Go.bind].
      * rewrite IH. split.
        -- intros Hrest [|k] tx' Hk Hent.
           ++ inversion Hk; subst tx'. rewrite Nat.add_0_r. exists pairs. exact Ev.
           ++ replace (k0 + S k)%nat with (S k0 + k)%nat by lia.
              exact (Hrest k tx' Hk Hent).
        -- intros Hall k tx' Hk Hent.
           replace (S k0 + k)%nat with (k0 + S k)%nat by lia.
           exact (Hall (S k) tx' Hk Hent).
      * split; [discriminate|]. intros Hall.
        destruct (Hall 0%nat tx eq_refl ltac:(rewrite Ee; discriminate)) as [pairs Hp].
        rewrite Nat.add_0_r, Ev in Hp. discriminate.
      * split; [discriminate|]. intros Hall.
        destruct (Hall 0%nat tx eq_refl ltac:(rewrite Ee; discriminate)) as [pairs Hp].
        rewrite Nat.add_0_r, Ev in Hp. discriminate.
    + rewrite IH. split.
      * intros Hrest [|k] tx' Hk Hent.
        -- inversion Hk; subst tx'. contradiction.
        -- replace (k0 + S k)%nat with (S k0 + k)%nat by lia.
           exact (Hrest k tx' Hk Hent).
      * intros Hall k tx' Hk Hent.
        replace (S k0 + k)%nat with (k0 + S k)%nat by lia.
        exact (Hall (S k) tx' Hk Hent).
Qed.

(** X26. [CheckBlockEntangle] accepts a block exactly when
    [VerifyEntangleTx] accepts every transaction of it that carries
    entangle items. *)
Theorem CheckBlockEntangle_verifies (draws : nat -> nat -> Z) (block : Block) :
  CheckBlockEntangle draws block = Ok tt
  <-> forall k tx, Transactions block !! k = Some tx -> IsEntangleTx tx <> None ->
        exists pairs,
          Cross.VerifyEntangleTx entangleVerify (draws k) tx = Ok pairs.
Proof.
  unfold CheckBlockEntangle. rewrite checkBlockEntangleLoop_verifies. reflexivity.
Qed.

Lemma feesLoop_exact (txs : list MsgTx) (height : Z) (view : UtxoViewpoint)
    (total0 total : Z) :
  0 <= MaxSatoshi < 2 ^ 63 -> 0 <= total0 < 2 ^ 63 ->
  Forall (fun tx => checkOutputValues (TxOuts tx) 0 = Ok tt) txs ->
  feesLoop txs height view total0 = Ok total ->
  exists fees,
    Forall2 (fun tx fee =>
               CheckTransactionInputs tx height view chainParams = Ok fee
               /\ 0 <= fee <= MaxSatoshi) txs fees
    /\ total = total0 + fold_right Z.add 0 fees
    /\ total < 2 ^ 63.
Proof.
  intros HM. revert total0. induction txs as [|tx rest IH]; intros total0 Ht Hsane;
    simpl.
  - intros E; inversion E; subst. exists nil. simpl.
    repeat split; [constructor | lia | lia].
  - destruct (CheckTransactionInputs tx height view chainParams) as [fee| |] eqn:Ef;
      cbn [Go.bind]; try discriminate.
    destruct (FeeFacts.inputs_fee_bounds _ _ _ _ _ HM
                (Forall_inv Hsane) Ef) as (Hfee & _).
    destruct (Z.ltb_spec (int64 (total0 + fee)) total0); [discriminate|].
    assert (E : int64 (total0 + fee) = total0 + fee)
      by (apply AcceptFacts.int64_add_no_wrap; lia).
    assert (Hlt : total0 + fee < 2 ^ 63).
    { rewrite <- E. unfold int64, wrapS. change (64 - 1) with 63.
      pose proof (Z.mod_pos_bound (total0 + fee + 2 ^ 63) (2 ^ 64) ltac:(lia)). lia. }
    rewrite E. intros Hrest.
    destruct (IH (total0 + fee) ltac:(lia) (Forall_inv_tail Hsane) Hrest)
      as (fees & Hall & Htot & Hb).
    exists (fee :: fees). simpl.
    split; [|split; [lia | exact Hb]].
    constructor; [split; [exact Ef | exact Hfee] | exact Hall].
Qed.

(** X27. When every transaction's outputs passed the sanity check, the
    total the fee loop returns is the true sum of the fees of the
    transactions, each between zero and [MaxSatoshi], and fits an
    int64. *)
Theorem feesLoop_total (block : Block) (height : Z) (view : UtxoViewpoint)
    (total : Z) :
  0 <= MaxSatoshi < 2 ^ 63 ->
  Forall (fun tx => checkOutputValues (TxOuts tx) 0 = Ok tt) (Transactions block) ->
  feesLoop (Transactions block) height view 0 = Ok total ->
  exists fees,
    Forall2 (fun tx fee =>
               CheckTransactionInputs tx height view chainParams = Ok fee
               /\ 0 <= fee <= MaxSatoshi) (Transactions block) fees
    /\ total = fold_right Z.add 0 fees
    /\ 0 <= total < 2 ^ 63.
Proof.
  intros HM Hsane Hf.
  destruct (feesLoop_exact _ _ _ 0 _ HM ltac:(lia) Hsane Hf) as (fees & Hall & Ht & Hb).
  exists fees. split; [exact Hall|]. split; [lia|]. split; [|exact Hb].
  rewrite Ht. clear -Hall. induction Hall as [|? ? ? ? [_ ?] ? ?]; simpl; lia.
Qed.

End Facts.
Section Witnesses.
Import Fixtures Samples Validate Connect Subsidy.
Existing Instances quietScript plainEncoding acceptingChain.

Lemma CheckBlockEntangle_verifies_witness :
  exists pairs,
    @Cross.VerifyEntangleTx quietScript plainEncoding lockTimeEntangle
      (@entangleVerify acceptingChain) (fun _ => 0) (entangleTx 5)
    = Ok pairs.
Proof.
  assert (Hok : @CheckBlockEntangle quietScript plainEncoding lockTimeEntangle
                  acceptingChain (fun _ _ => 0) descendingBlock = Ok tt)
    by (vm_compute; reflexivity).
  assert (Hent : @IsEntangleTx lockTimeEntangle (entangleTx 5) <> None)
    by discriminate.
  exact (proj1 (@CheckBlockEntangle_verifies quietScript plainEncoding
                  lockTimeEntangle acceptingChain (fun _ _ => 0) descendingBlock)
               Hok 1%nat (entangleTx 5) eq_refl Hent).
Defined.

Lemma feesLoop_total_witness :
  exists fees,
    Forall2 (fun tx fee =>
               @CheckTransactionInputs _ _ tx 5 sampleView chainParams = Ok fee
               /\ 0 <= fee <= MaxSatoshi) (Transactions spendsBlock) fees
    /\ 6 = fold_right Z.add 0 fees
    /\ 0 <= 6 < 2 ^ 63.
Proof.
  apply (feesLoop_total spendsBlock 5 sampleView 6).
  - by_evaluation.
  - repeat constructor.
  - by_evaluation.
Defined.

End Witnesses.

End BlockFacts.

Module BlockSanityFacts.
Section Facts.
Context `{TxScript} `{Encoding} `{Seal} `{BlockEnv}.
Import Validate BlockSanity IndexFacts.

(** X28. [checkBlockHeaderSanity] accepts a header exactly when its
    proof of work is accepted, its timestamp has whole seconds, is at
    most 10 seconds after now and at most two hours after the adjusted
    time, and it is not the case that [BlockByHash] failed, yet returned
    a block with a later timestamp, after the start of the deployment. *)
Theorem checkBlockHeaderSanity_accepts (header : BlockHeader)
    (powLimit flags : Z) :
  checkBlockHeaderSanity header powLimit flags = Ok tt
  <-> Pow.checkProofOfWork header powLimit flags = Ok tt
      /\ timestampNanos header = 0
      /\ headerTime header <= timeNow + 10 * second
      /\ headerTime header <= AdjustedTime + 7200 * second
      /\ ~ (snd (BlockByHash (PrevBlock header)) <> None
            /\ int64 DeploymentSEQStartTime < Timestamp header
            /\ exists p, fst (BlockByHash (PrevBlock header)) = Some p
                         /\ headerTime header < headerTime (Header p)).
Proof.
  unfold checkBlockHeaderSanity, allowedFutureBlockTime.
  change MaxTimeOffsetSeconds with 7200.
  destruct (Pow.checkProofOfWork header powLimit flags) as [[]| |];
    cbn [Go.bind]; try (split; [discriminate | intros [E _]; discriminate]).
  destruct (Z.eqb_spec (headerTime header) (Timestamp header * second)) as [Hw|Hw];
    simpl negb; cbv iota;
    [|split; [discriminate|]; intros (_ & Hn & _); exfalso; apply Hw;
      unfold headerTime; lia].
  assert (Hn : timestampNanos header = 0) by (unfold headerTime in Hw; lia).
  destruct (Z.ltb_spec (timeNow + 10 * second) (headerTime header));
    [split; [discriminate|]; intros (_ & _ & Hle & _); lia|].
  destruct (BlockByHash (PrevBlock header)) as [prevblock err]. simpl fst. simpl snd.
  destruct err as [e|]; simpl andb.
  - destruct (Z.ltb_spec (int64 DeploymentSEQStartTime) (Timestamp header));
      simpl andb.
    + destruct prevblock as [p|].
      * destruct (Z.ltb_spec (headerTime header) (headerTime (Header p))).
        -- split; [discriminate|]. intros (_ & _ & _ & _ & Hno). exfalso. apply Hno.
           split; [discriminate|]. split; [assumption|]. exists p. split; trivial.
        -- destruct (Z.ltb_spec (AdjustedTime + 7200 * second) (headerTime header)).
           ++ split; [discriminate|]. intros (_ & _ & _ & Hle & _). lia.
           ++ split; [|reflexivity]. intros _. repeat split; try assumption.
              intros (_ & _ & q & Eq & Hq). inversion Eq; subst q. lia.
      * destruct (Z.ltb_spec (AdjustedTime + 7200 * second) (headerTime header)).
        -- split; [discriminate|]. intros (_ & _ & _ & Hle & _). lia.
        -- split; [|reflexivity]. intros _. repeat split; try assumption.
           intros (_ & _ & q & Eq & _). discriminate.
    + destruct (Z.ltb_spec (AdjustedTime + 7200 * second) (headerTime header)).
      * split; [discriminate|]. intros (_ & _ & _ & Hle & _). lia.
      * split; [|reflexivity]. intros _. repeat split; try assumption.
        intros (_ & Hs & _). lia.
  - destruct (Z.ltb_spec (AdjustedTime + 7200 * second) (headerTime header)).
    + split; [discriminate|]. intros (_ & _ & _ & Hle & _). lia.
    + split; [|reflexivity]. intros _. repeat split; try assumption.
      intros (Hs & _). apply Hs. reflexivity.
Qed.

Lemma checkNoMoreCoinbases_sound (txs : list MsgTx) :
  checkNoMoreCoinbases txs = Ok tt ->
  Forall (fun tx => IsCoinBase tx = Ok false) txs.
Proof.
  induction txs as [|tx rest IH]; simpl; [constructor|].
  destruct (IsCoinBase tx) as [[|]| |] eqn:Ec; cbn [Go.bind]; try discriminate.
  intros Hr. constructor; [exact Ec | exact (IH Hr)].
Qed.

Lemma checkDuplicateTxs_sound (txs : list MsgTx) (seen : gset Hash) :
  checkDuplicateTxs txs seen = Ok tt ->
  NoDup (map TxHash txs) /\ forall tx, In tx txs -> TxHash tx ∉ seen.
Proof.
  revert seen. induction txs as [|tx rest IH]; intros seen; simpl.
  - intros _. split; [constructor | intros ? []].
  - destruct (decide (TxHash tx ∈ seen)) as [|Hout]; [discriminate|].
    intros Hr. destruct (IH _ Hr) as [Hnd Hfresh]. split.
    + apply NoDup_cons. split; [|exact Hnd].
      intros Hin. apply list_elem_of_In, in_map_iff in Hin as (tx' & Eh & Hin').
      apply (Hfresh tx' Hin'). rewrite Eh.
      apply elem_of_union. left. apply elem_of_singleton. reflexivity.
    + intros tx' [<-|Hin]; [exact Hout|].
      intros Hs. apply (Hfresh tx' Hin). apply elem_of_union. right. exact Hs.
Qed.

Lemma checkTransactions_sound (txs : list MsgTx) (i : nat) (last : option Hash)
    (magneticAnomaly : bool) (scriptFlags : Z) :
  checkTransactions txs (Z.of_nat i) last magneticAnomaly scriptFlags = Ok tt ->
  Forall (fun tx => CheckTransactionSanity tx magneticAnomaly scriptFlags = Ok tt) txs
  /\ (magneticAnomaly = true ->
      (forall l b, (1 < i)%nat -> last = Some l -> txs !! 0%nat = Some b ->
                   HashCompare l (TxHash b) < 0)
      /\ (forall k a b, txs !! k = Some a -> txs !! S k = Some b ->
                        (1 <= i + k)%nat ->
                        HashCompare (TxHash a) (TxHash b) < 0)).
Proof.
  revert i last. induction txs as [|tx rest IH]; intros i last; simpl.
  - intros _. split; [constructor|]. intros _. split; intros; discriminate.
  - destruct (magneticAnomaly && (1 <? Z.of_nat i)) eqn:Eg.
    + destruct last as [l|]; cbn [Go.bind]; [|discriminate].
      destruct (Z.leb_spec 0 (HashCompare l (TxHash tx))); [discriminate|].
      destruct (CheckTransactionSanity tx magneticAnomaly scriptFlags) as [[]| |] eqn:Es;
        cbn [Go.bind]; try discriminate.
      replace (Z.of_nat i + 1) with (Z.of_nat (S i)) by lia.
      intros Hr. destruct (IH _ _ Hr) as [Hall Hord].
      split; [constructor; assumption|].
      intros Hma. destruct (Hord Hma) as [Hfirst Hpairs]. split.
      * intros l' b _ El Eb. inversion El; inversion Eb; subst. assumption.
      * intros [|k] a b Ea Eb Hk.
        -- inversion Ea; subst a. apply andb_true_iff in Eg as [_ Hi].
           apply Z.ltb_lt in Hi.
           apply (Hfirst (TxHash tx) b); [lia | reflexivity | exact Eb].
        -- apply (Hpairs k a b Ea Eb). lia.
    + cbn [Go.bind].
      destruct (CheckTransactionSanity tx magneticAnomaly scriptFlags) as [[]| |] eqn:Es;
        cbn [Go.bind]; try discriminate.
      replace (Z.of_nat i + 1) with (Z.of_nat (S i)) by lia.
      intros Hr. destruct (IH _ _ Hr) as [Hall Hord].
      split; [constructor; assumption|].
      intros Hma. destruct (Hord Hma) as [Hfirst Hpairs]. subst magneticAnomaly.
      simpl in Eg. apply Z.ltb_ge in Eg. split.
      * intros l' b Hi. lia.
      * intros [|k] a b Ea Eb Hk.
        -- inversion Ea; subst a.
           apply (Hfirst (TxHash tx) b); [lia | reflexivity | exact Eb].
        -- apply (Hpairs k a b Ea Eb). lia.
Qed.

(** X29. A block [checkBlockSanity] accepts has a sane header, a
    coinbase first and no other coinbase, transactions that all pass
    [CheckTransactionSanity], under the magnetic anomaly flag hashes
    that increase from the second transaction on, the merkle root the
    header names, and no two transactions of the same hash. *)
Theorem checkBlockSanity_accepts (block : Block) (powLimit flags : Z) :
  checkBlockSanity block powLimit flags = Ok tt ->
  checkBlockHeaderSanity (Header block) powLimit flags = Ok tt
  /\ (exists cb rest,
        Transactions block = cb :: rest
        /\ IsCoinBase cb = Ok true
        /\ Forall (fun tx => IsCoinBase tx = Ok false) rest)
  /\ Forall (fun tx =>
               CheckTransactionSanity tx (HasFlag flags BFMagneticAnomaly)
                 (sanityScriptFlags (HasFlag flags BFMagneticAnomaly)) = Ok tt)
       (Transactions block)
  /\ (HasFlag flags BFMagneticAnomaly = true ->
      forall k a b, (1 <= k)%nat ->
        Transactions block !! k = Some a -> Transactions block !! S k = Some b ->
        HashCompare (TxHash a) (TxHash b) < 0)
  /\ last (BuildMerkleTreeStore (Transactions block))
     = Some (Some (MerkleRoot (Header block)))
  /\ NoDup (map TxHash (Transactions block)).
Proof.
  unfold checkBlockSanity. cbv zeta.
  destruct (checkBlockHeaderSanity (Header block) powLimit flags) as [[]| |];
    cbn [Go.bind]; try discriminate.
  destruct (Transactions block) as [|cb rest] eqn:Et; [discriminate|].
  replace (len (cb :: rest) =? 0) with false
    by (symmetry; apply Z.eqb_neq; unfold len; simpl length; lia).
  rewrite ConnectFacts.index_head. cbn [Go.bind].
  destruct (IsCoinBase cb) as [[|]| |] eqn:Ec; cbn [Go.bind]; try discriminate.
  simpl negb. cbv iota. change (skipn 1 (cb :: rest)) with rest.
  destruct (checkNoMoreCoinbases rest) as [[]| |] eqn:En; cbn [Go.bind];
    try discriminate.
  destruct (checkTransactions (cb :: rest) 0 None _ _) as [[]| |] eqn:Ex;
    cbn [Go.bind]; try discriminate.
  destruct (Go.index _ _) as [root| |] eqn:Em; cbn [Go.bind]; try discriminate.
  destruct root as [root|]; [|simpl negb; cbv iota; discriminate].
  destruct (Z.eqb_spec (MerkleRoot (Header block)) root) as [Hroot|]; [|discriminate].
  simpl negb. cbv iota. intros Hd.
  destruct (checkTransactions_sound _ 0 _ _ _ Ex) as [Hall Hord].
  split; [reflexivity|].
  split; [exists cb, rest; split; [reflexivity|]; split;
          [exact Ec | exact (checkNoMoreCoinbases_sound _ En)]|].
  split; [exact Hall|].
  split; [intros Hma k a b Hk Ea Eb; exact (proj2 (Hord Hma) k a b Ea Eb Hk)|].
  split; [|exact (proj1 (checkDuplicateTxs_sound _ _ Hd))].
  apply index_Ok in Em as [Hb Hl]. subst root.
  rewrite last_lookup, <- Hl. f_equal. unfold len. lia.
Qed.

(** X30. A block with a sane header whose first transaction has no
    input makes [checkBlockSanity] panic with an index out of range,
    though [CheckTransactionSanity] would reject that transaction with
    [ErrNoTxInputs]. *)
Theorem checkBlockSanity_first_tx_without_inputs (block : Block)
    (powLimit flags : Z) (tx0 : MsgTx) (rest : list MsgTx) :
  checkBlockHeaderSanity (Header block) powLimit flags = Ok tt ->
  Transactions block = tx0 :: rest ->
  TxIns tx0 = nil ->
  checkBlockSanity block powLimit flags = Panic "index out of range"
  /\ CheckTransactionSanity tx0 (HasFlag flags BFMagneticAnomaly)
       (sanityScriptFlags (HasFlag flags BFMagneticAnomaly))
     = Err (ruleError ErrNoTxInputs).
Proof.
  intros Hh Ht Hi. split.
  - unfold checkBlockSanity. cbv zeta. rewrite Hh, Ht. cbn [Go.bind].
    replace (len (tx0 :: rest) =? 0) with false
      by (symmetry; apply Z.eqb_neq; unfold len; simpl length; lia).
    rewrite ConnectFacts.index_head. cbn [Go.bind].
    unfold IsCoinBase, IsCoinBaseTx, isCoinBaseAt, ExtractCoinbaseHeight.
    rewrite Hi. reflexivity.
  - unfold CheckTransactionSanity. rewrite Hi. reflexivity.
Qed.

End Facts.
Section Witnesses.
Import Fixtures Samples Validate BlockSanity.
Existing Instances quietScript plainEncoding openSeal versionEnv.

Lemma checkBlockHeaderSanity_accepts_witness :
  Pow.checkProofOfWork sampleHeader (2 ^ 224 - 1) 0 = Ok tt
  /\ timestampNanos sampleHeader = 0
  /\ headerTime sampleHeader <= timeNow + 10 * second
  /\ headerTime sampleHeader <= AdjustedTime + 7200 * second
  /\ ~ (snd (BlockByHash (PrevBlock sampleHeader)) <> None
        /\ int64 DeploymentSEQStartTime < Timestamp sampleHeader
        /\ exists p, fst (BlockByHash (PrevBlock sampleHeader)) = Some p
                     /\ headerTime sampleHeader < headerTime (Header p)).
Proof.
  apply (proj1 (checkBlockHeaderSanity_accepts sampleHeader (2 ^ 224 - 1) 0)).
  by_evaluation.
Defined.

Lemma checkBlockSanity_accepts_witness :
  checkBlockHeaderSanity (Header saneBlock) (2 ^ 224 - 1) 2 = Ok tt
  /\ (exists cb rest,
        Transactions saneBlock = cb :: rest
        /\ IsCoinBase cb = Ok true
        /\ Forall (fun tx => IsCoinBase tx = Ok false) rest)
  /\ Forall (fun tx =>
               CheckTransactionSanity tx (HasFlag 2 BFMagneticAnomaly)
                 (sanityScriptFlags (HasFlag 2 BFMagneticAnomaly)) = Ok tt)
       (Transactions saneBlock)
  /\ (HasFlag 2 BFMagneticAnomaly = true ->
      forall k a b, (1 <= k)%nat ->
        Transactions saneBlock !! k = Some a -> Transactions saneBlock !! S k = Some b ->
        HashCompare (TxHash a) (TxHash b) < 0)
  /\ last (BuildMerkleTreeStore (Transactions saneBlock))
     = Some (Some (MerkleRoot (Header saneBlock)))
  /\ NoDup (map TxHash (Transactions saneBlock)).
Proof.
  apply (checkBlockSanity_accepts saneBlock (2 ^ 224 - 1) 2). by_evaluation.
Defined.

Lemma checkBlockSanity_first_tx_without_inputs_witness :
  checkBlockSanity hollowBlock (2 ^ 224 - 1) 2 = Panic "index out of range"
  /\ CheckTransactionSanity (mkMsgTx 1 nil nil 0) (HasFlag 2 BFMagneticAnomaly)
       (sanityScriptFlags (HasFlag 2 BFMagneticAnomaly))
     = Err (ruleError ErrNoTxInputs).
Proof.
  apply (checkBlockSanity_first_tx_without_inputs hollowBlock (2 ^ 224 - 1) 2
           (mkMsgTx 1 nil nil 0) nil); by_evaluation.
Defined.

End Witnesses.

End BlockSanityFacts.
